(** * behavior_trends_analysis: a shallow embedding of the pandas pipeline

    The module [behavior_trends_analysis.py] cleans a retail transaction table
    and derives four aggregates from it.  This development models the
    DataFrame operations the module calls (label lookup, boolean indexing,
    column assignment, [groupby], [sort_values], [head], [reset_index]) and
    proves properties of the five functions built from them.

    Modelling conventions:
    - a DataFrame is a list of column labels and a list of rows of cells;
    - the [int64] sums of [groupby(...).sum()] wrap around ([wrap64]);
    - a [float64] value is the rational it denotes ([Qc]); the conversion of
      an [int64] and the product of two values round to 53 significant bits,
      ties to even ([round64]); the exponent range is not modelled (no
      overflow to infinity, no subnormal numbers); the sum the library
      forms over a group, for [sum] and for [mean], is taken exact, the
      order of its additions not being the module's to choose, and the
      properties that state the value of such a sum are stated for tables
      on which float64 addition is exact; the quotient of a mean rounds;
    - exceptions are values of [exn], threaded by the [result] monad;
    - [quarterly_revenue] assigns columns to the object it is given, so it is
      written in state-passing style over that object. *)

From Stdlib Require Import List ZArith QArith Qcanon String Ascii Bool Lia.
From Stdlib Require Import Permutation Sorted OrdersEx RelationClasses.
Import ListNotations.

Open Scope string_scope.
Open Scope list_scope.
Open Scope Z_scope.

(** ** Cells, series and frames *)

Inductive cell : Type :=
| NaN                         (* missing value: NaN, None or NaT *)
| Int (z : Z)                 (* int64 *)
| Float (q : Qc)              (* float64: the rational it denotes *)
| Str (s : string)            (* object holding a str *)
| Timestamp (y m d : Z)       (* datetime64, time of day not kept *)
| Period (y q : Z).           (* quarterly period: year and quarter 1..4 *)

Definition Series := list cell.

Record DataFrame : Type := mkDataFrame {
  columns : list string;
  rows : list (list cell)
}.

Definition cell_eqb (a b : cell) : bool :=
  match a, b with
  | NaN, NaN => true
  | Int x, Int y => x =? y
  | Float x, Float y => Qc_eq_bool x y
  | Str x, Str y => String.eqb x y
  | Timestamp y1 m1 d1, Timestamp y2 m2 d2 => (y1 =? y2) && (m1 =? m2) && (d1 =? d2)
  | Period y1 q1, Period y2 q2 => (y1 =? y2) && (q1 =? q2)
  | _, _ => false
  end.

Definition isna (c : cell) : bool :=
  match c with NaN => true | _ => false end.

Definition notna (c : cell) : bool := negb (isna c).

(** Two's complement wrap-around of a 64-bit signed integer. *)
Definition wrap64 (z : Z) : Z := (z + 2 ^ 63) mod 2 ^ 64 - 2 ^ 63.

(** ** Exceptions *)

Inductive exn : Type :=
| KeyError (label : string)
| TypeError
| ValueError
| DateParseError.

Inductive result (A : Type) : Type :=
| Ok (a : A)
| Raise (e : exn).

Arguments Ok {A} a.
Arguments Raise {A} e.

Definition bind {A B : Type} (m : result A) (k : A -> result B) : result B :=
  match m with
  | Ok a => k a
  | Raise e => Raise e
  end.

Notation "x <- m ;; k" := (bind m (fun x => k))
  (at level 61, m at next level, right associativity).

Fixpoint mapM {A B : Type} (f : A -> result B) (l : list A) : result (list B) :=
  match l with
  | [] => Ok []
  | a :: l' => b <- f a ;; bs <- mapM f l' ;; Ok (b :: bs)
  end.

(** ** Label lookup, boolean indexing, column assignment *)

Fixpoint get_loc (label : string) (cols : list string) : option nat :=
  match cols with
  | [] => None
  | c :: cs => if String.eqb label c then Some 0%nat
               else option_map S (get_loc label cs)
  end.

(** [df[label]]: the column as a series, [KeyError] when the label is absent. *)
Definition getitem (df : DataFrame) (label : string) : result Series :=
  match get_loc label (columns df) with
  | Some i => Ok (map (fun r => nth i r NaN) (rows df))
  | None => Raise (KeyError label)
  end.

(** [df[mask]]: a new frame with the rows whose mask entry is [True]. *)
Definition boolean_index (df : DataFrame) (mask : list bool) : DataFrame :=
  {| columns := columns df;
     rows := map fst (filter snd (combine (rows df) mask)) |}.

(** [df.dropna(subset=[label])]. *)
Definition dropna (df : DataFrame) (label : string) : result DataFrame :=
  s <- getitem df label ;;
  Ok (boolean_index df (map notna s)).

(** One cell of [series > 0]: a missing value compares false, an object
    that is not a number cannot be compared with an int. *)
Definition gt0 (c : cell) : result bool :=
  match c with
  | NaN => Ok false
  | Int z => Ok (0 <? z)
  | Float q => Ok (if Qclt_le_dec (Q2Qc 0) q then true else false)
  | _ => Raise TypeError
  end.

Definition series_gt0 (s : Series) : result (list bool) := mapM gt0 s.

Fixpoint mask_and (a b : list bool) : list bool :=
  match a, b with
  | x :: a', y :: b' => (x && y)%bool :: mask_and a' b'
  | _, _ => []
  end.

(** ** filter_data (lines 29-41) *)

Definition filter_data (df : DataFrame) : result DataFrame :=
  df <- dropna df "CustomerID" ;;
  quantity <- getitem df "Quantity" ;;
  qpos <- series_gt0 quantity ;;
  unit_price <- getitem df "UnitPrice" ;;
  ppos <- series_gt0 unit_price ;;
  Ok (boolean_index df (mask_and qpos ppos)).

(** ** groupby

    [df.groupby(by)[col]] with the defaults [sort=True, dropna=True]: one
    group per distinct non-missing key, the groups in ascending key order,
    each group holding the cells of [col] of its rows in row order. *)

(** Distinct non-missing keys in order of first appearance. *)
Fixpoint uniques (keys : Series) : Series :=
  match keys with
  | [] => []
  | k :: ks =>
      if isna k then uniques ks
      else k :: filter (fun k' => negb (cell_eqb k k')) (uniques ks)
  end.

Definition kind (c : cell) : nat :=
  match c with
  | NaN => 0 | Int _ => 1 | Float _ => 2 | Str _ => 3
  | Timestamp _ _ _ => 4 | Period _ _ => 5
  end.

Definition lex (c1 c2 : comparison) : comparison :=
  match c1 with Eq => c2 | _ => c1 end.

(** The order of the key sort: numbers by value, strings lexicographically,
    dates and periods chronologically. *)
Definition cell_compare (a b : cell) : comparison :=
  match a, b with
  | Int x, Int y => x ?= y
  | Float x, Float y => (x ?= y)%Qc
  | Str x, Str y => String_as_OT.compare x y
  | Timestamp y1 m1 d1, Timestamp y2 m2 d2 =>
      lex (y1 ?= y2) (lex (m1 ?= m2) (d1 ?= d2))
  | Period y1 q1, Period y2 q2 => lex (y1 ?= y2) (q1 ?= q2)
  | _, _ => Nat.compare (kind a) (kind b)
  end.

Definition cell_leb (a b : cell) : bool :=
  match cell_compare a b with Gt => false | _ => true end.

Fixpoint insert_key (k : cell) (l : Series) : Series :=
  match l with
  | [] => [k]
  | h :: t => if cell_leb k h then k :: l else h :: insert_key k t
  end.

Definition sort_keys (l : Series) : Series := fold_right insert_key [] l.

Definition group_values (k : cell) (keys vals : Series) : Series :=
  map snd (filter (fun kv => cell_eqb (fst kv) k) (combine keys vals)).

Definition groupby (keys vals : Series) : list (cell * Series) :=
  map (fun k => (k, group_values k keys vals)) (sort_keys (uniques keys)).

(** A series with its index: the result of an aggregation over groups. *)
Definition IndexedSeries := list (cell * cell).

(** *** Aggregations *)

Definition is_int (c : cell) : bool :=
  match c with Int _ => true | _ => false end.

Definition Z2Qc (z : Z) : Qc := Q2Qc (inject_Z z).

(** *** Rounding to binary64

    [n / d] rounded to the nearest integer, ties to even ([0 < d]). *)
Definition round_half_even (n d : Z) : Z :=
  let q := n / d in
  match 2 * (n mod d) ?= d with
  | Lt => q
  | Gt => q + 1
  | Eq => if Z.even q then q else q + 1
  end.

(** The binary exponent of [n / d]: the floor of its base-2 logarithm
    ([0 < n], [0 < d]). *)
Definition log2_ratio (n d : Z) : Z :=
  let l := Z.log2 n - Z.log2 d in
  if 0 <=? l then (if d * 2 ^ l <=? n then l else l - 1)
  else (if d <=? n * 2 ^ (- l) then l else l - 1).

(** [n / d] rounded to 53 significant bits: with [e] the exponent of the
    last bit kept, the nearest multiple of [2 ^ e]. *)
Definition round64_pos (n d : Z) : Q :=
  let e := log2_ratio n d - 52 in
  if 0 <=? e then inject_Z (round_half_even n (d * 2 ^ e) * 2 ^ e)
  else Qmake (round_half_even (n * 2 ^ (- e)) d) (Z.to_pos (2 ^ (- e))).

(** The float64 nearest to a rational. *)
Definition round64 (q : Qc) : Qc :=
  match Qnum q with
  | 0 => q
  | Zpos n => Q2Qc (round64_pos (Zpos n) (Zpos (Qden q)))
  | Zneg n => (- Q2Qc (round64_pos (Zpos n) (Zpos (Qden q))))%Qc
  end.

(** An int64 as a float64: exact up to 2^53, rounded beyond. *)
Definition float64_of_int (z : Z) : Qc := round64 (Z2Qc z).

(** The float64 product and quotient. *)
Definition float64_mul (x y : Qc) : Qc := round64 (x * y)%Qc.

Definition float64_div (x y : Qc) : Qc := round64 (x / y)%Qc.

(** The float64 view of a cell; a missing value is skipped by the sums. *)
Definition to_float (c : cell) : result (option Qc) :=
  match c with
  | NaN => Ok None
  | Int z => Ok (Some (float64_of_int z))
  | Float q => Ok (Some q)
  | _ => Raise TypeError
  end.

Fixpoint somes {A : Type} (l : list (option A)) : list A :=
  match l with
  | [] => []
  | Some a :: l' => a :: somes l'
  | None :: l' => somes l'
  end.

Definition float_values (s : Series) : result (list Qc) :=
  os <- mapM to_float s ;; Ok (somes os).

Definition Qc_sum (l : list Qc) : Qc := fold_right Qcplus (Q2Qc 0) l.

Definition int_value (c : cell) : Z :=
  match c with Int z => z | _ => 0 end.

(** An int64 accumulator: every addition wraps. *)
Definition int_sum (l : list Z) : Z :=
  fold_left (fun acc z => wrap64 (acc + z)) l 0.

Definition sum_int64 (s : Series) : result cell :=
  Ok (Int (int_sum (map int_value s))).

(** The float64 accumulator, its additions taken exact. *)
Definition sum_float64 (s : Series) : result cell :=
  fs <- float_values s ;; Ok (Float (Qc_sum fs)).

(** [mean]: the float64 quotient of the sum by the number of values. *)
Definition series_mean (s : Series) : result cell :=
  fs <- float_values s ;;
  Ok (match fs with
      | [] => NaN
      | _ => Float (float64_div (Qc_sum fs)
                      (float64_of_int (Z.of_nat (List.length fs))))
      end).

Definition aggregate (agg : Series -> result cell) (g : cell * Series)
  : result (cell * cell) :=
  v <- agg (snd g) ;; Ok (fst g, v).

Definition groupby_agg (agg : Series -> result cell)
    (df : DataFrame) (by_ col : string) : result IndexedSeries :=
  keys <- getitem df by_ ;;
  vals <- getitem df col ;;
  mapM (aggregate agg) (groupby keys vals).

(** [df.groupby(by)[col].sum()]: the key column is looked up first, and
    the dtype of the value column picks the accumulator, int64 when every
    cell is an integer and float64 otherwise. *)
Definition groupby_sum (df : DataFrame) (by_ col : string)
  : result IndexedSeries :=
  keys <- getitem df by_ ;;
  vals <- getitem df col ;;
  mapM (aggregate (if forallb is_int vals then sum_int64 else sum_float64))
       (groupby keys vals).

Definition groupby_mean := groupby_agg series_mean.

(** [df.groupby(by).size()]. *)
Definition groupby_size (df : DataFrame) (by_ : string) : result IndexedSeries :=
  keys <- getitem df by_ ;;
  Ok (map (fun g => (fst g, Int (Z.of_nat (List.length (snd g)))))
          (groupby keys keys)).

(** [series.reset_index(name=name)]: the index becomes the first column. *)
Definition reset_index (index_name name : string) (s : IndexedSeries)
  : DataFrame :=
  {| columns := [index_name; name];
     rows := map (fun kv => [fst kv; snd kv]) s |}.

(** ** loyalty_customers (lines 43-56) *)

(** One cell of [series >= n]. *)
Definition ge (n : Z) (c : cell) : result bool :=
  match c with
  | NaN => Ok false
  | Int z => Ok (n <=? z)
  | Float q => Ok (if Qclt_le_dec q (Z2Qc n) then false else true)
  | _ => Raise TypeError
  end.

Definition loyalty_customers (df : DataFrame) (min_purchases : Z)
  : result DataFrame :=
  customer_purchases <- groupby_size df "CustomerID" ;;
  mask <- mapM (ge min_purchases) (map snd customer_purchases) ;;
  let loyal := map fst (filter snd (combine customer_purchases mask)) in
  Ok (reset_index "CustomerID" "Purchase Count" loyal).

(** ** high_demand_products (lines 73-85) *)

Fixpoint insert_by_value (x : cell * cell) (l : IndexedSeries) : IndexedSeries :=
  match l with
  | [] => [x]
  | h :: t => if cell_leb (snd x) (snd h) then x :: l
              else h :: insert_by_value x t
  end.

(** The kernel of the examples: an insertion sort on the values.  It sorts,
    as numpy's kernel does, and it is stable, which numpy's default
    quicksort need not be: nothing is proved of the code from its
    stability. *)
Definition argsort_stable (l : IndexedSeries) : IndexedSeries :=
  fold_right insert_by_value [] l.

(** [series.head(n)] is [series.iloc[:n]]: a negative [n] counts from the end. *)
Definition head {A : Type} (l : list A) (n : Z) : list A :=
  if 0 <=? n then firstn (Z.to_nat n) l
  else firstn (List.length l - Z.to_nat (- n)) l.

Section SortKernel.

(** [sort_values] sorts with numpy's kernel, by default [kind='quicksort'],
    which makes no promise on the order of equal values.  The model takes
    the kernel as a parameter: a function that puts an indexed series in
    ascending order of its values. *)
Variable argsort : IndexedSeries -> IndexedSeries.

(** [series.sort_values(ascending=False)]: the missing values go last; the
    others are reversed, sorted ascending and reversed again, so that a stable
    kernel leaves equal values in their original relative order. *)
Definition sort_values_descending (s : IndexedSeries) : IndexedSeries :=
  let non_nans := filter (fun kv => notna (snd kv)) s in
  let nans := filter (fun kv => isna (snd kv)) s in
  rev (argsort (rev non_nans)) ++ nans.

Definition high_demand_products (df : DataFrame) (top_n : Z)
  : result DataFrame :=
  grouped <- groupby_sum df "Description" "Quantity" ;;
  let product_demand := sort_values_descending grouped in
  Ok (reset_index "Description" "Total Quantity Sold"
                  (head product_demand top_n)).

End SortKernel.

(** ** purchase_patterns (lines 87-101) *)

Fixpoint join_aggregates (a b : IndexedSeries) : list (list cell) :=
  match a, b with
  | (k, x) :: a', (_, y) :: b' => [k; x; y] :: join_aggregates a' b'
  | _, _ => []
  end.

Definition purchase_patterns (df : DataFrame) : result DataFrame :=
  avg_quantity <- groupby_mean df "Description" "Quantity" ;;
  avg_unit_price <- groupby_mean df "Description" "UnitPrice" ;;
  Ok {| columns := ["Description"; "avg_quantity"; "avg_unit_price"];
        rows := join_aggregates avg_quantity avg_unit_price |}.

(** ** quarterly_revenue (lines 58-71)

    The function assigns two columns to the frame it receives, which is the
    caller's object: it is a computation over that object's state, and the
    state reached when an exception is raised is kept. *)

Definition M (A : Type) : Type := DataFrame -> DataFrame * result A.

Definition retM {A : Type} (a : A) : M A := fun df => (df, Ok a).

Definition bindM {A B : Type} (m : M A) (k : A -> M B) : M B :=
  fun df =>
    match m df with
    | (df', Ok a) => k a df'
    | (df', Raise e) => (df', Raise e)
    end.

Notation "x <~ m ;; k" := (bindM m (fun x => k))
  (at level 61, m at next level, right associativity).

(** An expression that reads the frame. *)
Definition read {A : Type} (f : DataFrame -> result A) : M A :=
  fun df => (df, f df).

(** An expression that does not touch the frame. *)
Definition pure {A : Type} (r : result A) : M A := fun df => (df, r).

Fixpoint replace_nth (i : nat) (v : cell) (r : list cell) : list cell :=
  match i, r with
  | O, _ :: r' => v :: r'
  | S i', c :: r' => c :: replace_nth i' v r'
  | _, [] => []
  end.

Fixpoint zip_with {A B C : Type} (f : A -> B -> C) (a : list A) (b : list B)
  : list C :=
  match a, b with
  | x :: a', y :: b' => f x y :: zip_with f a' b'
  | _, _ => []
  end.

(** The frame after [df[label] = s]: an existing column is overwritten, a
    new one is appended at the end. *)
Definition set_column (df : DataFrame) (label : string) (s : Series)
  : DataFrame :=
  match get_loc label (columns df) with
  | Some i =>
      {| columns := columns df;
         rows := zip_with (fun r v => replace_nth i v r) (rows df) s |}
  | None =>
      {| columns := columns df ++ [label];
         rows := zip_with (fun r v => r ++ [v]) (rows df) s |}
  end.

(** [df[label] = s]: the series must be as long as the frame. *)
Definition setitem (df : DataFrame) (label : string) (s : Series)
  : result DataFrame :=
  if negb (List.length s =? List.length (rows df))%nat then Raise ValueError
  else Ok (set_column df label s).

Definition assign (label : string) (s : Series) : M unit :=
  fun df =>
    match setitem df label s with
    | Ok df' => (df', Ok tt)
    | Raise e => (df, Raise e)
    end.

(** One cell of [a * b]: an int64 meeting a float64 is converted first. *)
Definition mul (a b : cell) : result cell :=
  match a, b with
  | Int x, Int y => Ok (Int (wrap64 (x * y)))
  | Int x, Float y => Ok (Float (float64_mul (float64_of_int x) y))
  | Float x, Int y => Ok (Float (float64_mul x (float64_of_int y)))
  | Float x, Float y => Ok (Float (float64_mul x y))
  | NaN, (NaN | Int _ | Float _) => Ok NaN
  | (Int _ | Float _), NaN => Ok NaN
  | _, _ => Raise TypeError
  end.

Definition series_mul (a b : Series) : result Series :=
  mapM (fun xy => mul (fst xy) (snd xy)) (combine a b).

(** Calendar quarter of a month: ceil(month / 3). *)
Definition quarter_of_month (m : Z) : Z := (m - 1) / 3 + 1.

(** [.dt.to_period('Q')] on one datetime cell. *)
Definition to_period_Q (c : cell) : result cell :=
  match c with
  | NaN => Ok NaN
  | Timestamp y m _ => Ok (Period y (quarter_of_month m))
  | _ => Raise TypeError
  end.

Section DateParser.

(** The string-to-date parser behind [pd.to_datetime] is the library's; the
    model takes it as a parameter.  [None] is a string it cannot parse. *)
Variable parse_datetime : string -> option (Z * Z * Z).

(** One cell of [pd.to_datetime(series)] with the default [errors='raise'].
    A string the parser cannot read raises: the model has the one label
    [DateParseError] for the [ValueError] the library then raises, which is
    of that subclass or not according to the place of the string in the
    column.  Numbers, which pandas reads as offsets from the epoch, are not
    modelled and are rejected. *)
Definition to_datetime_cell (c : cell) : result cell :=
  match c with
  | NaN => Ok NaN
  | Timestamp _ _ _ => Ok c
  | Str s =>
      match parse_datetime s with
      | Some (y, m, d) => Ok (Timestamp y m d)
      | None => Raise DateParseError
      end
  | _ => Raise TypeError
  end.

Definition to_datetime (s : Series) : result Series := mapM to_datetime_cell s.

Definition quarterly_revenue : M DataFrame :=
  quantity <~ read (fun df => getitem df "Quantity") ;;
  unit_price <~ read (fun df => getitem df "UnitPrice") ;;
  total <~ pure (series_mul quantity unit_price) ;;
  _ <~ assign "Total" total ;;
  invoice_date <~ read (fun df => getitem df "InvoiceDate") ;;
  datetimes <~ pure (to_datetime invoice_date) ;;
  quarter <~ pure (mapM to_period_Q datetimes) ;;
  _ <~ assign "Quarter" quarter ;;
  revenue <~ read (fun df => groupby_sum df "Quarter" "Total") ;;
  retM (reset_index "Quarter" "Total Revenue" revenue).

End DateParser.

(** ** The script body (lines 119-154), after the file has been loaded:
    the four aggregators run on the one cleaned frame. *)

Section Script.

Variable parse_datetime : string -> option (Z * Z * Z).

Variable argsort : IndexedSeries -> IndexedSeries.

Record Report : Type := mkReport {
  loyal_customers_df : DataFrame;
  quarterly_revenue_df : DataFrame;
  high_demand_df : DataFrame;
  patterns_df : DataFrame;
  cleaned_df : DataFrame      (* the cleaned frame as the script leaves it *)
}.

Definition main (df : DataFrame) : result Report :=
  cleaned <- filter_data df ;;
  loyal <- loyalty_customers cleaned 10 ;;
  let (cleaned', revenue) := quarterly_revenue parse_datetime cleaned in
  revenue <- revenue ;;
  high <- high_demand_products argsort cleaned' 5 ;;
  patterns <- purchase_patterns cleaned' ;;
  Ok (mkReport loyal revenue high patterns cleaned').

End Script.

(** ** import_data (lines 9-27)

    The two readers are the library's and read the file system; the model
    takes them as parameters.  A reader returns a frame or raises an
    exception, of which the function uses the message only. *)

Inductive read_result : Type :=
| ReadOk (df : DataFrame)
| ReadFails (message : string).      (* str(e) of the exception raised *)

(** What [import_data] gives its caller: a frame, or a [ValueError]. *)
Inductive import_result : Type :=
| Imported (df : DataFrame)
| RaiseValueError (message : string).

Fixpoint startswith (l prefix : list ascii) : bool :=
  match prefix, l with
  | [], _ => true
  | _ :: _, [] => false
  | a :: prefix', b :: l' => Ascii.eqb a b && startswith l' prefix'
  end.

(** [s.endswith(suffix)]. *)
Definition endswith (s suffix : string) : bool :=
  startswith (rev (list_ascii_of_string s)) (rev (list_ascii_of_string suffix)).

Definition unsupported_format : string :=
  "Unsupported file format. Please provide an Excel (.xlsx) or CSV (.csv) file.".

Section Readers.

Variable read_excel : string -> read_result.
Variable read_csv : string -> read_result.

(** The body of the [try]: it returns a frame or raises. *)
Definition import_data_body (filename : string) : read_result :=
  if endswith filename ".xlsx" then read_excel filename
  else if endswith filename ".csv" then read_csv filename
  else ReadFails unsupported_format.

(** The handler catches every exception of the body, the one the body raises
    itself included, and raises a [ValueError] in its place. *)
Definition import_data (filename : string) : import_result :=
  match import_data_body filename with
  | ReadOk df => Imported df
  | ReadFails e =>
      RaiseValueError
        ("Error loading file " ++ filename ++ ": " ++ e)%string
  end.

End Readers.

(** ** A concrete parser: dates written YYYY-MM-DD *)

Definition digit (a : ascii) : option Z :=
  let n := Z.of_nat (nat_of_ascii a) in
  if (48 <=? n) && (n <=? 57) then Some (n - 48) else None.

Fixpoint digits (l : list ascii) (acc : Z) : option Z :=
  match l with
  | [] => Some acc
  | a :: l' => match digit a with
               | Some d => digits l' (10 * acc + d)
               | None => None
               end
  end.

Definition parse_iso_date (s : string) : option (Z * Z * Z) :=
  match list_ascii_of_string s with
  | [y1; y2; y3; y4; "-"%char; m1; m2; "-"%char; d1; d2] =>
      match digits [y1; y2; y3; y4] 0, digits [m1; m2] 0, digits [d1; d2] 0 with
      | Some y, Some m, Some d =>
          if (1 <=? m) && (m <=? 12) && (1 <=? d) && (d <=? 31)
          then Some (y, m, d) else None
      | _, _, _ => None
      end
  | _ => None
  end.

(** ** The worked example of the specification *)

Definition retail_columns : list string :=
  ["CustomerID"; "Quantity"; "UnitPrice"; "Description"; "InvoiceDate"].

Definition transaction (cust qty : Z) (price : Q) (desc date : string)
  : list cell :=
  [Int cust; Int qty; Float (Q2Qc price); Str desc; Str date].

Definition example_cleaned : DataFrame :=
  {| columns := retail_columns;
     rows := [ transaction 1 5 2 "A" "2011-01-15";
               transaction 1 3 2 "A" "2011-02-10";
               transaction 2 1 10 "B" "2011-04-05" ] |}.

(** * Specification vocabulary

    The predicates and functions in which the properties are stated. *)

(** ** Cells by label and decidable equality *)

(** The cell of row [r] under [label], as [getitem] reads it. *)
Definition cell_at (cols : list string) (label : string) (r : list cell) : cell :=
  match get_loc label cols with
  | Some i => nth i r NaN
  | None => NaN
  end.

Definition cell_eq_dec (a b : cell) : {a = b} + {a <> b}.
Proof.
  decide equality;
    first [apply Z.eq_dec | apply Qc_eq_dec | apply string_dec].
Defined.

(** ** Raw tables and the rows the cleaner keeps *)

Definition numeric (c : cell) : bool :=
  match c with NaN | Int _ | Float _ => true | _ => false end.

(** [c > 0] for a number; a missing value is not positive. *)
Definition positive (c : cell) : bool :=
  match c with
  | Int z => 0 <? z
  | Float q => if Qclt_le_dec (Q2Qc 0) q then true else false
  | _ => false
  end.

(** [c > 0] as a proposition. *)
Definition gt_zero (c : cell) : Prop :=
  match c with
  | Int z => 0 < z
  | Float q => (Q2Qc 0 < q)%Qc
  | _ => False
  end.

(** A raw table: the three columns the cleaner reads are there and the two
    it compares with zero hold numbers (or missing values). *)
Record raw_table (df : DataFrame) : Prop := {
  raw_customer : In "CustomerID" (columns df);
  raw_quantity : In "Quantity" (columns df);
  raw_unit_price : In "UnitPrice" (columns df);
  raw_numbers : forall r, In r (rows df) ->
      numeric (cell_at (columns df) "Quantity" r) = true /\
      numeric (cell_at (columns df) "UnitPrice" r) = true
}.

(** The rows the cleaner keeps. *)
Definition complete_and_positive (cols : list string) (r : list cell) : bool :=
  notna (cell_at cols "CustomerID" r)
  && positive (cell_at cols "Quantity" r)
  && positive (cell_at cols "UnitPrice" r).

(** A raw table with a row of each kind the cleaner removes. *)
Definition example_raw : DataFrame :=
  {| columns := retail_columns;
     rows := [ transaction 1 5 2 "A" "2011-01-15";
               [NaN; Int 4; Float (Q2Qc 3); Str "C"; Str "2011-01-16"];
               transaction 3 (-2) 2 "A" "2011-01-17";
               transaction 1 3 2 "A" "2011-02-10";
               transaction 4 6 0 "D" "2011-03-01";
               transaction 2 1 10 "B" "2011-04-05" ] |}.

(** ** Cleaned tables *)

(** A row of the cleaned table: as wide as the header, a customer
    identifier, a product label, a positive integer quantity, a positive
    unit price and an invoice date (a datetime or a string still to parse). *)
Record cleaned_row (cols : list string) (r : list cell) : Prop := {
  row_width : List.length r = List.length cols;
  row_customer : cell_at cols "CustomerID" r <> NaN;
  row_description : exists d, cell_at cols "Description" r = Str d;
  row_quantity : exists z, cell_at cols "Quantity" r = Int z /\ 0 < z;
  row_unit_price :
    exists q, cell_at cols "UnitPrice" r = Float q /\ (Q2Qc 0 < q)%Qc;
  row_invoice_date :
    match cell_at cols "InvoiceDate" r with
    | Timestamp _ _ _ | Str _ => True
    | _ => False
    end
}.

Record cleaned_table (df : DataFrame) : Prop := {
  has_customer : In "CustomerID" (columns df);
  has_description : In "Description" (columns df);
  has_quantity : In "Quantity" (columns df);
  has_unit_price : In "UnitPrice" (columns df);
  has_invoice_date : In "InvoiceDate" (columns df);
  cleaned_rows : Forall (cleaned_row (columns df)) (rows df)
}.

Definition wellformed (df : DataFrame) : Prop :=
  Forall (fun r => List.length r = List.length (columns df)) (rows df).

(** ** Customers and their purchase counts *)

Definition customers (df : DataFrame) : Series :=
  map (cell_at (columns df) "CustomerID") (rows df).

(** The number of rows of the table that carry customer [c]. *)
Definition purchase_count (df : DataFrame) (c : cell) : Z :=
  Z.of_nat (List.length
    (filter (fun r => cell_eqb (cell_at (columns df) "CustomerID" r) c)
            (rows df))).

(** ** Orders on keys and on values *)

Definition is_str (c : cell) : bool :=
  match c with Str _ => true | _ => false end.

Definition cell_lt (a b : cell) : Prop := cell_compare a b = Lt.

Definition int_valued (l : IndexedSeries) : Prop :=
  Forall (fun kv => is_int (snd kv) = true) l.

(** Ascending by value; equal values in the order [before]. *)
Definition value_then (before : cell * cell -> cell * cell -> Prop)
    (a b : cell * cell) : Prop :=
  int_value (snd a) < int_value (snd b) \/
  (int_value (snd a) = int_value (snd b) /\ before a b).

(** ** Product demand and its ranking *)

Definition descriptions (df : DataFrame) : Series :=
  map (cell_at (columns df) "Description") (rows df).

(** The int64 sum of the quantities of the rows that carry product [d]. *)
Definition quantity_sold (df : DataFrame) (d : cell) : Z :=
  int_sum
    (map (fun r => int_value (cell_at (columns df) "Quantity" r))
         (filter (fun r => cell_eqb (cell_at (columns df) "Description" r) d)
                 (rows df))).

(** The grouped sums, in ascending order of description. *)
Definition product_demand (df : DataFrame) : IndexedSeries :=
  map (fun d => (d, Int (quantity_sold df d)))
      (sort_keys (uniques (descriptions df))).

(** A sort kernel returns a rearrangement of its input in ascending order
    of the values. *)
Definition value_le (a b : cell * cell) : Prop :=
  int_value (snd a) <= int_value (snd b).

Record sort_kernel (argsort : IndexedSeries -> IndexedSeries) : Prop := {
  kernel_perm : forall l, Permutation (argsort l) l;
  kernel_sorted :
    forall l, int_valued l -> StronglySorted value_le (argsort l)
}.

(** A stable kernel moreover keeps equal values in the order of its input:
    whatever order [before] the input is in, the output is in ascending order
    of the values and, among equal values, in the order [before]. *)
Record stable_kernel (argsort : IndexedSeries -> IndexedSeries) : Prop := {
  stable_perm : forall l, Permutation (argsort l) l;
  stable_sorted :
    forall (before : cell * cell -> cell * cell -> Prop) l,
      int_valued l -> StronglySorted before l ->
      StronglySorted (value_then before) (argsort l)
}.

Definition ranking (argsort : IndexedSeries -> IndexedSeries)
    (df : DataFrame) : IndexedSeries :=
  sort_values_descending argsort (product_demand df).

(** The order of the ranking: larger sums first, and among equal sums the
    smaller description first. *)
Definition ranks_before (a b : cell * cell) : Prop :=
  int_value (snd b) < int_value (snd a) \/
  (int_value (snd a) = int_value (snd b) /\ cell_lt (fst a) (fst b)).

Definition as_rows (s : IndexedSeries) : list (list cell) :=
  map (fun kv => [fst kv; snd kv]) s.

(** The number of distinct product descriptions of the table. *)
Definition distinct_products (df : DataFrame) : nat :=
  List.length (nodup cell_eq_dec (descriptions df)).

(** ** Tie-breaks and negative cutoffs *)

(** Some occurrence of [d1] precedes every occurrence of [d2]. *)
Definition first_appears_before (d1 d2 : cell) (s : Series) : Prop :=
  d1 <> d2 /\ exists l1 l2, s = l1 ++ d1 :: l2 /\ ~ In d2 l1.

(** The tie-break by first appearance: a product that is in the result
    brings with it, and after them, every product with the same sum that
    appears earlier in the table. *)
Definition ties_by_first_appearance (df out : DataFrame) : Prop :=
  forall d1 d2 q,
    first_appears_before d1 d2 (descriptions df) ->
    quantity_sold df d1 = q -> quantity_sold df d2 = q ->
    In [d2; Int q] (rows out) ->
    exists l1 l2 l3,
      rows out = l1 ++ [d1; Int q] :: l2 ++ [d2; Int q] :: l3.

(** C2 as stated, for a given sort kernel. *)
Definition first_appearance_tie_break
    (argsort : IndexedSeries -> IndexedSeries) : Prop :=
  forall df top_n out,
    cleaned_table df -> 0 <= top_n ->
    high_demand_products argsort df top_n = Ok out ->
    ties_by_first_appearance df out.

(** Two products with the same quantity, "B" sold before "A". *)
Definition tied_products : DataFrame :=
  {| columns := retail_columns;
     rows := [ transaction 1 1 2 "B" "2011-01-15";
               transaction 2 1 2 "A" "2011-01-16" ] |}.

Definition tied_products_swapped : DataFrame :=
  {| columns := retail_columns;
     rows := [ transaction 2 1 2 "A" "2011-01-16";
               transaction 1 1 2 "B" "2011-01-15" ] |}.

(** C10 as stated: for a negative [top_n] the call succeeds, its result is
    not empty, and it is the first max(d - |top_n|, 0) entries of the
    ranking. *)
Definition negative_top_n_never_empty
    (argsort : IndexedSeries -> IndexedSeries) : Prop :=
  forall df top_n,
    cleaned_table df -> top_n < 0 ->
    exists out,
      high_demand_products argsort df top_n = Ok out /\
      rows out <> [] /\
      rows out =
      firstn (distinct_products df - Z.to_nat (- top_n))
             (as_rows (ranking argsort df)).

(** ** Means *)

(** A rational that is a float64 value. *)
Definition float64 (q : Qc) : Prop := round64 q = q.

Definition float_of (c : cell) : option Qc :=
  match c with
  | Int z => Some (float64_of_int z)
  | Float q => Some q
  | _ => None
  end.

(** The mean of the numbers of a series, missing values left out: the
    float64 quotient of their sum by their number. *)
Definition mean (s : Series) : cell :=
  match somes (map float_of s) with
  | [] => NaN
  | fs => Float (float64_div (Qc_sum fs)
                   (float64_of_int (Z.of_nat (List.length fs))))
  end.

(** The mean of column [col] over the rows that carry product [d]. *)
Definition product_mean (df : DataFrame) (col : string) (d : cell) : cell :=
  mean (map (cell_at (columns df) col)
            (filter (fun r => cell_eqb (cell_at (columns df) "Description" r) d)
                    (rows df))).

(** C9 as stated: the averages of a product with one row are that row's
    quantity and unit price. *)
Definition single_transaction_exact : Prop :=
  forall df r d z q,
    cleaned_table df ->
    filter (fun r' => cell_eqb (cell_at (columns df) "Description" r') d)
           (rows df) = [r] ->
    cell_at (columns df) "Quantity" r = Int z ->
    cell_at (columns df) "UnitPrice" r = Float q ->
    exists out,
      purchase_patterns df = Ok out /\
      In [d; Float (Z2Qc z); Float q] (rows out).

(** One sale of 2^53 + 1 units, the first integer that is not a float64. *)
Definition large_quantity : DataFrame :=
  {| columns := retail_columns;
     rows := [ transaction 1 (2 ^ 53 + 1) 2 "A" "2011-01-15" ] |}.

(** ** Line revenue and quarters *)

(** Quantity x unit price of a row, as the float64 product stores it. *)
Definition line_revenue (cols : list string) (r : list cell) : Qc :=
  match cell_at cols "Quantity" r, cell_at cols "UnitPrice" r with
  | Int z, Float q => float64_mul (float64_of_int z) q
  | _, _ => Q2Qc 0
  end.

Definition totals (df : DataFrame) : Series :=
  map (fun r => Float (line_revenue (columns df) r)) (rows df).

Definition with_total (df : DataFrame) : DataFrame :=
  set_column df "Total" (totals df).

Section RevenueVocabulary.

Variable parse_datetime : string -> option (Z * Z * Z).

(** An invoice date that [pd.to_datetime] accepts. *)
Definition parses (c : cell) : Prop :=
  match c with
  | Timestamp _ _ _ => True
  | Str s => parse_datetime s <> None
  | _ => False
  end.

Definition all_dates_parse (df : DataFrame) : Prop :=
  forall r, In r (rows df) -> parses (cell_at (columns df) "InvoiceDate" r).

Definition datetime_of (c : cell) : cell :=
  match c with
  | Timestamp _ _ _ => c
  | Str s => match parse_datetime s with
             | Some (y, m, d) => Timestamp y m d
             | None => NaN
             end
  | _ => NaN
  end.

Definition quarter_of (c : cell) : cell :=
  match datetime_of c with
  | Timestamp y m _ => Period y (quarter_of_month m)
  | _ => NaN
  end.

Definition quarters (df : DataFrame) : Series :=
  map (fun r => quarter_of (cell_at (columns df) "InvoiceDate" r)) (rows df).

Definition with_quarter (df : DataFrame) : DataFrame :=
  set_column (with_total df) "Quarter" (quarters df).

(** The revenue of the rows that fall in quarter [k]. *)
Definition quarter_revenue (df : DataFrame) (k : cell) : Qc :=
  Qc_sum (map (line_revenue (columns df))
              (filter (fun r => cell_eqb
                         (quarter_of (cell_at (columns df) "InvoiceDate" r)) k)
                      (rows df))).

Definition revenue (df : DataFrame) : IndexedSeries :=
  map (fun k => (k, Float (quarter_revenue df k)))
      (sort_keys (uniques (quarters df))).

End RevenueVocabulary.

(** A cleaned table with an invoice date that is not a date. *)
Definition unparsable_date_table : DataFrame :=
  {| columns := retail_columns;
     rows := [ transaction 1 5 2 "A" "2011-01-15";
               transaction 2 1 10 "B" "next week" ] |}.

(** ** Tables on which float64 sums are exact *)


(** The amount of a row whose unit price is a whole number. *)
Definition amount (cols : list string) (r : list cell) : Z :=
  match cell_at cols "Quantity" r, cell_at cols "UnitPrice" r with
  | Int z, Float q => z * Qnum q
  | _, _ => 0
  end.

(** Unit prices that are whole numbers, and amounts that add up to 2^53 at
    most.  On a cleaned table of this kind every sum of quantities, of unit
    prices or of line revenues is an integer up to 2^53, which is a float64
    value: float64 addition is exact on them, in whatever order the library
    adds. *)
Record whole_amounts (df : DataFrame) : Prop := {
  whole_prices : forall r, In r (rows df) ->
    exists p, cell_at (columns df) "UnitPrice" r = Float (Z2Qc p);
  amounts_fit :
    fold_right Z.add 0 (map (amount (columns df)) (rows df)) <= 2 ^ 53
}.

(** A table read from a spreadsheet holds its invoice dates as datetimes:
    [pd.to_datetime] has nothing to parse. *)
Definition dates_are_datetimes (df : DataFrame) : Prop :=
  forall r, In r (rows df) ->
    exists y m d, cell_at (columns df) "InvoiceDate" r = Timestamp y m d.

Definition sale (cust qty : Z) (price : Qc) (desc : string) (y m d : Z)
  : list cell :=
  [Int cust; Int qty; Float price; Str desc; Timestamp y m d].

(** Two sales in one quarter and one in the next, and the same sales in
    another order. *)
Definition dated_sales : DataFrame :=
  {| columns := retail_columns;
     rows := [ sale 1 5 (Z2Qc 2) "A" 2011 1 15;
               sale 2 1 (Z2Qc 10) "B" 2011 4 5;
               sale 1 3 (Z2Qc 2) "A" 2011 2 10 ] |}.

Definition dated_sales_reordered : DataFrame :=
  {| columns := retail_columns;
     rows := [ sale 2 1 (Z2Qc 10) "B" 2011 4 5;
               sale 1 3 (Z2Qc 2) "A" 2011 2 10;
               sale 1 5 (Z2Qc 2) "A" 2011 1 15 ] |}.




(** ** Typed raw tables *)

(** A row as the retail file holds it: a product label, an integer quantity,
    a unit price (or none) and an invoice date; the customer may be
    missing, and quantity and price may be zero or negative. *)
Record retail_row (cols : list string) (r : list cell) : Prop := {
  retail_width : List.length r = List.length cols;
  retail_description : exists d, cell_at cols "Description" r = Str d;
  retail_quantity : exists z, cell_at cols "Quantity" r = Int z;
  retail_unit_price :
    cell_at cols "UnitPrice" r = NaN \/
    exists q, cell_at cols "UnitPrice" r = Float q;
  retail_invoice_date :
    match cell_at cols "InvoiceDate" r with
    | Timestamp _ _ _ | Str _ => True
    | _ => False
    end
}.

Record retail_table (df : DataFrame) : Prop := {
  retail_customer : In "CustomerID" (columns df);
  retail_has_description : In "Description" (columns df);
  retail_has_quantity : In "Quantity" (columns df);
  retail_has_unit_price : In "UnitPrice" (columns df);
  retail_has_invoice_date : In "InvoiceDate" (columns df);
  retail_rows : Forall (retail_row (columns df)) (rows df)
}.

(** A table with text where a quantity should be. *)
Definition mistyped_quantity : DataFrame :=
  {| columns := retail_columns;
     rows := [ transaction 1 5 2 "A" "2011-01-15";
               [Int 2; Str "five"; Float (Q2Qc 3); Str "C"; Str "2011-01-16"] ] |}.

(** ** Reading result rows *)

Definition str_value (c : cell) : string :=
  match c with Str s => s | _ => "" end.

Definition float_value (c : cell) : Qc :=
  match c with Float q => q | _ => Q2Qc 0 end.

(** The rows of the table that carry product [d]. *)
Definition product_rows (df : DataFrame) (d : cell) : list (list cell) :=
  filter (fun r => cell_eqb (cell_at (columns df) "Description" r) d) (rows df).

(** ** Quarters in time *)

Definition period_year (c : cell) : Z :=
  match c with Period y _ => y | _ => 0 end.

Definition period_quarter (c : cell) : Z :=
  match c with Period _ q => q | _ => 0 end.

(** An earlier quarter: an earlier year, or the same year and an earlier
    quarter of it. *)
Definition earlier (a b : Z * Z) : Prop :=
  fst a < fst b \/ (fst a = fst b /\ snd a < snd b).

(** ** Tables with some invoice dates missing *)

Section MissingDates.

Variable parse_datetime : string -> option (Z * Z * Z).

(** A frame [quarterly_revenue] can work on: integer quantities, unit
    prices, and invoice dates that parse or are missing. *)
Record revenue_ready (df : DataFrame) : Prop := {
  ready_quantity : In "Quantity" (columns df);
  ready_unit_price : In "UnitPrice" (columns df);
  ready_invoice_date : In "InvoiceDate" (columns df);
  ready_wellformed : wellformed df;
  ready_rows : forall r, In r (rows df) ->
    (exists z, cell_at (columns df) "Quantity" r = Int z) /\
    (exists q, cell_at (columns df) "UnitPrice" r = Float q) /\
    (cell_at (columns df) "InvoiceDate" r = NaN \/
     parses parse_datetime (cell_at (columns df) "InvoiceDate" r))
}.

(** The rows that have an invoice date. *)
Definition dated_rows (df : DataFrame) : list (list cell) :=
  filter (fun r => notna (cell_at (columns df) "InvoiceDate" r)) (rows df).

End MissingDates.

(** The worked example with a row whose invoice date is missing. *)
Definition example_missing_date : DataFrame :=
  {| columns := retail_columns;
     rows := [ transaction 1 5 2 "A" "2011-01-15";
               [Int 3; Int 7; Float (Q2Qc 4); Str "C"; NaN];
               transaction 2 1 10 "B" "2011-04-05" ] |}.

(** ** Further vocabulary and examples *)

(** Readers for the examples: one file of each kind exists. *)
Definition example_read_excel (filename : string) : read_result :=
  if String.eqb filename "Online Retail.xlsx" then ReadOk example_raw
  else ReadFails "No such file or directory".

Definition example_read_csv (filename : string) : read_result :=
  if String.eqb filename "retail.csv" then ReadOk example_raw
  else ReadFails "No such file or directory".

(** The rows that reach the two comparisons: those with a customer. *)
Definition with_customer (df : DataFrame) : list (list cell) :=
  filter (fun r => notna (cell_at (columns df) "CustomerID" r)) (rows df).

(** The purchase count a result row carries. *)
Definition count_of (r : list cell) : Z := int_value (nth 1 r NaN).

(** Keys of one kind, as a column of the file holds: identifiers that are
    all integers, or all text (some possibly missing). *)
Definition one_kind (s : Series) : Prop :=
  forall a b, In a s -> In b s -> a <> NaN -> b <> NaN -> kind a = kind b.

(** A frame without a CustomerID column. *)
Definition no_customer : DataFrame :=
  {| columns := ["Quantity"; "UnitPrice"];
     rows := [[Int 1; Float (Z2Qc 2)]] |}.

(** A frame without a Quantity column. *)
Definition no_quantity : DataFrame :=
  {| columns := ["CustomerID"; "UnitPrice"];
     rows := [[Int 1; Float (Q2Qc 2)]] |}.

(** The exceptions that [except ValueError] catches: [DateParseError] is a
    subclass of [ValueError].  Which of the two [pd.to_datetime] raises for
    a string it cannot read depends on the place of the string in the
    column. *)
Definition is_value_error (e : exn) : Prop :=
  e = ValueError \/ e = DateParseError.

(** The frame the cleaner returns on a typed raw table. *)
Definition cleaned_of (df : DataFrame) : DataFrame :=
  {| columns := columns df;
     rows := filter (complete_and_positive (columns df)) (rows df) |}.

(** A raw table whose one complete row has a date that is not a date. *)
Definition raw_with_bad_date : DataFrame :=
  {| columns := retail_columns;
     rows := [ [NaN; Int 4; Float (Q2Qc 3); Str "C"; Str "no date"];
               transaction 2 1 10 "B" "next week" ] |}.

(** * Properties *)

(** ** The result monad and the list helpers *)

Lemma mapM_total {A B : Type} (f : A -> result B) (g : A -> B) (l : list A) :
  (forall a, In a l -> f a = Ok (g a)) -> mapM f l = Ok (map g l).
Proof.
  induction l as [|a l IH]; intros H; simpl; [reflexivity|].
  rewrite (H a (or_introl eq_refl)). simpl.
  rewrite IH by (intros; apply H; right; assumption).
  reflexivity.
Qed.

Lemma mapM_raise {A B : Type} (f : A -> result B) (l : list A) (a : A) (e : exn) :
  In a l -> f a = Raise e ->
  (forall a' e', In a' l -> f a' = Raise e' -> e' = e) ->
  mapM f l = Raise e.
Proof.
  induction l as [|x l IH]; simpl; intros Hin Ha Hone; [contradiction|].
  destruct (f x) as [b|e'] eqn:Ex; simpl.
  - destruct Hin as [->|Hin]; [congruence|].
    assert (mapM f l = Raise e) as ->.
    { apply IH; [assumption|assumption|].
      intros a' e' Ha'. apply Hone. right; assumption. }
    reflexivity.
  - f_equal. apply (Hone x e'); [left; reflexivity|exact Ex].
Qed.

Lemma filter_mask {A : Type} (f : A -> bool) (l : list A) :
  map fst (filter snd (combine l (map f l))) = filter f l.
Proof.
  induction l as [|a l IH]; simpl; [reflexivity|].
  destruct (f a); simpl; rewrite IH; reflexivity.
Qed.

Lemma mask_and_map {A : Type} (f g : A -> bool) (l : list A) :
  mask_and (map f l) (map g l) = map (fun a => f a && g a)%bool l.
Proof. induction l; simpl; congruence. Qed.

Lemma filter_twice {A : Type} (f g : A -> bool) (l : list A) :
  filter f (filter g l) = filter (fun a => g a && f a)%bool l.
Proof.
  induction l as [|a l IH]; simpl; [reflexivity|].
  destruct (g a); simpl; [destruct (f a)|]; rewrite IH; reflexivity.
Qed.

Lemma get_loc_In (label : string) (cols : list string) :
  In label cols -> exists i, get_loc label cols = Some i.
Proof.
  induction cols as [|c cs IH]; simpl; [contradiction|].
  intros H. destruct (String.eqb_spec label c) as [->|Hne]; [eauto|].
  destruct H as [H|H]; [congruence|].
  destruct (IH H) as [i ->]. simpl. eauto.
Qed.

Lemma get_loc_lt (label : string) (cols : list string) (i : nat) :
  get_loc label cols = Some i -> (i < List.length cols)%nat.
Proof.
  revert i; induction cols as [|c cs IH]; simpl; intros i H; [discriminate|].
  destruct (String.eqb label c).
  - injection H as <-. lia.
  - destruct (get_loc label cs) as [j|]; simpl in H; [|discriminate].
    injection H as <-. specialize (IH j eq_refl). lia.
Qed.

(** ** Rounding to binary64 *)

(** [2 ^ log2_ratio n d <= n / d]. *)
Lemma log2_ratio_lower (n d : Z) :
  0 < n -> 0 < d ->
  (0 <= log2_ratio n d -> d * 2 ^ log2_ratio n d <= n) /\
  (log2_ratio n d < 0 -> d <= n * 2 ^ (- log2_ratio n d)).
Proof.
  intros Hn Hd. unfold log2_ratio.
  destruct (Z.log2_spec n Hn) as [Hn1 Hn2].
  destruct (Z.log2_spec d Hd) as [Hd1 Hd2].
  pose proof (Z.log2_nonneg n) as Ha. pose proof (Z.log2_nonneg d) as Hb.
  set (a := Z.log2 n) in *. set (b := Z.log2 d) in *.
  destruct (Z.leb_spec 0 (a - b)) as [Hl|Hl].
  - destruct (Z.leb_spec (d * 2 ^ (a - b)) n) as [Hc|Hc].
    + split; [intros _; exact Hc|lia].
    + split.
      * intros Hl1.
        assert (E : 2 ^ a = 2 ^ (b + 1) * 2 ^ (a - b - 1))
          by (rewrite <- Z.pow_add_r by lia; f_equal; lia).
        assert (0 < 2 ^ (a - b - 1)) by (apply Z.pow_pos_nonneg; lia).
        nia.
      * intros Hl1. assert (a - b = 0) by lia.
        replace (- (a - b - 1)) with 1 by lia.
        replace (Z.succ b) with (Z.succ a) in Hd2 by lia.
        rewrite Z.pow_succ_r in Hd2 by lia. change (2 ^ 1) with 2. lia.
  - destruct (Z.leb_spec d (n * 2 ^ (- (a - b)))) as [Hc|Hc].
    + split; [lia|intros _; exact Hc].
    + split; [lia|]. intros _.
      assert (E : 2 ^ (Z.succ b) = 2 ^ a * 2 ^ (- (a - b - 1)))
        by (rewrite <- Z.pow_add_r by lia; f_equal; lia).
      assert (0 < 2 ^ (- (a - b - 1))) by (apply Z.pow_pos_nonneg; lia).
      nia.
Qed.

Lemma round_half_even_ge (n d : Z) : 0 < d -> n / d <= round_half_even n d.
Proof.
  intros Hd. unfold round_half_even.
  destruct (2 * (n mod d) ?= d); [destruct (Z.even (n / d))|..]; lia.
Qed.

Lemma round64_pos_positive (n d : Z) :
  0 < n -> 0 < d -> (0 < round64_pos n d)%Q.
Proof.
  intros Hn Hd. unfold round64_pos.
  destruct (log2_ratio_lower n d Hn Hd) as [H1 H2].
  set (l := log2_ratio n d) in *.
  destruct (Z.leb_spec 0 (l - 52)) as [He|He].
  - assert (Hp : 0 < 2 ^ (l - 52)) by (apply Z.pow_pos_nonneg; lia).
    assert (Hle : d * 2 ^ (l - 52) <= n).
    { specialize (H1 ltac:(lia)).
      assert (2 ^ (l - 52) <= 2 ^ l) by (apply Z.pow_le_mono_r; lia). nia. }
    assert (1 <= n / (d * 2 ^ (l - 52))).
    { apply Z.div_le_lower_bound; nia. }
    pose proof (round_half_even_ge n (d * 2 ^ (l - 52)) ltac:(nia)).
    unfold Qlt. simpl. nia.
  - assert (Hp : 0 < 2 ^ (- (l - 52))) by (apply Z.pow_pos_nonneg; lia).
    assert (Hle : d <= n * 2 ^ (- (l - 52))).
    { destruct (Z.leb_spec 0 l) as [Hl|Hl].
      - specialize (H1 Hl). assert (0 < 2 ^ l) by (apply Z.pow_pos_nonneg; lia).
        nia.
      - specialize (H2 Hl).
        assert (2 ^ (- l) <= 2 ^ (- (l - 52))) by (apply Z.pow_le_mono_r; lia).
        nia. }
    assert (1 <= (n * 2 ^ (- (l - 52))) / d).
    { apply Z.div_le_lower_bound; nia. }
    pose proof (round_half_even_ge (n * 2 ^ (- (l - 52))) d Hd).
    unfold Qlt. simpl. lia.
Qed.

Lemma Qclt_Q2Qc (a b : Q) : (a < b)%Q -> (Q2Qc a < Q2Qc b)%Qc.
Proof. intros H. unfold Qclt. cbn [this Q2Qc]. rewrite !Qred_correct. exact H. Qed.

(** Rounding keeps the sign. *)
Lemma round64_positive (q : Qc) : (Q2Qc 0 < q)%Qc -> (Q2Qc 0 < round64 q)%Qc.
Proof.
  intros H. unfold round64. destruct q as [[n d] Hc]. cbn [this Qnum Qden].
  unfold Qclt, Qlt in H. cbn in H.
  destruct n as [|n|n]; try lia.
  apply Qclt_Q2Qc. apply round64_pos_positive; lia.
Qed.

Lemma round_half_even_1 (n : Z) : round_half_even n 1 = n.
Proof.
  unfold round_half_even. rewrite Z.mod_1_r, Z.div_1_r. reflexivity.
Qed.

Lemma round64_pos_int (z : Z) :
  0 < z <= 2 ^ 53 -> (round64_pos z 1 == inject_Z z)%Q.
Proof.
  intros [Hz Hb]. unfold round64_pos, log2_ratio.
  change (Z.log2 1) with 0. rewrite Z.sub_0_r.
  destruct (Z.log2_spec z Hz) as [H1 H2].
  pose proof (Z.log2_nonneg z) as Ha.
  assert (Hl : Z.log2 z <= 53).
  { destruct (Z.le_gt_cases (Z.log2 z) 53) as [|Hgt]; [assumption|].
    assert (2 ^ 54 <= 2 ^ Z.log2 z) by (apply Z.pow_le_mono_r; lia). lia. }
  set (a := Z.log2 z) in *.
  destruct (Z.leb_spec 0 a); [|lia].
  destruct (Z.leb_spec (1 * 2 ^ a) z); [|lia].
  destruct (Z.leb_spec 0 (a - 52)) as [He|He].
  - assert (Ha' : a = 52 \/ a = 53) by lia. destruct Ha' as [->| ->].
    + change (2 ^ (52 - 52)) with 1. rewrite round_half_even_1.
      rewrite Z.mul_1_r. reflexivity.
    + assert (z = 2 ^ 53) by lia. subst z. reflexivity.
  - rewrite round_half_even_1. unfold Qeq. cbn [Qnum Qden inject_Z].
    rewrite Z2Pos.id by (apply Z.pow_pos_nonneg; lia). lia.
Qed.

Lemma this_Z2Qc (z : Z) : this (Z2Qc z) = inject_Z z.
Proof.
  unfold Z2Qc. cbn [this Q2Qc]. apply Qred_identity. simpl. apply Z.gcd_1_r.
Qed.

(** Integers up to 2^53 are float64 values. *)
Lemma round64_int (z : Z) : Z.abs z <= 2 ^ 53 -> round64 (Z2Qc z) = Z2Qc z.
Proof.
  intros H. unfold round64. rewrite this_Z2Qc. cbn [Qnum Qden inject_Z].
  destruct z as [|p|p]; [reflexivity| |].
  - apply Qc_is_canon. cbn [this Q2Qc]. rewrite Qred_correct.
    rewrite round64_pos_int by lia. rewrite this_Z2Qc. reflexivity.
  - apply Qc_is_canon. cbn [this Q2Qc Qcopp]. rewrite !Qred_correct.
    rewrite round64_pos_int by lia. rewrite this_Z2Qc. reflexivity.
Qed.

Lemma round_half_even_multiple (m k : Z) :
  0 < k -> round_half_even (m * k) k = m.
Proof.
  intros Hk. unfold round_half_even.
  rewrite Z.mod_mul, Z.div_mul by lia. rewrite Z.mul_0_r.
  destruct (Z.compare_spec 0 k); lia.
Qed.

Lemma log2_ratio_int (z : Z) : 0 < z -> log2_ratio z 1 = Z.log2 z.
Proof.
  intros Hz. unfold log2_ratio. change (Z.log2 1) with 0. rewrite Z.sub_0_r.
  destruct (Z.log2_spec z Hz) as [H1 _].
  pose proof (Z.log2_nonneg z).
  destruct (Z.leb_spec 0 (Z.log2 z)); [|lia].
  destruct (Z.leb_spec (1 * 2 ^ Z.log2 z) z); [reflexivity|lia].
Qed.

(** A 53-bit integer times a power of two is a float64 value. *)
Lemma round64_pos_scaled (m e : Z) :
  2 ^ 52 <= m <= 2 ^ 53 -> 0 <= e ->
  round64_pos (m * 2 ^ e) 1 = inject_Z (m * 2 ^ e).
Proof.
  intros [Hm1 Hm2] He.
  assert (Hp : 0 < 2 ^ e) by (apply Z.pow_pos_nonneg; lia).
  unfold round64_pos. rewrite log2_ratio_int by nia.
  rewrite Z.log2_mul_pow2 by lia.
  destruct (Z.eq_dec m (2 ^ 53)) as [->|Hne].
  - change (Z.log2 (2 ^ 53)) with 53.
    destruct (Z.leb_spec 0 (e + 53 - 52)); [|lia].
    replace (e + 53 - 52) with (e + 1) by lia.
    rewrite Z.mul_1_l.
    replace (2 ^ 53 * 2 ^ e) with (2 ^ 52 * 2 ^ (e + 1))
      by (rewrite Z.pow_add_r by lia; change (2 ^ 53) with (2 ^ 52 * 2); ring).
    rewrite round_half_even_multiple by (apply Z.pow_pos_nonneg; lia).
    reflexivity.
  - assert (Hl : Z.log2 m = 52) by (apply Z.log2_unique; lia).
    rewrite Hl. replace (e + 52 - 52) with e by lia.
    destruct (Z.leb_spec 0 e); [|lia].
    rewrite Z.mul_1_l, round_half_even_multiple by exact Hp. reflexivity.
Qed.

Lemma round_half_even_le (n d : Z) : 0 < d -> round_half_even n d <= n / d + 1.
Proof.
  intros Hd. unfold round_half_even.
  destruct (2 * (n mod d) ?= d); [destruct (Z.even (n / d))|..]; lia.
Qed.

(** The float64 of a large integer is a 53-bit integer times a power of
    two. *)
Lemma round64_pos_large (z : Z) :
  2 ^ 52 <= z ->
  exists m e, 2 ^ 52 <= m <= 2 ^ 53 /\ 0 <= e /\
              round64_pos z 1 = inject_Z (m * 2 ^ e).
Proof.
  intros Hz.
  destruct (Z.log2_spec z ltac:(lia)) as [H1 H2].
  assert (Hl : 52 <= Z.log2 z).
  { apply Z.log2_le_pow2; lia. }
  set (e := Z.log2 z - 52).
  assert (Hp : 0 < 2 ^ e) by (apply Z.pow_pos_nonneg; lia).
  exists (round_half_even z (2 ^ e)), e.
  assert (E1 : 2 ^ Z.log2 z = 2 ^ 52 * 2 ^ e)
    by (rewrite <- Z.pow_add_r by lia; f_equal; lia).
  assert (E2 : 2 ^ Z.succ (Z.log2 z) = 2 ^ 53 * 2 ^ e)
    by (rewrite <- Z.pow_add_r by lia; f_equal; lia).
  split; [split|split; [lia|]].
  - pose proof (round_half_even_ge z (2 ^ e) Hp).
    assert (2 ^ 52 <= z / 2 ^ e) by (apply Z.div_le_lower_bound; lia). lia.
  - pose proof (round_half_even_le z (2 ^ e) Hp).
    assert (z / 2 ^ e < 2 ^ 53) by (apply Z.div_lt_upper_bound; lia). lia.
  - unfold round64_pos. rewrite log2_ratio_int by lia. fold e.
    destruct (Z.leb_spec 0 e); [|lia]. rewrite Z.mul_1_l. reflexivity.
Qed.

Lemma round64_Z2Qc_pos (z : Z) :
  0 < z -> round64 (Z2Qc z) = Q2Qc (round64_pos z 1).
Proof.
  intros Hz. unfold round64. rewrite this_Z2Qc. cbn [Qnum Qden inject_Z].
  destruct z; try lia. reflexivity.
Qed.

Lemma round64_Z2Qc_opp (z : Z) : round64 (Z2Qc (- z)) = (- round64 (Z2Qc z))%Qc.
Proof.
  unfold round64. rewrite !this_Z2Qc. cbn [Qnum Qden inject_Z].
  destruct z; simpl.
  - apply Qc_is_canon. reflexivity.
  - reflexivity.
  - rewrite Qcopp_involutive. reflexivity.
Qed.

Lemma Z2Qc_opp (z : Z) : Z2Qc (- z) = (- Z2Qc z)%Qc.
Proof.
  apply Qc_is_canon. unfold Z2Qc, Qcopp. cbn [this Q2Qc].
  rewrite !Qred_correct. reflexivity.
Qed.

(** The float64 of an integer is an integer that converts to itself. *)
Lemma round64_int_value (z : Z) :
  exists n, round64 (Z2Qc z) = Z2Qc n /\ round64 (Z2Qc n) = Z2Qc n.
Proof.
  assert (Hpos : forall z, 0 < z ->
    exists n, round64 (Z2Qc z) = Z2Qc n /\ round64 (Z2Qc n) = Z2Qc n).
  { clear z. intros z Hz.
    destruct (Z.le_gt_cases z (2 ^ 53)) as [Hs|Hb].
    - exists z. rewrite !round64_int by lia. split; reflexivity.
    - destruct (round64_pos_large z ltac:(lia)) as (m & e & Hm & He & E).
      exists (m * 2 ^ e).
      assert (0 < 2 ^ e) by (apply Z.pow_pos_nonneg; lia).
      rewrite (round64_Z2Qc_pos z Hz), E.
      rewrite (round64_Z2Qc_pos (m * 2 ^ e)) by nia.
      rewrite round64_pos_scaled by assumption. split; reflexivity. }
  destruct z as [|p|p].
  - exists 0. split; reflexivity.
  - apply Hpos. lia.
  - destruct (Hpos (Z.pos p) ltac:(lia)) as (n & E1 & E2).
    exists (- n). change (Z.neg p) with (- Z.pos p).
    rewrite !round64_Z2Qc_opp, E1, E2, Z2Qc_opp. split; reflexivity.
Qed.

(** The float64 of an integer is a float64 value. *)
Lemma round64_int_idem (z : Z) :
  round64 (round64 (Z2Qc z)) = round64 (Z2Qc z).
Proof.
  destruct (round64_int_value z) as (n & -> & E). exact E.
Qed.

Lemma float64_of_int_float64 (z : Z) : float64 (float64_of_int z).
Proof. apply round64_int_idem. Qed.

Lemma float64_int (z : Z) : Z.abs z <= 2 ^ 53 -> float64 (Z2Qc z).
Proof. apply round64_int. Qed.

Lemma float64_of_int_exact (z : Z) :
  Z.abs z <= 2 ^ 53 -> float64_of_int z = Z2Qc z.
Proof. apply round64_int. Qed.

Lemma Z2Qc_pos (z : Z) : 0 < z -> (Q2Qc 0 < Z2Qc z)%Qc.
Proof.
  intros H. unfold Z2Qc. apply Qclt_Q2Qc. unfold Qlt. simpl. lia.
Qed.

Lemma float64_of_int_pos (z : Z) : 0 < z -> (Q2Qc 0 < float64_of_int z)%Qc.
Proof. intros H. apply round64_positive, Z2Qc_pos, H. Qed.


(** ** Reading a cell by label *)

Lemma getitem_cell_at (df : DataFrame) (label : string) :
  In label (columns df) ->
  getitem df label = Ok (map (cell_at (columns df) label) (rows df)).
Proof.
  intros H. unfold getitem, cell_at.
  destruct (get_loc_In _ _ H) as [i ->]. reflexivity.
Qed.

(** ** filter_data *)

Lemma positive_spec (c : cell) : positive c = true <-> gt_zero c.
Proof.
  destruct c; simpl; try (split; [discriminate|contradiction]).
  - apply Z.ltb_lt.
  - destruct (Qclt_le_dec (Q2Qc 0) q) as [H|H]; split; auto.
    + discriminate.
    + intros H'. exfalso. apply (Qcle_not_lt _ _ H H').
Qed.

Lemma gt0_numeric (c : cell) : numeric c = true -> gt0 c = Ok (positive c).
Proof. destruct c; simpl; intros H; try discriminate; reflexivity. Qed.

Lemma series_gt0_numeric (f : list cell -> cell) (l : list (list cell)) :
  (forall r, In r l -> numeric (f r) = true) ->
  series_gt0 (map f l) = Ok (map (fun r => positive (f r)) l).
Proof.
  intros H. unfold series_gt0. rewrite <- (map_map f positive).
  apply mapM_total. intros c Hc. apply in_map_iff in Hc as [r [<- Hr]].
  apply gt0_numeric, H, Hr.
Qed.

Lemma filter_data_rows (df : DataFrame) :
  raw_table df ->
  filter_data df =
  Ok {| columns := columns df;
        rows := filter (complete_and_positive (columns df)) (rows df) |}.
Proof.
  intros [Hc Hq Hp Hnum]. unfold filter_data, dropna.
  rewrite (getitem_cell_at df "CustomerID" Hc). cbn [bind].
  set (df1 := boolean_index _ _).
  assert (Hrows : rows df1 =
    filter (fun r => notna (cell_at (columns df) "CustomerID" r)) (rows df)).
  { unfold df1, boolean_index; simpl.
    rewrite map_map. apply filter_mask. }
  assert (Hcols : columns df1 = columns df) by reflexivity.
  assert (Hin : forall r, In r (rows df1) -> In r (rows df)).
  { intros r Hr. rewrite Hrows in Hr. apply filter_In in Hr. apply Hr. }
  rewrite (getitem_cell_at df1 "Quantity") by (rewrite Hcols; exact Hq).
  cbn [bind]. rewrite Hcols.
  rewrite series_gt0_numeric by (intros r Hr; apply Hnum, Hin, Hr).
  cbn [bind].
  rewrite (getitem_cell_at df1 "UnitPrice") by (rewrite Hcols; exact Hp).
  cbn [bind]. rewrite Hcols.
  rewrite series_gt0_numeric by (intros r Hr; apply Hnum, Hin, Hr).
  cbn [bind]. unfold boolean_index. rewrite Hcols. f_equal. f_equal.
  rewrite mask_and_map, filter_mask, Hrows, filter_twice.
  apply filter_ext. intros r. unfold complete_and_positive.
  rewrite andb_assoc. reflexivity.
Qed.

Lemma raw_table_filtered (df : DataFrame) (f : list cell -> bool) :
  raw_table df ->
  raw_table {| columns := columns df; rows := filter f (rows df) |}.
Proof.
  intros [Hc Hq Hp Hnum]. split; simpl; try assumption.
  intros r Hr. apply filter_In in Hr. apply Hnum, Hr.
Qed.

Lemma example_raw_is_raw : raw_table example_raw.
Proof.
  split; simpl; auto 10.
  intros r Hr. repeat (destruct Hr as [<-|Hr]; [split; reflexivity|]).
  contradiction.
Qed.

(** C4. On a raw table with the columns CustomerID, Quantity and UnitPrice,
    [filter_data] returns a frame with the same columns whose rows are exactly
    the input rows with a non-missing CustomerID, Quantity > 0 and
    UnitPrice > 0, in the order of the input. *)
Theorem filter_data_keeps_complete_positive_rows (df : DataFrame) :
  raw_table df ->
  exists out,
    filter_data df = Ok out /\
    columns out = columns df /\
    rows out = filter (complete_and_positive (columns df)) (rows df) /\
    forall r, In r (rows out) <->
      In r (rows df) /\
      cell_at (columns df) "CustomerID" r <> NaN /\
      gt_zero (cell_at (columns df) "Quantity" r) /\
      gt_zero (cell_at (columns df) "UnitPrice" r).
Proof.
  intros Hraw. eexists. split; [apply filter_data_rows, Hraw|].
  cbn [columns rows]. repeat split; try reflexivity.
  - apply filter_In in H. apply H.
  - apply filter_In in H as [_ H]. unfold complete_and_positive in H.
    apply andb_prop in H as [H _]. apply andb_prop in H as [H _].
    intros E. rewrite E in H. discriminate.
  - apply filter_In in H as [_ H]. unfold complete_and_positive in H.
    apply andb_prop in H as [H _]. apply andb_prop in H as [_ H].
    apply positive_spec, H.
  - apply filter_In in H as [_ H]. unfold complete_and_positive in H.
    apply andb_prop in H as [_ H]. apply positive_spec, H.
  - intros (Hin & Hc & Hq & Hp). apply filter_In. split; [exact Hin|].
    unfold complete_and_positive.
    apply positive_spec in Hq, Hp. rewrite Hq, Hp, !andb_true_r.
    destruct (cell_at (columns df) "CustomerID" r); try reflexivity.
    contradiction.
Qed.

Lemma filter_data_keeps_complete_positive_rows_witness :
  raw_table example_raw /\ filter_data example_raw = Ok example_cleaned.
Proof.
  split; [exact example_raw_is_raw|].
  destruct (filter_data_keeps_complete_positive_rows example_raw
              example_raw_is_raw) as (out & -> & Hc & Hr & _).
  destruct out as [c r]. simpl in Hc, Hr. subst c r. reflexivity.
Defined.

(** C5. The cleaner is idempotent: on a raw table, running [filter_data] on
    its own output returns that output. *)
Theorem filter_data_idempotent (df : DataFrame) :
  raw_table df ->
  exists out, filter_data df = Ok out /\ filter_data out = Ok out.
Proof.
  intros Hraw.
  exists {| columns := columns df;
            rows := filter (complete_and_positive (columns df)) (rows df) |}.
  split; [apply filter_data_rows, Hraw|].
  rewrite filter_data_rows by (apply raw_table_filtered, Hraw).
  simpl. f_equal. f_equal.
  apply forallb_filter_id, forallb_filter.
Qed.

Lemma filter_data_idempotent_witness :
  raw_table example_raw /\
  exists out, filter_data example_raw = Ok out /\ filter_data out = Ok out.
Proof.
  split; [exact example_raw_is_raw|].
  exact (filter_data_idempotent example_raw example_raw_is_raw).
Defined.

(** ** Equality and order of cells *)

Lemma Qc_eq_bool_refl (q : Qc) : Qc_eq_bool q q = true.
Proof. unfold Qc_eq_bool. destruct (Qc_eq_dec q q); congruence. Qed.

Lemma cell_eqb_eq (a b : cell) : cell_eqb a b = true <-> a = b.
Proof.
  split.
  - destruct a, b; simpl; intros H; try discriminate; try reflexivity.
    + apply Z.eqb_eq in H. congruence.
    + apply Qc_eq_bool_correct in H. congruence.
    + apply String.eqb_eq in H. congruence.
    + apply andb_prop in H as [H H3]. apply andb_prop in H as [H1 H2].
      apply Z.eqb_eq in H1, H2, H3. congruence.
    + apply andb_prop in H as [H1 H2]. apply Z.eqb_eq in H1, H2. congruence.
  - intros <-. destruct a; simpl; try reflexivity.
    + apply Z.eqb_refl.
    + apply Qc_eq_bool_refl.
    + apply String.eqb_refl.
    + rewrite !Z.eqb_refl. reflexivity.
    + rewrite !Z.eqb_refl. reflexivity.
Qed.

Lemma cell_eqb_refl (a : cell) : cell_eqb a a = true.
Proof. apply cell_eqb_eq. reflexivity. Qed.

Lemma cell_eqb_neq (a b : cell) : cell_eqb a b = false <-> a <> b.
Proof.
  rewrite <- cell_eqb_eq. destruct (cell_eqb a b); split; congruence.
Qed.

(** ** uniques and the key sort *)

Lemma uniques_In (k : cell) (keys : Series) :
  In k (uniques keys) <-> In k keys /\ k <> NaN.
Proof.
  induction keys as [|h t IH]; simpl; [tauto|].
  destruct (isna h) eqn:Eh.
  - destruct h; try discriminate. rewrite IH. split; [tauto|].
    intros [[<-|H] H']; [congruence|tauto].
  - simpl. rewrite filter_In, IH, negb_true_iff, cell_eqb_neq.
    assert (h <> NaN) by (intros ->; discriminate).
    split.
    + intros [<-|[[H1 H2] H3]]; auto.
    + intros [[<-|H1] H2]; auto. destruct (cell_eq_dec h k); auto.
Qed.

Lemma uniques_NoDup (keys : Series) : NoDup (uniques keys).
Proof.
  induction keys as [|h t IH]; simpl; [constructor|].
  destruct (isna h); [exact IH|].
  constructor.
  - rewrite filter_In, negb_true_iff, cell_eqb_neq. tauto.
  - apply NoDup_filter, IH.
Qed.

Lemma insert_key_perm (k : cell) (l : Series) :
  Permutation (insert_key k l) (k :: l).
Proof.
  induction l as [|h t IH]; simpl; [reflexivity|].
  destruct (cell_leb k h); [reflexivity|].
  rewrite IH. apply perm_swap.
Qed.

Lemma sort_keys_perm (l : Series) : Permutation (sort_keys l) l.
Proof.
  induction l as [|h t IH]; simpl; [reflexivity|].
  rewrite insert_key_perm. constructor. exact IH.
Qed.

Lemma sorted_uniques_In (k : cell) (keys : Series) :
  In k (sort_keys (uniques keys)) <-> In k keys /\ k <> NaN.
Proof.
  rewrite <- uniques_In. split; apply Permutation_in;
    [|symmetry]; apply sort_keys_perm.
Qed.

Lemma sorted_uniques_NoDup (keys : Series) :
  NoDup (sort_keys (uniques keys)).
Proof.
  eapply Permutation_NoDup; [symmetry; apply sort_keys_perm|].
  apply uniques_NoDup.
Qed.

(** The number of groups is the number of distinct non-missing keys. *)
Lemma sorted_uniques_length (keys : Series) :
  Forall (fun k => k <> NaN) keys ->
  List.length (sort_keys (uniques keys)) =
  List.length (nodup cell_eq_dec keys).
Proof.
  intros Hna. apply Permutation_length, NoDup_Permutation.
  - apply sorted_uniques_NoDup.
  - apply NoDup_nodup.
  - intros k. rewrite sorted_uniques_In, nodup_In.
    rewrite Forall_forall in Hna. split; [tauto|]. intros H. split; auto.
Qed.

(** ** Groups *)

Lemma group_values_rows {A : Type} (key val : A -> cell) (k : cell)
    (l : list A) :
  group_values k (map key l) (map val l) =
  map val (filter (fun r => cell_eqb (key r) k) l).
Proof.
  unfold group_values. induction l as [|r l IH]; simpl; [reflexivity|].
  destruct (cell_eqb (key r) k); simpl; rewrite IH; reflexivity.
Qed.

Lemma groupby_rows {A : Type} (key val : A -> cell) (l : list A) :
  groupby (map key l) (map val l) =
  map (fun k => (k, map val (filter (fun r => cell_eqb (key r) k) l)))
      (sort_keys (uniques (map key l))).
Proof.
  unfold groupby. apply map_ext. intros k. f_equal. apply group_values_rows.
Qed.

(** ** Cleaned tables *)

Ltac cleaned_row_by_computation :=
  split;
  [ reflexivity
  | vm_compute; discriminate
  | eexists; reflexivity
  | eexists; split; reflexivity
  | eexists; split; reflexivity
  | exact I ].

Lemma example_cleaned_is_cleaned : cleaned_table example_cleaned.
Proof.
  split; simpl; auto 10.
  repeat (constructor; [cleaned_row_by_computation|]). constructor.
Qed.

(** ** loyalty_customers *)

Lemma mapM_map_total {A B C : Type} (h : A -> B) (f : B -> result C)
    (g : A -> C) (l : list A) :
  (forall a, In a l -> f (h a) = Ok (g a)) ->
  mapM f (map h l) = Ok (map g l).
Proof.
  induction l as [|a l IH]; intros H; simpl; [reflexivity|].
  rewrite (H a (or_introl eq_refl)). simpl.
  rewrite IH by (intros; apply H; right; assumption).
  reflexivity.
Qed.

Lemma filter_mask_map {A B : Type} (h : A -> B) (g : A -> bool) (l : list A) :
  map fst (filter snd (combine (map h l) (map g l))) = map h (filter g l).
Proof.
  induction l as [|a l IH]; simpl; [reflexivity|].
  destruct (g a); simpl; rewrite IH; reflexivity.
Qed.

Lemma loyalty_customers_rows (df : DataFrame) (min_purchases : Z) :
  In "CustomerID" (columns df) ->
  loyalty_customers df min_purchases =
  Ok (reset_index "CustomerID" "Purchase Count"
        (map (fun k => (k, Int (purchase_count df k)))
             (filter (fun k => min_purchases <=? purchase_count df k)
                     (sort_keys (uniques (customers df)))))).
Proof.
  intros Hc. unfold loyalty_customers, groupby_size.
  rewrite (getitem_cell_at df _ Hc). cbn [bind].
  rewrite groupby_rows, !map_map. cbn [fst snd].
  rewrite (mapM_map_total _ _
             (fun k => min_purchases <=? purchase_count df k)).
  2:{ intros k _. unfold purchase_count. rewrite length_map. reflexivity. }
  cbn [bind]. do 2 f_equal.
  rewrite <- (filter_mask_map
                (fun k => (k, Int (purchase_count df k)))
                (fun k => min_purchases <=? purchase_count df k)).
  do 3 f_equal. apply map_ext. intros k. unfold purchase_count.
  rewrite length_map. reflexivity.
Qed.

Lemma purchase_count_pos (df : DataFrame) (c : cell) :
  In c (customers df) -> 0 < purchase_count df c.
Proof.
  unfold customers, purchase_count. intros H.
  apply in_map_iff in H as [r [Hr Hin]].
  assert (Hf : In r (filter
            (fun r => cell_eqb (cell_at (columns df) "CustomerID" r) c)
            (rows df))).
  { apply filter_In. split; [exact Hin|]. apply cell_eqb_eq, Hr. }
  destruct (filter _ (rows df)); [contradiction|]. simpl List.length. lia.
Qed.

Lemma cleaned_customers_notna (df : DataFrame) :
  cleaned_table df -> Forall (fun k => k <> NaN) (customers df).
Proof.
  intros H. unfold customers. apply Forall_map.
  eapply Forall_impl; [|apply (cleaned_rows df H)].
  intros r Hr. apply (row_customer _ _ Hr).
Qed.

(** Identifiers that are integers (some possibly missing) are of one
    kind. *)
Lemma int_ids_one_kind (s : Series) :
  Forall (fun c => c = NaN \/ is_int c = true) s -> one_kind s.
Proof.
  intros H a b Ha Hb Hna Hnb. rewrite Forall_forall in H.
  destruct (H a Ha) as [->|Ia]; [contradiction|].
  destruct (H b Hb) as [->|Ib]; [contradiction|].
  destruct a; try discriminate. destruct b; try discriminate. reflexivity.
Qed.

Lemma example_cleaned_one_kind : one_kind (customers example_cleaned).
Proof.
  apply int_ids_one_kind. unfold customers. simpl.
  repeat (constructor; [right; reflexivity|]). constructor.
Qed.

(** C7. On a cleaned table whose customer identifiers are of one kind (all
    integers, all floats or all text, as a column of the file holds them),
    [loyalty_customers] returns one row per customer identifier whose number
    of rows is at least [min_purchases], paired with that count, and nothing
    else; a threshold of zero or less gives one row per distinct customer,
    and an empty table gives an empty result. *)
Theorem loyalty_customers_counts (df : DataFrame) (min_purchases : Z) :
  cleaned_table df -> one_kind (customers df) ->
  exists out,
    loyalty_customers df min_purchases = Ok out /\
    columns out = ["CustomerID"; "Purchase Count"] /\
    (forall r, In r (rows out) <->
       exists c, r = [c; Int (purchase_count df c)] /\
                 In c (customers df) /\
                 min_purchases <= purchase_count df c) /\
    NoDup (map (fun r => nth 0 r NaN) (rows out)) /\
    (min_purchases <= 0 ->
       List.length (rows out) =
       List.length (nodup cell_eq_dec (customers df))) /\
    (rows df = [] -> rows out = []).
Proof.
  intros Hclean _. pose proof (cleaned_customers_notna df Hclean) as Hna.
  eexists. split; [apply loyalty_customers_rows, (has_customer df Hclean)|].
  unfold reset_index; cbn [columns rows]. rewrite !map_map. cbn [fst snd].
  split; [reflexivity|]. split; [|split; [|split]].
  - intros r. rewrite in_map_iff. split.
    + intros (c & <- & Hin). apply filter_In in Hin as [Hin Hge].
      apply sorted_uniques_In in Hin as [Hin _]. apply Z.leb_le in Hge.
      eauto.
    + intros (c & -> & Hin & Hge). exists c. split; [reflexivity|].
      apply filter_In. split; [|apply Z.leb_le, Hge].
      apply sorted_uniques_In. split; [exact Hin|].
      rewrite Forall_forall in Hna. apply Hna, Hin.
  - cbn [nth]. rewrite map_id. apply NoDup_filter, sorted_uniques_NoDup.
  - intros Hle. rewrite length_map, forallb_filter_id.
    + apply sorted_uniques_length, Hna.
    + apply forallb_forall. intros c Hc.
      apply sorted_uniques_In in Hc as [Hc _].
      apply purchase_count_pos in Hc. apply Z.leb_le. lia.
  - unfold customers. intros ->. reflexivity.
Qed.

Lemma loyalty_customers_counts_witness :
  (cleaned_table example_cleaned /\ one_kind (customers example_cleaned)) /\
  loyalty_customers example_cleaned 2 =
  Ok {| columns := ["CustomerID"; "Purchase Count"];
        rows := [[Int 1; Int 2]] |}.
Proof.
  split; [split; [exact example_cleaned_is_cleaned
                 |exact example_cleaned_one_kind]|].
  destruct (loyalty_customers_counts example_cleaned 2
              example_cleaned_is_cleaned example_cleaned_one_kind)
    as (out & _ & _).
  reflexivity.
Defined.

(** ** Sorting *)

Lemma StronglySorted_app {A : Type} (R : A -> A -> Prop) (l1 l2 : list A) :
  StronglySorted R l1 -> StronglySorted R l2 ->
  (forall x y, In x l1 -> In y l2 -> R x y) ->
  StronglySorted R (l1 ++ l2).
Proof.
  induction l1 as [|a l1 IH]; simpl; intros H1 H2 H12; [exact H2|].
  apply StronglySorted_inv in H1 as [H1 Ha].
  constructor.
  - apply IH; auto.
  - apply Forall_app. split; [exact Ha|].
    apply Forall_forall. intros y Hy. apply H12; auto.
Qed.

Lemma StronglySorted_rev {A : Type} (R : A -> A -> Prop) (l : list A) :
  StronglySorted R l -> StronglySorted (fun a b => R b a) (rev l).
Proof.
  induction 1 as [|a l Hl IH Ha]; simpl; [constructor|].
  apply StronglySorted_app; [exact IH|repeat constructor|].
  intros x y Hx [<-|[]]. apply in_rev in Hx.
  rewrite Forall_forall in Ha. apply Ha, Hx.
Qed.

Lemma StronglySorted_weaken {A : Type} (R S : A -> A -> Prop) (l : list A) :
  (forall a b, In a l -> In b l -> R a b -> S a b) ->
  StronglySorted R l -> StronglySorted S l.
Proof.
  intros HRS. induction 1 as [|a l Hl IH Ha]; constructor.
  - apply IH. intros; apply HRS; simpl; auto.
  - rewrite Forall_forall in *. intros b Hb. apply HRS; simpl; auto.
Qed.

Lemma StronglySorted_map {A B : Type} (f : A -> B) (R : B -> B -> Prop)
    (l : list A) :
  StronglySorted (fun a b => R (f a) (f b)) l -> StronglySorted R (map f l).
Proof.
  induction 1 as [|a l Hl IH Ha]; simpl; constructor; [exact IH|].
  apply Forall_map. exact Ha.
Qed.

Lemma firstn_incl {A : Type} (n : nat) (l : list A) (x : A) :
  In x (firstn n l) -> In x l.
Proof.
  intros H. rewrite <- (firstn_skipn n l). apply in_or_app. left; exact H.
Qed.

Lemma StronglySorted_firstn {A : Type} (R : A -> A -> Prop) (n : nat)
    (l : list A) :
  StronglySorted R l -> StronglySorted R (firstn n l).
Proof.
  intros H. revert n. induction H as [|a l Hl IH Ha]; intros [|n]; simpl;
    try constructor; [apply IH|].
  rewrite Forall_forall in *. intros b Hb. apply Ha.
  eapply firstn_incl; eauto.
Qed.

(** *** The key sort on string keys *)

Lemma cell_lt_trans_str (a b c : cell) :
  is_str a = true -> is_str b = true -> is_str c = true ->
  cell_lt a b -> cell_lt b c -> cell_lt a c.
Proof.
  destruct a, b, c; try discriminate. unfold cell_lt; simpl. intros _ _ _.
  apply String_as_OT.lt_strorder.
Qed.

Lemma cell_leb_false_str (a b : cell) :
  is_str a = true -> is_str b = true ->
  cell_leb a b = false -> cell_lt b a.
Proof.
  destruct a, b; try discriminate. unfold cell_leb, cell_lt; simpl.
  intros _ _. destruct (String_as_OT.compare_spec s s0); try discriminate.
  intros _. assumption.
Qed.

Lemma cell_leb_true_str (a b : cell) :
  is_str a = true -> is_str b = true ->
  cell_leb a b = true -> a <> b -> cell_lt a b.
Proof.
  destruct a, b; try discriminate. unfold cell_leb, cell_lt; simpl.
  intros _ _. destruct (String_as_OT.compare_spec s s0); try discriminate.
  - intros _ Hne. exfalso. apply Hne. congruence.
  - reflexivity.
Qed.

Lemma insert_key_sorted (k : cell) (l : Series) :
  is_str k = true -> Forall (fun c => is_str c = true) l -> ~ In k l ->
  StronglySorted cell_lt l -> StronglySorted cell_lt (insert_key k l).
Proof.
  intros Hk Hstr Hnin Hs.
  induction Hs as [|h t Ht IH Hh]; simpl; [repeat constructor|].
  apply Forall_cons_iff in Hstr as [Hh_str Ht_str].
  destruct (cell_leb k h) eqn:E.
  - assert (Hkh : cell_lt k h).
    { apply cell_leb_true_str; auto. intros ->. apply Hnin. left; reflexivity. }
    constructor; [constructor; assumption|].
    constructor; [exact Hkh|].
    rewrite Forall_forall in *. intros c Hc.
    apply (cell_lt_trans_str k h c); auto.
  - constructor.
    + apply IH; auto. intros Hin. apply Hnin. right; exact Hin.
    + eapply Permutation_Forall; [symmetry; apply insert_key_perm|].
      constructor; [|exact Hh]. apply cell_leb_false_str; auto.
Qed.

Lemma sort_keys_sorted (l : Series) :
  Forall (fun c => is_str c = true) l -> NoDup l ->
  StronglySorted cell_lt (sort_keys l).
Proof.
  induction l as [|h t IH]; simpl; intros Hstr Hnd; [constructor|].
  apply Forall_cons_iff in Hstr as [Hh Ht]. apply NoDup_cons_iff in Hnd as [Hnin Hnd].
  apply insert_key_sorted; auto.
  - eapply Permutation_Forall; [symmetry; apply sort_keys_perm|exact Ht].
  - intros Hin. apply Hnin. eapply Permutation_in; [apply sort_keys_perm|exact Hin].
Qed.

(** *** The stable value sort on integer values *)

Section StableSort.

Variable before : cell * cell -> cell * cell -> Prop.

Lemma cell_leb_int (a b : cell) :
  is_int a = true -> is_int b = true ->
  cell_leb a b = (int_value a <=? int_value b).
Proof. destruct a, b; try discriminate. reflexivity. Qed.

Lemma insert_by_value_perm (x : cell * cell) (l : IndexedSeries) :
  Permutation (insert_by_value x l) (x :: l).
Proof.
  induction l as [|h t IH]; simpl; [reflexivity|].
  destruct (cell_leb (snd x) (snd h)); [reflexivity|].
  rewrite IH. apply perm_swap.
Qed.

Lemma argsort_stable_perm (l : IndexedSeries) :
  Permutation (argsort_stable l) l.
Proof.
  induction l as [|h t IH]; simpl; [reflexivity|].
  rewrite insert_by_value_perm. constructor. exact IH.
Qed.

Lemma insert_by_value_sorted (x : cell * cell) (l : IndexedSeries) :
  is_int (snd x) = true -> int_valued l -> Forall (before x) l ->
  StronglySorted (value_then before) l ->
  StronglySorted (value_then before) (insert_by_value x l).
Proof.
  intros Hx Hint Hbef Hs.
  induction Hs as [|h t Ht IH Hh]; simpl; [repeat constructor|].
  apply Forall_cons_iff in Hint as [Hh_int Ht_int].
  apply Forall_cons_iff in Hbef as [Hxh Hxt].
  rewrite cell_leb_int by assumption.
  destruct (Z.leb_spec (int_value (snd x)) (int_value (snd h))) as [Hle|Hgt].
  - constructor; [constructor; assumption|].
    constructor.
    + unfold value_then. destruct (Z.eq_dec (int_value (snd x)) (int_value (snd h)));
        [right; auto|left; lia].
    + rewrite Forall_forall in *. intros y Hy.
      specialize (Hh y Hy). specialize (Hxt y Hy). unfold value_then in *.
      destruct (Z.eq_dec (int_value (snd x)) (int_value (snd y)));
        [right; auto|left; lia].
  - constructor.
    + apply IH; assumption.
    + eapply Permutation_Forall; [symmetry; apply insert_by_value_perm|].
      constructor; [|exact Hh]. left. lia.
Qed.

Lemma argsort_stable_sorted (l : IndexedSeries) :
  int_valued l -> StronglySorted before l ->
  StronglySorted (value_then before) (argsort_stable l).
Proof.
  intros Hint Hs. induction Hs as [|h t Ht IH Hh]; simpl; [constructor|].
  apply Forall_cons_iff in Hint as [Hh_int Ht_int].
  apply insert_by_value_sorted; auto.
  - eapply Permutation_Forall; [symmetry; apply argsort_stable_perm|exact Ht_int].
  - eapply Permutation_Forall; [symmetry; apply argsort_stable_perm|exact Hh].
Qed.

End StableSort.

(** ** high_demand_products *)

Lemma cleaned_quantity_int (df : DataFrame) :
  cleaned_table df ->
  forallb is_int (map (cell_at (columns df) "Quantity") (rows df)) = true.
Proof.
  intros H. apply forallb_forall. intros c Hc.
  apply in_map_iff in Hc as [r [<- Hr]].
  pose proof (cleaned_rows df H) as Hrows. rewrite Forall_forall in Hrows.
  destruct (row_quantity _ _ (Hrows r Hr)) as [z [-> _]]. reflexivity.
Qed.

Lemma groupby_sum_quantity (df : DataFrame) :
  cleaned_table df ->
  groupby_sum df "Description" "Quantity" = Ok (product_demand df).
Proof.
  intros H. unfold groupby_sum, groupby_agg.
  rewrite (getitem_cell_at df _ (has_quantity df H)). cbn [bind].
  rewrite (cleaned_quantity_int df H).
  rewrite (getitem_cell_at df _ (has_description df H)). cbn [bind].
  rewrite groupby_rows. unfold product_demand, descriptions.
  apply mapM_map_total. intros d _. unfold aggregate, sum_int64.
  cbn [bind fst snd]. unfold quantity_sold. rewrite map_map. reflexivity.
Qed.

Lemma product_demand_int_valued (df : DataFrame) :
  int_valued (product_demand df).
Proof.
  unfold int_valued, product_demand. apply Forall_map, Forall_forall.
  reflexivity.
Qed.

(** An int64 sum of non-negative numbers is the plain sum as long as that
    sum fits. *)
Lemma wrap64_small (z : Z) : - 2 ^ 63 <= z < 2 ^ 63 -> wrap64 z = z.
Proof.
  intros H. unfold wrap64. rewrite Z.mod_small by lia. lia.
Qed.

Lemma int_sum_exact (l : list Z) :
  Forall (fun z => 0 <= z) l -> fold_right Z.add 0 l < 2 ^ 63 ->
  int_sum l = fold_right Z.add 0 l.
Proof.
  unfold int_sum. intros Hpos.
  assert (Hgen : forall acc, 0 <= acc -> acc + fold_right Z.add 0 l < 2 ^ 63 ->
            fold_left (fun a z => wrap64 (a + z)) l acc =
            acc + fold_right Z.add 0 l).
  { induction Hpos as [|z l Hz Hl IH]; intros acc Hacc Hfit; simpl in *.
    - lia.
    - assert (0 <= fold_right Z.add 0 l).
      { clear -Hl. induction Hl; simpl; lia. }
      rewrite wrap64_small by lia. rewrite IH by lia. lia. }
  intros Hfit. rewrite Hgen by lia. lia.
Qed.

Lemma cleaned_descriptions_str (df : DataFrame) :
  cleaned_table df -> Forall (fun c => is_str c = true) (descriptions df).
Proof.
  intros H. unfold descriptions. apply Forall_map.
  eapply Forall_impl; [|apply (cleaned_rows df H)].
  intros r Hr. destruct (row_description _ _ Hr) as [d ->]. reflexivity.
Qed.

Lemma cleaned_descriptions_notna (df : DataFrame) :
  cleaned_table df -> Forall (fun c => c <> NaN) (descriptions df).
Proof.
  intros H. eapply Forall_impl; [|apply (cleaned_descriptions_str df H)].
  intros c Hc ->. discriminate.
Qed.

Lemma product_demand_sorted (df : DataFrame) :
  cleaned_table df ->
  StronglySorted (fun a b => cell_lt (fst a) (fst b)) (product_demand df).
Proof.
  intros H. unfold product_demand.
  assert (Hs : StronglySorted cell_lt (sort_keys (uniques (descriptions df)))).
  { apply sort_keys_sorted; [|apply uniques_NoDup].
    apply Forall_forall. intros c Hc. apply uniques_In in Hc as [Hc _].
    pose proof (cleaned_descriptions_str df H) as Hstr.
    rewrite Forall_forall in Hstr. apply Hstr, Hc. }
  induction Hs as [|a l Hl IH Ha]; simpl; constructor; [exact IH|].
  apply Forall_map. exact Ha.
Qed.

Lemma product_demand_all (df : DataFrame) :
  cleaned_table df ->
  Permutation (product_demand df)
    (map (fun d => (d, Int (quantity_sold df d)))
         (nodup cell_eq_dec (descriptions df))).
Proof.
  intros H. unfold product_demand. apply Permutation_map, NoDup_Permutation.
  - apply sorted_uniques_NoDup.
  - apply NoDup_nodup.
  - intros k. rewrite sorted_uniques_In, nodup_In.
    pose proof (cleaned_descriptions_notna df H) as Hna.
    rewrite Forall_forall in Hna. split; [tauto|]. intros Hk. split; auto.
Qed.

Lemma as_rows_values (s : IndexedSeries) :
  int_valued s ->
  map (fun r => nth 1 r NaN) (as_rows s) =
  map Int (map (fun kv => int_value (snd kv)) s).
Proof.
  unfold as_rows. rewrite !map_map. intros H.
  apply map_ext_in. intros kv Hkv. unfold int_valued in H.
  rewrite Forall_forall in H. specialize (H kv Hkv). cbn [nth].
  destruct (snd kv); try discriminate. reflexivity.
Qed.

(** *** Kernels *)

Lemma StronglySorted_any {A : Type} (l : list A) :
  StronglySorted (fun _ _ => True) l.
Proof.
  induction l; constructor; [assumption|]. apply Forall_forall. trivial.
Qed.

Lemma stable_kernel_sorts (argsort : IndexedSeries -> IndexedSeries) :
  stable_kernel argsort -> sort_kernel argsort.
Proof.
  intros [Hperm Hstable]. split; [exact Hperm|].
  intros l Hint. eapply StronglySorted_weaken;
    [|apply (Hstable (fun _ _ => True) l Hint), StronglySorted_any].
  unfold value_then, value_le. intros a b _ _ [Hlt|[Heq _]]; lia.
Qed.

Lemma argsort_stable_is_stable : stable_kernel argsort_stable.
Proof.
  split; [exact argsort_stable_perm|]. intros before l.
  apply argsort_stable_sorted.
Qed.

Lemma argsort_stable_sorts : sort_kernel argsort_stable.
Proof. apply stable_kernel_sorts, argsort_stable_is_stable. Qed.

(** *** The ranking *)

Section Ranking.

Variable argsort : IndexedSeries -> IndexedSeries.

Lemma sort_values_descending_ints (s : IndexedSeries) :
  int_valued s -> sort_values_descending argsort s = rev (argsort (rev s)).
Proof.
  intros H. unfold sort_values_descending. unfold int_valued in H.
  rewrite Forall_forall in H.
  rewrite forallb_filter_id.
  - rewrite (filter_ext_in _ (fun _ => false)), filter_false, app_nil_r;
      [reflexivity|].
    intros kv Hkv. specialize (H kv Hkv). destruct (snd kv); try discriminate.
    reflexivity.
  - apply forallb_forall. intros kv Hkv. specialize (H kv Hkv).
    destruct (snd kv); try discriminate. reflexivity.
Qed.

Lemma high_demand_products_rows (df : DataFrame) (top_n : Z) :
  cleaned_table df ->
  high_demand_products argsort df top_n =
  Ok {| columns := ["Description"; "Total Quantity Sold"];
        rows := as_rows (head (ranking argsort df) top_n) |}.
Proof.
  intros H. unfold high_demand_products.
  rewrite (groupby_sum_quantity df H). reflexivity.
Qed.

Lemma ranking_perm (df : DataFrame) :
  sort_kernel argsort ->
  Permutation (ranking argsort df) (product_demand df).
Proof.
  intros Hk. unfold ranking.
  rewrite sort_values_descending_ints by apply product_demand_int_valued.
  rewrite <- Permutation_rev, (kernel_perm _ Hk), <- Permutation_rev.
  reflexivity.
Qed.

Lemma ranking_int_valued (df : DataFrame) :
  sort_kernel argsort -> int_valued (ranking argsort df).
Proof.
  intros Hk. eapply Permutation_Forall;
    [symmetry; apply ranking_perm, Hk|apply product_demand_int_valued].
Qed.

Lemma ranking_length (df : DataFrame) :
  sort_kernel argsort -> cleaned_table df ->
  List.length (ranking argsort df) = distinct_products df.
Proof.
  intros Hk H. rewrite (Permutation_length (ranking_perm df Hk)).
  unfold product_demand. rewrite length_map.
  apply sorted_uniques_length, cleaned_descriptions_notna, H.
Qed.

(** Whatever the kernel does with equal values, the sums never increase
    along the ranking. *)
Lemma ranking_descending (df : DataFrame) :
  sort_kernel argsort ->
  StronglySorted (fun a b => value_le b a) (ranking argsort df).
Proof.
  intros Hk. unfold ranking.
  rewrite sort_values_descending_ints by apply product_demand_int_valued.
  apply StronglySorted_rev, (kernel_sorted _ Hk).
  eapply Permutation_Forall; [apply Permutation_rev|].
  apply product_demand_int_valued.
Qed.

(** With a stable kernel, equal sums stay in the order of the groups. *)
Lemma ranking_sorted (df : DataFrame) :
  stable_kernel argsort -> cleaned_table df ->
  StronglySorted ranks_before (ranking argsort df).
Proof.
  intros Hk H. unfold ranking.
  rewrite sort_values_descending_ints by apply product_demand_int_valued.
  eapply StronglySorted_weaken;
    [|apply StronglySorted_rev,
        (stable_sorted _ Hk (fun a b => cell_lt (fst b) (fst a)))].
  - intros a b _ _ [Hlt|[Heq Hb]]; [left; exact Hlt|right; auto].
  - eapply Permutation_Forall; [apply Permutation_rev|].
    apply product_demand_int_valued.
  - apply (StronglySorted_rev _ _ (product_demand_sorted df H)).
Qed.

(** C8. On a cleaned table and for [top_n >= 0], [high_demand_products]
    returns min(top_n, number of distinct descriptions) rows: none for
    [top_n = 0], every product when [top_n] reaches the number of products;
    and the summed quantities it returns never increase from one row to the
    next.  This holds for every sort kernel. *)
Theorem high_demand_products_top_n (df : DataFrame) (top_n : Z) :
  sort_kernel argsort -> cleaned_table df -> 0 <= top_n ->
  exists out,
    high_demand_products argsort df top_n = Ok out /\
    List.length (rows out) = Nat.min (Z.to_nat top_n) (distinct_products df) /\
    (top_n = 0 -> rows out = []) /\
    (Z.of_nat (distinct_products df) <= top_n ->
       Permutation (map (fun r => nth 0 r NaN) (rows out))
                   (nodup cell_eq_dec (descriptions df))) /\
    exists sold : list Z,
      map (fun r => nth 1 r NaN) (rows out) = map Int sold /\
      StronglySorted Z.ge sold.
Proof.
  intros Hk H Hn. eexists. split; [apply high_demand_products_rows, H|].
  cbn [rows]. unfold head. rewrite (proj2 (Z.leb_le 0 top_n) Hn).
  split; [|split; [|split]].
  - unfold as_rows. rewrite length_map, length_firstn, ranking_length by assumption.
    reflexivity.
  - intros ->. reflexivity.
  - intros Hall.
    rewrite firstn_all2 by (rewrite ranking_length by assumption; lia).
    unfold as_rows. rewrite map_map. cbn [nth].
    rewrite (Permutation_map fst (ranking_perm df Hk)).
    rewrite (Permutation_map fst (product_demand_all df H)).
    rewrite map_map. cbn [fst]. rewrite map_id. reflexivity.
  - exists (map (fun kv => int_value (snd kv))
                (firstn (Z.to_nat top_n) (ranking argsort df))).
    split.
    + apply as_rows_values. apply Forall_forall. intros kv Hkv.
      apply firstn_incl in Hkv.
      pose proof (ranking_int_valued df Hk) as Hint.
      unfold int_valued in Hint. rewrite Forall_forall in Hint. auto.
    + apply StronglySorted_map, StronglySorted_firstn.
      eapply StronglySorted_weaken; [|apply ranking_descending, Hk].
      unfold value_le. intros a b _ _ Hle. lia.
Qed.

(** C10, amended. On a cleaned table with d distinct descriptions and for a
    negative [top_n], [high_demand_products] succeeds and returns the first
    max(d - |top_n|, 0) rows of what it returns for [top_n = d], the whole
    ranking; the result is empty exactly when d <= |top_n|.  This holds for
    every sort kernel. *)
Theorem high_demand_products_negative_top_n (df : DataFrame) (top_n : Z) :
  sort_kernel argsort -> cleaned_table df -> top_n < 0 ->
  exists out full,
    high_demand_products argsort df top_n = Ok out /\
    high_demand_products argsort df (Z.of_nat (distinct_products df)) =
      Ok full /\
    List.length (rows full) = distinct_products df /\
    rows out =
      firstn (distinct_products df - Z.to_nat (- top_n)) (rows full) /\
    List.length (rows out) =
      (distinct_products df - Z.to_nat (- top_n))%nat /\
    (rows out = [] <-> (distinct_products df <= Z.to_nat (- top_n))%nat).
Proof.
  intros Hk H Hn. do 2 eexists.
  split; [apply high_demand_products_rows, H|].
  split; [apply high_demand_products_rows, H|].
  cbn [rows]. unfold head.
  rewrite (proj2 (Z.leb_gt 0 top_n) Hn).
  rewrite (proj2 (Z.leb_le 0 (Z.of_nat (distinct_products df))))
    by apply Nat2Z.is_nonneg.
  rewrite Nat2Z.id, <- (ranking_length df Hk H), firstn_all.
  assert (Hlen : List.length
                   (as_rows (firstn (List.length (ranking argsort df)
                                     - Z.to_nat (- top_n))
                                    (ranking argsort df))) =
                 (List.length (ranking argsort df) - Z.to_nat (- top_n))%nat).
  { unfold as_rows. rewrite length_map, length_firstn. lia. }
  split; [unfold as_rows; apply length_map|].
  split; [unfold as_rows; symmetry; apply firstn_map|].
  split; [exact Hlen|].
  split.
  - intros E. rewrite E in Hlen. cbn [List.length] in Hlen. lia.
  - intros Hle. apply length_zero_iff_nil. rewrite Hlen. lia.
Qed.

End Ranking.

Lemma high_demand_products_top_n_witness :
  (sort_kernel argsort_stable /\ cleaned_table example_cleaned /\ 0 <= 1) /\
  high_demand_products argsort_stable example_cleaned 1 =
  Ok {| columns := ["Description"; "Total Quantity Sold"];
        rows := [[Str "A"; Int 8]] |}.
Proof.
  split; [split; [exact argsort_stable_sorts
                 |split; [exact example_cleaned_is_cleaned|lia]]|].
  destruct (high_demand_products_top_n argsort_stable example_cleaned 1
              argsort_stable_sorts example_cleaned_is_cleaned ltac:(lia))
    as (out & _ & _).
  reflexivity.
Defined.

(** *** Ties *)

Lemma tied_products_is_cleaned : cleaned_table tied_products.
Proof.
  split; simpl; auto 10.
  repeat (constructor; [cleaned_row_by_computation|]). constructor.
Qed.

Lemma tied_products_swapped_is_cleaned : cleaned_table tied_products_swapped.
Proof.
  split; simpl; auto 10.
  repeat (constructor; [cleaned_row_by_computation|]). constructor.
Qed.

(** The two tables have the same groups, in the same order. *)
Lemma tied_products_demand :
  product_demand tied_products = [(Str "A", Int 1); (Str "B", Int 1)] /\
  product_demand tied_products_swapped = product_demand tied_products.
Proof. split; reflexivity. Qed.

(** With the stable kernel, the top product is "A" for either row order. *)
Lemma tied_products_row_order_ignored :
  high_demand_products argsort_stable tied_products 1 =
  Ok {| columns := ["Description"; "Total Quantity Sold"];
        rows := [[Str "A"; Int 1]] |} /\
  high_demand_products argsort_stable tied_products_swapped 1 =
  high_demand_products argsort_stable tied_products 1.
Proof. split; reflexivity. Qed.

Lemma single_row_has_no_pair (r a b : list cell) :
  ~ exists l1 l2 l3 : list (list cell), [r] = l1 ++ a :: l2 ++ b :: l3.
Proof.
  intros (l1 & l2 & l3 & E). apply (f_equal (@List.length _)) in E.
  rewrite length_app in E. cbn [List.length] in E.
  rewrite length_app in E. cbn [List.length] in E. lia.
Qed.

(** C2, as stated, fails, and for every sort kernel: the two tables of tied
    products, which differ in the order of their rows only, give the same
    single top product, and that product appears second in one of them. *)
Lemma high_demand_products_not_first_appearance :
  ~ exists argsort, sort_kernel argsort /\ first_appearance_tie_break argsort.
Proof.
  intros (argsort & Hk & Hclaim).
  pose proof (Hclaim tied_products 1 _ tied_products_is_cleaned ltac:(lia)
                (high_demand_products_rows argsort tied_products 1
                   tied_products_is_cleaned)) as Hfirst.
  pose proof (Hclaim tied_products_swapped 1 _
                tied_products_swapped_is_cleaned ltac:(lia)
                (high_demand_products_rows argsort tied_products_swapped 1
                   tied_products_swapped_is_cleaned)) as Hsecond.
  cbn [rows] in Hfirst, Hsecond.
  pose proof (ranking_perm argsort tied_products Hk) as Hperm.
  unfold ranking in Hfirst, Hsecond, Hperm.
  rewrite (proj2 tied_products_demand) in Hsecond.
  rewrite (proj1 tied_products_demand) in Hfirst, Hsecond, Hperm.
  apply Permutation_sym, Permutation_length_2_inv in Hperm as [E|E];
    rewrite E in Hfirst, Hsecond; cbn in Hfirst, Hsecond.
  - apply (single_row_has_no_pair [Str "A"; Int 1]
             [Str "B"; Int 1] [Str "A"; Int 1]).
    apply (Hfirst (Str "B") (Str "A") 1); try reflexivity.
    + split; [discriminate|]. exists [], [Str "A"].
      split; [reflexivity|intros []].
    + left; reflexivity.
  - apply (single_row_has_no_pair [Str "B"; Int 1]
             [Str "A"; Int 1] [Str "B"; Int 1]).
    apply (Hsecond (Str "A") (Str "B") 1); try reflexivity.
    + split; [discriminate|]. exists [], [Str "B"].
      split; [reflexivity|intros []].
    + left; reflexivity.
Qed.

(** *** Negative [top_n] *)

(** C10, as stated, fails, and for every sort kernel: two products and
    [top_n = -2] give no row. *)
Lemma high_demand_products_negative_top_n_empty :
  ~ exists argsort, sort_kernel argsort /\ negative_top_n_never_empty argsort.
Proof.
  intros (argsort & Hk & Hclaim).
  destruct (Hclaim example_cleaned (-2) example_cleaned_is_cleaned
              ltac:(lia)) as (out & Hout & Hne & _).
  rewrite (high_demand_products_rows argsort example_cleaned (-2)
             example_cleaned_is_cleaned) in Hout.
  injection Hout as <-. apply Hne. cbn [rows]. unfold head.
  change (0 <=? -2) with false. cbv beta iota.
  rewrite (ranking_length argsort example_cleaned Hk
             example_cleaned_is_cleaned).
  reflexivity.
Qed.

Lemma high_demand_products_negative_top_n_witness :
  (sort_kernel argsort_stable /\ cleaned_table example_cleaned /\ -1 < 0) /\
  high_demand_products argsort_stable example_cleaned (-1) =
  Ok {| columns := ["Description"; "Total Quantity Sold"];
        rows := [[Str "A"; Int 8]] |}.
Proof.
  split; [split; [exact argsort_stable_sorts
                 |split; [exact example_cleaned_is_cleaned|lia]]|].
  destruct (high_demand_products_negative_top_n argsort_stable
              example_cleaned (-1) argsort_stable_sorts
              example_cleaned_is_cleaned ltac:(lia)) as (out & _ & _).
  reflexivity.
Defined.

(** ** purchase_patterns *)

Lemma float_values_numeric (s : Series) :
  forallb numeric s = true ->
  float_values s = Ok (somes (map float_of s)).
Proof.
  intros H. unfold float_values.
  rewrite (mapM_total to_float float_of); [reflexivity|].
  intros c Hc. rewrite forallb_forall in H. specialize (H c Hc).
  destruct c; try discriminate; reflexivity.
Qed.

Lemma series_mean_numeric (s : Series) :
  forallb numeric s = true -> series_mean s = Ok (mean s).
Proof.
  intros H. unfold series_mean, mean. rewrite (float_values_numeric s H).
  cbn [bind]. destruct (somes (map float_of s)); reflexivity.
Qed.

Lemma groupby_mean_numeric (df : DataFrame) (col : string) :
  In "Description" (columns df) -> In col (columns df) ->
  (forall r, In r (rows df) -> numeric (cell_at (columns df) col r) = true) ->
  groupby_mean df "Description" col =
  Ok (map (fun d => (d, product_mean df col d))
          (sort_keys (uniques (descriptions df)))).
Proof.
  intros Hd Hc Hnum. unfold groupby_mean, groupby_agg.
  rewrite (getitem_cell_at df _ Hd), (getitem_cell_at df _ Hc). cbn [bind].
  rewrite groupby_rows. apply mapM_map_total. intros d _.
  unfold aggregate. cbn [fst snd]. rewrite series_mean_numeric; [reflexivity|].
  apply forallb_forall. intros c Hin. apply in_map_iff in Hin as [r [<- Hr]].
  apply filter_In in Hr. apply Hnum, Hr.
Qed.

Lemma join_aggregates_map {A : Type} (k f g : A -> cell) (l : list A) :
  join_aggregates (map (fun a => (k a, f a)) l) (map (fun a => (k a, g a)) l) =
  map (fun a => [k a; f a; g a]) l.
Proof. induction l; simpl; congruence. Qed.

Lemma purchase_patterns_rows (df : DataFrame) :
  cleaned_table df ->
  purchase_patterns df =
  Ok {| columns := ["Description"; "avg_quantity"; "avg_unit_price"];
        rows := map (fun d => [d; product_mean df "Quantity" d;
                               product_mean df "UnitPrice" d])
                    (sort_keys (uniques (descriptions df))) |}.
Proof.
  intros H. unfold purchase_patterns.
  pose proof (cleaned_rows df H) as Hrows. rewrite Forall_forall in Hrows.
  rewrite groupby_mean_numeric;
    [|apply (has_description df H)|apply (has_quantity df H)|].
  2:{ intros r Hr. destruct (row_quantity _ _ (Hrows r Hr)) as [z [-> _]].
      reflexivity. }
  cbn [bind].
  rewrite groupby_mean_numeric;
    [|apply (has_description df H)|apply (has_unit_price df H)|].
  2:{ intros r Hr. destruct (row_unit_price _ _ (Hrows r Hr)) as [q [-> _]].
      reflexivity. }
  cbn [bind]. do 2 f_equal.
  apply (join_aggregates_map (fun d => d)).
Qed.

Lemma float64_of_int_1 : float64_of_int 1 = 1%Qc.
Proof. apply Qc_is_canon. reflexivity. Qed.

(** The mean of one float64 value is that value. *)
Lemma mean_single (c : cell) (x : Qc) :
  float_of c = Some x -> float64 x -> mean [c] = Float x.
Proof.
  intros H Hx. unfold mean. simpl. rewrite H. simpl. f_equal.
  unfold float64_div. rewrite float64_of_int_1.
  replace (x + Q2Qc 0)%Qc with x by (change (Q2Qc 0) with 0%Qc; ring).
  replace (x / 1)%Qc with x by (field; discriminate). exact Hx.
Qed.

(** C9, amended. On a cleaned table, for a product description that occurs
    in exactly one row, the row [purchase_patterns] returns for that product
    carries that row's unit price (a float64 value) as avg_unit_price, and
    as avg_quantity that row's quantity converted to float64: the quantity
    itself up to 2^53, the float64 nearest to it beyond. *)
Theorem purchase_patterns_single_transaction
    (df : DataFrame) (r : list cell) (d : cell) (z : Z) (q : Qc) :
  cleaned_table df ->
  filter (fun r' => cell_eqb (cell_at (columns df) "Description" r') d)
         (rows df) = [r] ->
  cell_at (columns df) "Quantity" r = Int z ->
  cell_at (columns df) "UnitPrice" r = Float q -> float64 q ->
  exists out,
    purchase_patterns df = Ok out /\
    columns out = ["Description"; "avg_quantity"; "avg_unit_price"] /\
    In [d; Float (float64_of_int z); Float q] (rows out) /\
    (forall row, In row (rows out) -> nth 0 row NaN = d ->
                 row = [d; Float (float64_of_int z); Float q]) /\
    (z <= 2 ^ 53 -> float64_of_int z = Z2Qc z).
Proof.
  intros H Hone Hz Hq Hfloat.
  assert (Hzpos : 0 < z).
  { assert (Hr : In r (filter
      (fun r' => cell_eqb (cell_at (columns df) "Description" r') d) (rows df)))
      by (rewrite Hone; left; reflexivity).
    apply filter_In in Hr as [Hr _].
    pose proof (cleaned_rows df H) as Hrows. rewrite Forall_forall in Hrows.
    destruct (row_quantity _ _ (Hrows r Hr)) as [z' [Hz' Hpos]].
    congruence. }
  eexists. split; [apply purchase_patterns_rows, H|]. cbn [columns rows].
  split; [reflexivity|].
  assert (Hmq : product_mean df "Quantity" d = Float (float64_of_int z)).
  { unfold product_mean. rewrite Hone. simpl map. apply mean_single.
    - rewrite Hz. reflexivity.
    - apply float64_of_int_float64. }
  assert (Hmp : product_mean df "UnitPrice" d = Float q).
  { unfold product_mean. rewrite Hone. simpl map. apply mean_single.
    - rewrite Hq. reflexivity.
    - exact Hfloat. }
  split; [|split].
  - apply in_map_iff. exists d. rewrite Hmq, Hmp. split; [reflexivity|].
    assert (Hr : In r (filter
      (fun r' => cell_eqb (cell_at (columns df) "Description" r') d) (rows df)))
      by (rewrite Hone; left; reflexivity).
    apply filter_In in Hr as [Hr Hd]. apply cell_eqb_eq in Hd.
    apply sorted_uniques_In. split.
    + unfold descriptions. apply in_map_iff. eauto.
    + pose proof (cleaned_descriptions_notna df H) as Hna.
      rewrite Forall_forall in Hna. apply Hna. unfold descriptions.
      apply in_map_iff. eauto.
  - intros row Hrow Hkey. apply in_map_iff in Hrow as [d' [<- _]].
    cbn [nth] in Hkey. subst d'. rewrite Hmq, Hmp. reflexivity.
  - intros Hb. apply float64_of_int_exact. lia.
Qed.

Lemma purchase_patterns_single_transaction_witness :
  (cleaned_table example_cleaned /\
   filter (fun r' => cell_eqb
             (cell_at (columns example_cleaned) "Description" r') (Str "B"))
          (rows example_cleaned) = [transaction 2 1 10 "B" "2011-04-05"] /\
   cell_at (columns example_cleaned) "Quantity"
     (transaction 2 1 10 "B" "2011-04-05") = Int 1 /\
   cell_at (columns example_cleaned) "UnitPrice"
     (transaction 2 1 10 "B" "2011-04-05") = Float (Q2Qc 10) /\
   float64 (Q2Qc 10)) /\
  exists out,
    purchase_patterns example_cleaned = Ok out /\
    columns out = ["Description"; "avg_quantity"; "avg_unit_price"] /\
    In [Str "B"; Float (float64_of_int 1); Float (Q2Qc 10)] (rows out) /\
    (forall row, In row (rows out) -> nth 0 row NaN = Str "B" ->
                 row = [Str "B"; Float (float64_of_int 1); Float (Q2Qc 10)]) /\
    (1 <= 2 ^ 53 -> float64_of_int 1 = Z2Qc 1).
Proof.
  split; [split; [exact example_cleaned_is_cleaned|repeat split]|].
  - apply (float64_int 10). simpl. lia.
  - apply (purchase_patterns_single_transaction example_cleaned
             (transaction 2 1 10 "B" "2011-04-05") (Str "B") 1 (Q2Qc 10)
             example_cleaned_is_cleaned); try reflexivity.
    apply (float64_int 10). simpl. lia.
Defined.

Lemma large_quantity_is_cleaned : cleaned_table large_quantity.
Proof.
  split; simpl; auto 10.
  repeat (constructor; [cleaned_row_by_computation|]). constructor.
Qed.

(** C9 as stated fails for a quantity that is not a float64 value: the one
    sale of 2^53 + 1 units has avg_quantity 2^53. *)
Theorem purchase_patterns_single_transaction_rounds :
  ~ single_transaction_exact.
Proof.
  intros C.
  destruct (C large_quantity (transaction 1 (2 ^ 53 + 1) 2 "A" "2011-01-15")
              (Str "A") (2 ^ 53 + 1) (Q2Qc 2) large_quantity_is_cleaned
              eq_refl eq_refl eq_refl) as (out & Hout & Hin).
  rewrite (purchase_patterns_rows _ large_quantity_is_cleaned) in Hout.
  injection Hout as <-. destruct Hin as [E|[]].
  apply (f_equal (fun row => Qnum (this (float_value (nth 1 row NaN))))) in E.
  vm_compute in E. discriminate.
Qed.

(** ** Column assignment *)

Lemma cleaned_wellformed (df : DataFrame) : cleaned_table df -> wellformed df.
Proof.
  intros H. eapply Forall_impl; [|apply (cleaned_rows df H)].
  intros r Hr. apply (row_width _ _ Hr).
Qed.

Lemma nth_replace_nth_same (i : nat) (v : cell) (r : list cell) :
  (i < List.length r)%nat -> nth i (replace_nth i v r) NaN = v.
Proof.
  revert r; induction i as [|i IH]; intros [|c r]; simpl; intros H;
    try lia; [reflexivity|]. apply IH. lia.
Qed.

Lemma nth_replace_nth_other (i j : nat) (v : cell) (r : list cell) :
  i <> j -> nth j (replace_nth i v r) NaN = nth j r NaN.
Proof.
  revert j r; induction i as [|i IH]; intros [|j] [|c r]; simpl; intros H;
    try reflexivity; try lia. apply IH. lia.
Qed.

Lemma length_replace_nth (i : nat) (v : cell) (r : list cell) :
  List.length (replace_nth i v r) = List.length r.
Proof.
  revert r; induction i as [|i IH]; intros [|c r]; simpl; auto.
Qed.

Lemma get_loc_app_new (label : string) (cols : list string) :
  get_loc label cols = None ->
  get_loc label (cols ++ [label]) = Some (List.length cols).
Proof.
  induction cols as [|c cs IH]; simpl; intros H.
  - rewrite String.eqb_refl. reflexivity.
  - destruct (String.eqb label c); [discriminate|].
    destruct (get_loc label cs); [discriminate|]. rewrite IH; reflexivity.
Qed.

Lemma get_loc_app_other (label other : string) (cols : list string) :
  other <> label ->
  get_loc other (cols ++ [label]) = get_loc other cols.
Proof.
  intros Hne. induction cols as [|c cs IH]; simpl.
  - destruct (String.eqb_spec other label); [contradiction|reflexivity].
  - destruct (String.eqb other c); [reflexivity|]. rewrite IH. reflexivity.
Qed.

Lemma get_loc_injective (a b : string) (cols : list string) (i : nat) :
  get_loc a cols = Some i -> get_loc b cols = Some i -> a = b.
Proof.
  revert i; induction cols as [|c cs IH]; simpl; intros i Ha Hb; [discriminate|].
  destruct (String.eqb_spec a c) as [->|Hac], (String.eqb_spec b c) as [->|Hbc];
    try reflexivity.
  - destruct (get_loc b cs); simpl in Hb; congruence.
  - destruct (get_loc a cs); simpl in Ha; congruence.
  - destruct (get_loc a cs) as [ia|], (get_loc b cs) as [ib|];
      simpl in Ha, Hb; try discriminate.
    apply (IH ia); [reflexivity|]. congruence.
Qed.

Lemma map_zip_with {A B C D : Type} (f : A -> B -> C) (g : C -> D)
    (h : A -> B -> D) (a : list A) (b : list B) :
  (forall x y, In x a -> g (f x y) = h x y) ->
  map g (zip_with f a b) = zip_with h a b.
Proof.
  revert b; induction a as [|x a IH]; intros [|y b] H; simpl; try reflexivity.
  rewrite H by (left; reflexivity). f_equal. apply IH.
  intros; apply H; right; assumption.
Qed.

Lemma zip_with_snd {A B : Type} (a : list A) (b : list B) :
  List.length b = List.length a -> zip_with (fun _ y => y) a b = b.
Proof.
  revert b; induction a as [|x a IH]; intros [|y b]; simpl; intros H;
    try reflexivity; try discriminate. f_equal. apply IH. lia.
Qed.

Lemma zip_with_fst {A B C : Type} (g : A -> C) (a : list A) (b : list B) :
  List.length b = List.length a -> zip_with (fun x _ => g x) a b = map g a.
Proof.
  revert b; induction a as [|x a IH]; intros [|y b]; simpl; intros H;
    try reflexivity; try discriminate. f_equal. apply IH. lia.
Qed.

Lemma zip_with_Forall {A B C : Type} (f : A -> B -> C) (P : A -> Prop)
    (Q : C -> Prop) (a : list A) (b : list B) :
  (forall x y, P x -> Q (f x y)) -> Forall P a -> Forall Q (zip_with f a b).
Proof.
  intros H Ha. revert b. induction Ha as [|x a Hx Ha IH]; intros [|y b];
    simpl; constructor; auto.
Qed.

Lemma length_zip_with {A B C : Type} (f : A -> B -> C) (a : list A)
    (b : list B) :
  List.length b = List.length a ->
  List.length (zip_with f a b) = List.length a.
Proof.
  revert b; induction a as [|x a IH]; intros [|y b]; simpl; intros H;
    try reflexivity; try discriminate. f_equal. apply IH. lia.
Qed.

Lemma set_column_wellformed (df : DataFrame) (label : string) (s : Series) :
  wellformed df -> wellformed (set_column df label s).
Proof.
  unfold wellformed, set_column. intros H.
  destruct (get_loc label (columns df)) as [i|]; cbn [columns rows].
  - apply (zip_with_Forall _ _ _ _ _ (fun r v Hr =>
             eq_trans (length_replace_nth i v r) Hr) H).
  - apply (zip_with_Forall _ (fun r => List.length r = List.length (columns df))).
    + intros r v Hr. rewrite !length_app, Hr. reflexivity.
    + exact H.
Qed.

Lemma set_column_length (df : DataFrame) (label : string) (s : Series) :
  List.length s = List.length (rows df) ->
  List.length (rows (set_column df label s)) = List.length (rows df).
Proof.
  intros H. unfold set_column.
  destruct (get_loc label (columns df)); cbn [rows]; apply length_zip_with, H.
Qed.

Lemma getitem_set_column_same (df : DataFrame) (label : string) (s : Series) :
  wellformed df -> List.length s = List.length (rows df) ->
  getitem (set_column df label s) label = Ok s.
Proof.
  intros Hwf Hlen. unfold set_column, getitem.
  destruct (get_loc label (columns df)) as [i|] eqn:E; cbn [columns rows].
  - rewrite E. f_equal.
    rewrite (map_zip_with _ _ (fun _ v => v)); [apply zip_with_snd, Hlen|].
    intros r v Hr. apply nth_replace_nth_same.
    unfold wellformed in Hwf. rewrite Forall_forall in Hwf.
    rewrite (Hwf r Hr). eapply get_loc_lt, E.
  - rewrite (get_loc_app_new _ _ E). f_equal.
    rewrite (map_zip_with _ _ (fun _ v => v)); [apply zip_with_snd, Hlen|].
    intros r v Hr. unfold wellformed in Hwf. rewrite Forall_forall in Hwf.
    rewrite <- (Hwf r Hr), nth_middle. reflexivity.
Qed.

Lemma getitem_set_column_other (df : DataFrame) (label other : string)
    (s : Series) :
  wellformed df -> List.length s = List.length (rows df) -> other <> label ->
  getitem (set_column df label s) other = getitem df other.
Proof.
  intros Hwf Hlen Hne. unfold set_column, getitem.
  unfold wellformed in Hwf. rewrite Forall_forall in Hwf.
  destruct (get_loc label (columns df)) as [i|] eqn:E; cbn [columns rows].
  - destruct (get_loc other (columns df)) as [j|] eqn:Ej; [|reflexivity].
    f_equal.
    rewrite (map_zip_with _ _ (fun r _ => nth j r NaN));
      [apply zip_with_fst, Hlen|].
    intros r v Hr. apply nth_replace_nth_other. intros ->.
    apply Hne. eapply get_loc_injective; eauto.
  - rewrite (get_loc_app_other _ _ _ Hne).
    destruct (get_loc other (columns df)) as [j|] eqn:Ej; [|reflexivity].
    f_equal.
    rewrite (map_zip_with _ _ (fun r _ => nth j r NaN));
      [apply zip_with_fst, Hlen|].
    intros r v Hr. apply app_nth1. rewrite (Hwf r Hr).
    eapply get_loc_lt, Ej.
Qed.

(** ** Whole amounts *)

Lemma Z2Qc_inj (a b : Z) : Z2Qc a = Z2Qc b -> a = b.
Proof.
  intros E. apply (f_equal (fun q => Qnum (this q))) in E.
  rewrite !this_Z2Qc in E. exact E.
Qed.

Lemma Z2Qc_pos_inv (z : Z) : (Q2Qc 0 < Z2Qc z)%Qc -> 0 < z.
Proof.
  unfold Z2Qc, Qclt. cbn [this Q2Qc]. rewrite !Qred_correct.
  unfold Qlt. simpl. lia.
Qed.

(** A row of a cleaned table with a whole price: a quantity and a price of
    one unit at least, and their product as amount. *)
Lemma amount_cleaned (cols : list string) (r : list cell) :
  cleaned_row cols r ->
  (exists p, cell_at cols "UnitPrice" r = Float (Z2Qc p)) ->
  exists z p,
    cell_at cols "Quantity" r = Int z /\
    cell_at cols "UnitPrice" r = Float (Z2Qc p) /\
    0 < z /\ 0 < p /\ amount cols r = z * p.
Proof.
  intros Hr [p Hp].
  destruct (row_quantity _ _ Hr) as [z [Hz Hzpos]].
  destruct (row_unit_price _ _ Hr) as [q [Hq Hqpos]].
  exists z, p. rewrite Hp in Hq. injection Hq as <-.
  repeat split; try assumption.
  - apply Z2Qc_pos_inv, Hqpos.
  - unfold amount. rewrite Hz, Hp, this_Z2Qc. reflexivity.
Qed.

Lemma Z_sum_filter_le {A : Type} (f : A -> Z) (g : A -> bool) (l : list A) :
  (forall a, In a l -> 0 <= f a) ->
  fold_right Z.add 0 (map f (filter g l)) <= fold_right Z.add 0 (map f l).
Proof.
  induction l as [|a l IH]; intros H; simpl; [lia|].
  pose proof (H a (or_introl eq_refl)).
  assert (IH' := IH (fun b Hb => H b (or_intror Hb))).
  destruct (g a); simpl; lia.
Qed.

Lemma Z_sum_ge_length {A : Type} (f : A -> Z) (l : list A) :
  (forall a, In a l -> 1 <= f a) ->
  Z.of_nat (List.length l) <= fold_right Z.add 0 (map f l).
Proof.
  induction l as [|a l IH]; intros H; [simpl; lia|].
  pose proof (H a (or_introl eq_refl)).
  assert (IH' := IH (fun b Hb => H b (or_intror Hb))).
  cbn [List.length map fold_right]. lia.
Qed.

Lemma Z_sum_ge_element {A : Type} (f : A -> Z) (l : list A) (a : A) :
  (forall b, In b l -> 0 <= f b) -> In a l ->
  f a <= fold_right Z.add 0 (map f l).
Proof.
  induction l as [|b l IH]; intros H Hin; [contradiction|].
  pose proof (H b (or_introl eq_refl)).
  cbn [map fold_right].
  assert (0 <= fold_right Z.add 0 (map f l)).
  { clear IH Hin. induction l as [|c l IHl]; simpl; [lia|].
    pose proof (H c (or_intror (or_introl eq_refl))).
    assert (0 <= fold_right Z.add 0 (map f l)); [|lia].
    apply IHl. intros x [->|Hx]; [assumption|]. apply H. right; right; exact Hx. }
  destruct Hin as [->|Hin]; [lia|].
  assert (IH' := IH (fun c Hc => H c (or_intror Hc)) Hin). lia.
Qed.

(** On a cleaned table with whole amounts, the rows of a product are at most
    2^53 and so is each of their quantities, prices and amounts. *)
Lemma whole_amounts_product (df : DataFrame) (d : cell) :
  cleaned_table df -> whole_amounts df ->
  Z.of_nat (List.length (product_rows df d)) <= 2 ^ 53 /\
  forall r, In r (product_rows df d) ->
    exists z p,
      cell_at (columns df) "Quantity" r = Int z /\
      cell_at (columns df) "UnitPrice" r = Float (Z2Qc p) /\
      0 < z /\ 0 < p /\ z * p <= 2 ^ 53.
Proof.
  intros H [Hwhole Hfit].
  pose proof (cleaned_rows df H) as Hrows. rewrite Forall_forall in Hrows.
  assert (Hone : forall r, In r (rows df) -> 1 <= amount (columns df) r).
  { intros r Hr.
    destruct (amount_cleaned _ r (Hrows r Hr) (Hwhole r Hr))
      as (z & p & _ & _ & Hz & Hp & ->). nia. }
  assert (Hpos : forall r, In r (rows df) -> 0 <= amount (columns df) r).
  { intros r Hr. specialize (Hone r Hr). lia. }
  split.
  - pose proof (Z_sum_ge_length (amount (columns df)) (product_rows df d))
      as Hlen.
    pose proof (Z_sum_filter_le (amount (columns df))
      (fun r => cell_eqb (cell_at (columns df) "Description" r) d)
      (rows df) Hpos) as Hle.
    fold (product_rows df d) in Hle.
    assert (Z.of_nat (List.length (product_rows df d)) <=
            fold_right Z.add 0 (map (amount (columns df)) (product_rows df d))).
    { apply Hlen. intros r Hr. apply Hone.
      unfold product_rows in Hr. apply filter_In in Hr. apply Hr. }
    lia.
  - intros r Hr. unfold product_rows in Hr. apply filter_In in Hr as [Hr _].
    destruct (amount_cleaned _ r (Hrows r Hr) (Hwhole r Hr))
      as (z & p & Hz & Hp & Hzpos & Hppos & E).
    exists z, p. repeat split; try assumption.
    pose proof (Z_sum_ge_element (amount (columns df)) (rows df) r Hpos Hr).
    lia.
Qed.

Lemma example_cleaned_whole_amounts : whole_amounts example_cleaned.
Proof.
  split.
  - intros r Hr. simpl in Hr.
    destruct Hr as [<-|[<-|[<-|[]]]]; eexists; reflexivity.
  - vm_compute. discriminate.
Qed.

Lemma Z2Qc_add (a b : Z) : Z2Qc (a + b) = (Z2Qc a + Z2Qc b)%Qc.
Proof.
  unfold Z2Qc. apply Qc_is_canon. unfold Qcplus. cbn [this Q2Qc].
  rewrite !Qred_correct, inject_Z_plus. reflexivity.
Qed.




(** ** quarterly_revenue *)

Section Revenue.

Variable parse_datetime : string -> option (Z * Z * Z).

Lemma combine_maps {A B C : Type} (f : A -> B) (g : A -> C) (l : list A) :
  combine (map f l) (map g l) = map (fun a => (f a, g a)) l.
Proof. induction l; simpl; congruence. Qed.

Lemma series_mul_cleaned (df : DataFrame) :
  cleaned_table df ->
  series_mul (map (cell_at (columns df) "Quantity") (rows df))
             (map (cell_at (columns df) "UnitPrice") (rows df)) =
  Ok (totals df).
Proof.
  intros H. unfold series_mul, totals. rewrite combine_maps.
  apply mapM_map_total. intros r Hr. cbn [fst snd].
  pose proof (cleaned_rows df H) as Hrows. rewrite Forall_forall in Hrows.
  unfold line_revenue.
  destruct (row_quantity _ _ (Hrows r Hr)) as [z [-> _]].
  destruct (row_unit_price _ _ (Hrows r Hr)) as [q [-> _]]. reflexivity.
Qed.

Lemma to_datetime_parses (df : DataFrame) :
  all_dates_parse parse_datetime df ->
  to_datetime parse_datetime
    (map (cell_at (columns df) "InvoiceDate") (rows df)) =
  Ok (map (fun r => datetime_of parse_datetime (cell_at (columns df) "InvoiceDate" r))
          (rows df)).
Proof.
  intros H. unfold to_datetime. apply mapM_map_total. intros r Hr.
  specialize (H r Hr). unfold parses in H. unfold to_datetime_cell, datetime_of.
  destruct (cell_at (columns df) "InvoiceDate" r); try contradiction;
    [|reflexivity].
  destruct (parse_datetime s) as [[[y m] d]|]; [reflexivity|congruence].
Qed.

Lemma to_period_parses (df : DataFrame) :
  all_dates_parse parse_datetime df ->
  mapM to_period_Q
    (map (fun r => datetime_of parse_datetime (cell_at (columns df) "InvoiceDate" r))
         (rows df)) =
  Ok (quarters parse_datetime df).
Proof.
  intros H. unfold quarters. apply mapM_map_total. intros r Hr.
  specialize (H r Hr). unfold parses in H. unfold quarter_of, datetime_of.
  destruct (cell_at (columns df) "InvoiceDate" r); try contradiction;
    [|reflexivity].
  destruct (parse_datetime s) as [[[y m] d]|]; [reflexivity|congruence].
Qed.

Lemma setitem_ok (df : DataFrame) (label : string) (s : Series) :
  List.length s = List.length (rows df) ->
  setitem df label s = Ok (set_column df label s).
Proof.
  intros H. unfold setitem. rewrite H, Nat.eqb_refl. reflexivity.
Qed.

Lemma somes_floats {A : Type} (f : A -> Qc) (l : list A) :
  somes (map float_of (map (fun a => Float (f a)) l)) = map f l.
Proof. induction l; simpl; congruence. Qed.

Lemma groupby_sum_revenue (df : DataFrame) :
  cleaned_table df ->
  groupby_sum (with_quarter parse_datetime df) "Quarter" "Total" = Ok (revenue parse_datetime df).
Proof.
  intros H. pose proof (cleaned_wellformed df H) as Hwf.
  assert (Hlt : List.length (totals df) = List.length (rows df))
    by apply length_map.
  assert (Hlq : List.length (quarters parse_datetime df) = List.length (rows (with_total df))).
  { unfold with_total. rewrite set_column_length by exact Hlt.
    apply length_map. }
  assert (Hwf1 : wellformed (with_total df))
    by apply set_column_wellformed, Hwf.
  assert (Htotal : getitem (with_quarter parse_datetime df) "Total" = Ok (totals df)).
  { unfold with_quarter.
    rewrite getitem_set_column_other by (auto; discriminate).
    apply getitem_set_column_same; assumption. }
  assert (Hquarter : getitem (with_quarter parse_datetime df) "Quarter" = Ok (quarters parse_datetime df)).
  { apply getitem_set_column_same; assumption. }
  unfold groupby_sum, groupby_agg. rewrite Htotal. cbn [bind].
  rewrite Hquarter. cbn [bind].
  unfold quarters at 1, totals at 2. rewrite groupby_rows. unfold revenue.
  destruct (forallb is_int (totals df)) eqn:Eint.
  - destruct (rows df) as [|r l] eqn:Erows.
    + unfold quarters. rewrite Erows. reflexivity.
    + unfold totals in Eint. rewrite Erows in Eint. discriminate.
  - apply mapM_map_total. intros k _. unfold aggregate, sum_float64.
    cbn [fst snd]. rewrite float_values_numeric.
    + cbn [bind]. rewrite somes_floats. reflexivity.
    + apply forallb_forall. intros c Hc.
      apply in_map_iff in Hc as [r [<- _]]. reflexivity.
Qed.

Lemma quarterly_revenue_run (df : DataFrame) :
  cleaned_table df -> all_dates_parse parse_datetime df ->
  quarterly_revenue parse_datetime df =
  (with_quarter parse_datetime df,
   Ok (reset_index "Quarter" "Total Revenue" (revenue parse_datetime df))).
Proof.
  intros H Hparse. pose proof (cleaned_wellformed df H) as Hwf.
  assert (Hlt : List.length (totals df) = List.length (rows df))
    by apply length_map.
  assert (Hlq : List.length (quarters parse_datetime df) = List.length (rows (with_total df))).
  { unfold with_total. rewrite set_column_length by exact Hlt.
    apply length_map. }
  unfold quarterly_revenue, bindM, read, pure, assign, retM.
  rewrite (getitem_cell_at df _ (has_quantity df H)). cbv beta iota.
  rewrite (getitem_cell_at df _ (has_unit_price df H)). cbv beta iota.
  rewrite (series_mul_cleaned df H). cbv beta iota.
  rewrite (setitem_ok df "Total" (totals df) Hlt). cbv beta iota.
  fold (with_total df).
  assert (Hdate : getitem (with_total df) "InvoiceDate" =
                  Ok (map (cell_at (columns df) "InvoiceDate") (rows df))).
  { unfold with_total.
    rewrite getitem_set_column_other by (auto; discriminate).
    apply getitem_cell_at, (has_invoice_date df H). }
  rewrite Hdate. cbv beta iota.
  rewrite (to_datetime_parses df Hparse). cbv beta iota.
  rewrite (to_period_parses df Hparse). cbv beta iota.
  rewrite (setitem_ok (with_total df) "Quarter" (quarters parse_datetime df) Hlq).
  cbv beta iota. fold (with_quarter parse_datetime df).
  rewrite (groupby_sum_revenue df H). reflexivity.
Qed.

(** *** Conservation *)





Lemma quarter_of_parses (c : cell) : parses parse_datetime c -> quarter_of parse_datetime c <> NaN.
Proof.
  unfold parses, quarter_of, datetime_of.
  destruct c; try contradiction; [|discriminate].
  destruct (parse_datetime s) as [[[y m] d]|]; [discriminate|congruence].
Qed.


(** *** The frame after the call *)

Lemma get_loc_fresh (label : string) (cols : list string) :
  ~ In label cols -> get_loc label cols = None.
Proof.
  intros H. destruct (get_loc label cols) as [i|] eqn:E; [|reflexivity].
  exfalso. apply H. clear H. revert i E.
  induction cols as [|c cs IH]; simpl; intros i E; [discriminate|].
  destruct (String.eqb_spec label c); [left; congruence|].
  destruct (get_loc label cs) as [j|]; [|discriminate].
  right. apply (IH j eq_refl).
Qed.

(** A successful call leaves the two derived columns on its argument. *)
Lemma quarterly_revenue_adds_columns (df : DataFrame) :
  cleaned_table df -> all_dates_parse parse_datetime df ->
  ~ In "Total" (columns df) -> ~ In "Quarter" (columns df) ->
  columns (fst (quarterly_revenue parse_datetime df)) =
  columns df ++ ["Total"; "Quarter"].
Proof.
  intros H Hparse Ht Hq. rewrite quarterly_revenue_run by assumption.
  cbn [fst]. unfold with_quarter, with_total, set_column.
  rewrite (get_loc_fresh _ _ Ht). cbn [columns].
  rewrite get_loc_app_other by discriminate.
  rewrite (get_loc_fresh _ _ Hq). cbn [columns].
  rewrite <- app_assoc. reflexivity.
Qed.

(** A call on a table with a date that does not parse raises
    [DateParseError], returns no aggregate, and leaves the frame with the
    [Total] column assigned. *)
Lemma quarterly_revenue_unparsable (df : DataFrame) (r : list cell)
    (s : string) :
  cleaned_table df -> In r (rows df) ->
  cell_at (columns df) "InvoiceDate" r = Str s -> parse_datetime s = None ->
  quarterly_revenue parse_datetime df = (with_total df, Raise DateParseError).
Proof.
  intros H Hr Hs Hnone. pose proof (cleaned_wellformed df H) as Hwf.
  assert (Hlt : List.length (totals df) = List.length (rows df))
    by apply length_map.
  unfold quarterly_revenue, bindM, read, pure, assign, retM.
  rewrite (getitem_cell_at df _ (has_quantity df H)). cbv beta iota.
  rewrite (getitem_cell_at df _ (has_unit_price df H)). cbv beta iota.
  rewrite (series_mul_cleaned df H). cbv beta iota.
  rewrite (setitem_ok df "Total" (totals df) Hlt). cbv beta iota.
  fold (with_total df).
  assert (Hdate : getitem (with_total df) "InvoiceDate" =
                  Ok (map (cell_at (columns df) "InvoiceDate") (rows df))).
  { unfold with_total.
    rewrite getitem_set_column_other by (auto; discriminate).
    apply getitem_cell_at, (has_invoice_date df H). }
  rewrite Hdate. cbv beta iota.
  assert (Hraise : to_datetime parse_datetime
            (map (cell_at (columns df) "InvoiceDate") (rows df)) =
          Raise DateParseError).
  { unfold to_datetime.
    apply (mapM_raise _ _ (Str s)).
    - rewrite <- Hs. apply in_map, Hr.
    - simpl. rewrite Hnone. reflexivity.
    - intros c e Hc He. apply in_map_iff in Hc as [r' [<- Hr']].
      pose proof (cleaned_rows df H) as Hrows.
      rewrite Forall_forall in Hrows.
      pose proof (row_invoice_date _ _ (Hrows r' Hr')) as Hd.
      destruct (cell_at (columns df) "InvoiceDate" r'); try contradiction;
        simpl in He; [|discriminate].
      destruct (parse_datetime s0) as [[[y m] d]|]; congruence. }
  rewrite Hraise. reflexivity.
Qed.

End Revenue.

Lemma example_cleaned_dates_parse :
  all_dates_parse parse_iso_date example_cleaned.
Proof.
  intros r Hr. simpl in Hr.
  repeat (destruct Hr as [<-|Hr]; [vm_compute; discriminate|]).
  contradiction.
Qed.





(** The worked example: revenue 16 in 2011Q1 and 10 in 2011Q2. *)
Lemma example_quarterly_revenue :
  snd (quarterly_revenue parse_iso_date example_cleaned) =
  Ok {| columns := ["Quarter"; "Total Revenue"];
        rows := [[Period 2011 1; Float (Q2Qc 16)];
                 [Period 2011 2; Float (Q2Qc 10)]] |}.
Proof.
  rewrite (quarterly_revenue_run parse_iso_date example_cleaned
             example_cleaned_is_cleaned example_cleaned_dates_parse).
  reflexivity.
Qed.

(** C1. The claim fails on the code for [quarterly_revenue]: run on the
    cleaned table of the worked example, it leaves that table with the two
    columns [Total] and [Quarter] added, so the table is no longer the one
    the caller had. *)
Theorem quarterly_revenue_changes_cleaned_table :
  columns (fst (quarterly_revenue parse_iso_date example_cleaned)) =
  columns example_cleaned ++ ["Total"; "Quarter"] /\
  fst (quarterly_revenue parse_iso_date example_cleaned) <> example_cleaned.
Proof.
  assert (Hcols :
    columns (fst (quarterly_revenue parse_iso_date example_cleaned)) =
    columns example_cleaned ++ ["Total"; "Quarter"]).
  { apply quarterly_revenue_adds_columns.
    - exact example_cleaned_is_cleaned.
    - exact example_cleaned_dates_parse.
    - simpl. intros H. repeat (destruct H as [H|H]; [discriminate|]).
      contradiction.
    - simpl. intros H. repeat (destruct H as [H|H]; [discriminate|]).
      contradiction. }
  split; [exact Hcols|].
  intros E. rewrite E in Hcols. discriminate.
Qed.

(** The script hands the frame that [quarterly_revenue] has extended to the
    two aggregators that follow it. *)
Lemma main_cleaned_frame :
  exists report,
    main parse_iso_date argsort_stable example_raw = Ok report /\
    columns (cleaned_df report) = retail_columns ++ ["Total"; "Quarter"].
Proof. eexists. split; [vm_compute; reflexivity|reflexivity]. Qed.

Lemma unparsable_date_table_is_cleaned : cleaned_table unparsable_date_table.
Proof.
  split; simpl; auto 10.
  repeat (constructor; [cleaned_row_by_computation|]). constructor.
Qed.

(** C3. The claim fails on the code in its last part: on a cleaned table with
    an invoice date that does not parse, [quarterly_revenue] raises
    [DateParseError] and returns no aggregate, but the failed call has already
    assigned the [Total] column to the table it was given. *)
Theorem quarterly_revenue_failed_call_leaves_total :
  snd (quarterly_revenue parse_iso_date unparsable_date_table) =
  Raise DateParseError /\
  columns (fst (quarterly_revenue parse_iso_date unparsable_date_table)) =
  columns unparsable_date_table ++ ["Total"].
Proof.
  rewrite (quarterly_revenue_unparsable parse_iso_date unparsable_date_table
             (transaction 2 1 10 "B" "next week") "next week"
             unparsable_date_table_is_cleaned);
    [split; reflexivity| |reflexivity|reflexivity].
  right; left; reflexivity.
Qed.

(** * Further properties of the module *)

(** ** import_data *)

Lemma startswith_head (l : list ascii) (a : ascii) (p : list ascii) :
  startswith l (a :: p) = true -> exists l', l = a :: l'.
Proof.
  destruct l as [|b l']; simpl; [discriminate|].
  destruct (Ascii.eqb_spec a b) as [->|]; [eauto|discriminate].
Qed.

(** No name ends in both extensions. *)
Lemma endswith_xlsx_not_csv (s : string) :
  endswith s ".xlsx" = true -> endswith s ".csv" = false.
Proof.
  unfold endswith. simpl rev. intros H.
  apply startswith_head in H as [l' ->]. reflexivity.
Qed.

Section ReadersProperties.

Variable read_excel : string -> read_result.
Variable read_csv : string -> read_result.

(** [import_data] returns a frame exactly when the name ends in [.xlsx] and
    [read_excel] returns that frame, or the name ends in [.csv] and
    [read_csv] returns it. *)
Theorem import_data_returns_frame (filename : string) (df : DataFrame) :
  import_data read_excel read_csv filename = Imported df <->
  (endswith filename ".xlsx" = true /\ read_excel filename = ReadOk df) \/
  (endswith filename ".csv" = true /\ read_csv filename = ReadOk df).
Proof.
  unfold import_data, import_data_body. split.
  - destruct (endswith filename ".xlsx") eqn:Ex.
    + destruct (read_excel filename); [|discriminate].
      intros E. injection E as ->. left. auto.
    + destruct (endswith filename ".csv") eqn:Ec; [|discriminate].
      destruct (read_csv filename); [|discriminate].
      intros E. injection E as ->. right. auto.
  - intros [[Ex Hr]|[Ec Hr]].
    + rewrite Ex, Hr. reflexivity.
    + destruct (endswith filename ".xlsx") eqn:Ex.
      * apply endswith_xlsx_not_csv in Ex. congruence.
      * rewrite Ec, Hr. reflexivity.
Qed.

(** Whatever goes wrong, the caller sees a [ValueError] whose message is
    "Error loading file <name>: " followed by the message of the cause: the
    reader's, or, for a name with neither extension, the module's own
    "Unsupported file format" text. *)
Theorem import_data_wraps_every_failure (filename message : string) :
  import_data read_excel read_csv filename = RaiseValueError message ->
  exists cause,
    message = ("Error loading file " ++ filename ++ ": " ++ cause)%string /\
    ((endswith filename ".xlsx" = true /\
      read_excel filename = ReadFails cause) \/
     (endswith filename ".xlsx" = false /\ endswith filename ".csv" = true /\
      read_csv filename = ReadFails cause) \/
     (endswith filename ".xlsx" = false /\ endswith filename ".csv" = false /\
      cause = unsupported_format)).
Proof.
  unfold import_data, import_data_body.
  destruct (endswith filename ".xlsx") eqn:Ex.
  - destruct (read_excel filename) as [df|e] eqn:Hr; [discriminate|].
    intros E. injection E as <-. exists e. auto.
  - destruct (endswith filename ".csv") eqn:Ec.
    + destruct (read_csv filename) as [df|e] eqn:Hr; [discriminate|].
      intros E. injection E as <-. exists e. auto 6.
    + intros E. injection E as <-. exists unsupported_format. auto 6.
Qed.

End ReadersProperties.

Lemma import_data_wraps_every_failure_witness :
  import_data example_read_excel example_read_csv "missing.csv" =
  RaiseValueError
    "Error loading file missing.csv: No such file or directory" /\
  exists cause,
    "Error loading file missing.csv: No such file or directory" =
    ("Error loading file " ++ "missing.csv" ++ ": " ++ cause)%string /\
    ((endswith "missing.csv" ".xlsx" = true /\
      example_read_excel "missing.csv" = ReadFails cause) \/
     (endswith "missing.csv" ".xlsx" = false /\
      endswith "missing.csv" ".csv" = true /\
      example_read_csv "missing.csv" = ReadFails cause) \/
     (endswith "missing.csv" ".xlsx" = false /\
      endswith "missing.csv" ".csv" = false /\
      cause = unsupported_format)).
Proof.
  split; [reflexivity|].
  apply (import_data_wraps_every_failure example_read_excel example_read_csv).
  reflexivity.
Defined.

(** ** filter_data: every outcome *)

Lemma get_loc_Some_In (label : string) (cols : list string) (i : nat) :
  get_loc label cols = Some i -> In label cols.
Proof.
  intros H. destruct (in_dec string_dec label cols) as [Hin|Hnin];
    [exact Hin|].
  rewrite (get_loc_fresh _ _ Hnin) in H. discriminate.
Qed.

Lemma getitem_key_error (df : DataFrame) (label : string) :
  ~ In label (columns df) -> getitem df label = Raise (KeyError label).
Proof.
  intros H. unfold getitem. rewrite (get_loc_fresh _ _ H). reflexivity.
Qed.

Lemma getitem_raises (df : DataFrame) (label : string) (e : exn) :
  getitem df label = Raise e -> e = KeyError label /\ ~ In label (columns df).
Proof.
  unfold getitem. destruct (get_loc label (columns df)) as [i|] eqn:E;
    [discriminate|].
  intros H. injection H as <-. split; [reflexivity|].
  intros Hin. destruct (get_loc_In _ _ Hin) as [i Hi]. congruence.
Qed.

Lemma mapM_raise_inv {A B : Type} (f : A -> result B) (l : list A) (e : exn) :
  mapM f l = Raise e -> exists a, In a l /\ f a = Raise e.
Proof.
  induction l as [|x l IH]; simpl; [discriminate|].
  destruct (f x) as [b|e'] eqn:Ex; simpl.
  - destruct (mapM f l) as [bs|e'']; simpl; [discriminate|].
    intros H. injection H as ->. destruct (IH eq_refl) as (a & Ha & Hfa).
    eauto.
  - intros H. injection H as ->. eauto.
Qed.

Lemma mapM_ok_inv {A B : Type} (f : A -> result B) (l : list A) (bs : list B) :
  mapM f l = Ok bs -> forall a, In a l -> exists b, f a = Ok b.
Proof.
  revert bs. induction l as [|x l IH]; simpl; intros bs H a Ha; [contradiction|].
  destruct (f x) as [b|e] eqn:Ex; simpl in H; [|discriminate].
  destruct (mapM f l) as [bs'|e]; simpl in H; [|discriminate].
  destruct Ha as [<-|Ha]; [eauto|]. eapply IH; eauto.
Qed.

Lemma gt0_ok (c : cell) (b : bool) : gt0 c = Ok b -> numeric c = true.
Proof. destruct c; simpl; intros H; try discriminate; reflexivity. Qed.

Lemma gt0_raises (c : cell) (e : exn) :
  gt0 c = Raise e -> e = TypeError /\ numeric c = false.
Proof.
  destruct c; simpl; intros H; try discriminate; injection H as <-; auto.
Qed.

(** The cleaner, once the three labels are known to be there. *)
Lemma filter_data_run (df : DataFrame) :
  In "CustomerID" (columns df) -> In "Quantity" (columns df) ->
  In "UnitPrice" (columns df) ->
  filter_data df =
  (qpos <- series_gt0 (map (cell_at (columns df) "Quantity") (with_customer df)) ;;
   ppos <- series_gt0 (map (cell_at (columns df) "UnitPrice") (with_customer df)) ;;
   Ok {| columns := columns df;
         rows := map fst (filter snd (combine (with_customer df)
                                              (mask_and qpos ppos))) |}).
Proof.
  intros Hc Hq Hp. unfold filter_data, dropna.
  rewrite (getitem_cell_at df "CustomerID" Hc). cbn [bind].
  set (df1 := boolean_index _ _).
  assert (Hrows : rows df1 = with_customer df).
  { unfold df1, boolean_index, with_customer; simpl.
    rewrite map_map. apply filter_mask. }
  assert (Hcols : columns df1 = columns df) by reflexivity.
  rewrite (getitem_cell_at df1 "Quantity") by (rewrite Hcols; exact Hq).
  cbn [bind]. rewrite Hcols, Hrows.
  destruct (series_gt0 _) as [qpos|e]; cbn [bind]; [|reflexivity].
  rewrite (getitem_cell_at df1 "UnitPrice") by (rewrite Hcols; exact Hp).
  cbn [bind]. rewrite Hcols, Hrows.
  destruct (series_gt0 _) as [ppos|e]; cbn [bind]; [|reflexivity].
  unfold boolean_index. rewrite Hcols, Hrows. reflexivity.
Qed.

Lemma with_customer_In (df : DataFrame) (r : list cell) :
  In r (with_customer df) <->
  In r (rows df) /\ cell_at (columns df) "CustomerID" r <> NaN.
Proof.
  unfold with_customer. rewrite filter_In. unfold notna.
  destruct (cell_at (columns df) "CustomerID" r); simpl;
    split; intros [H1 H2]; split; auto; try discriminate; congruence.
Qed.

Lemma filter_data_numeric_rows (df : DataFrame) :
  In "CustomerID" (columns df) -> In "Quantity" (columns df) ->
  In "UnitPrice" (columns df) ->
  (forall r, In r (with_customer df) ->
     numeric (cell_at (columns df) "Quantity" r) = true /\
     numeric (cell_at (columns df) "UnitPrice" r) = true) ->
  filter_data df =
  Ok {| columns := columns df;
        rows := filter (complete_and_positive (columns df)) (rows df) |}.
Proof.
  intros Hc Hq Hp Hnum. rewrite filter_data_run by assumption.
  rewrite series_gt0_numeric by (intros r Hr; apply Hnum, Hr). cbn [bind].
  rewrite series_gt0_numeric by (intros r Hr; apply Hnum, Hr). cbn [bind].
  do 2 f_equal. rewrite mask_and_map, filter_mask.
  unfold with_customer. rewrite filter_twice.
  apply filter_ext. intros r. unfold complete_and_positive.
  rewrite andb_assoc. reflexivity.
Qed.

(** [filter_data] succeeds exactly when the three columns are there and every
    row that has a customer holds a number (or a missing value) as Quantity
    and as UnitPrice; what the rows without a customer hold does not matter,
    since they are dropped before the comparisons.  Its result is then the
    filtered frame. *)
Theorem filter_data_succeeds_iff (df out : DataFrame) :
  filter_data df = Ok out <->
  In "CustomerID" (columns df) /\ In "Quantity" (columns df) /\
  In "UnitPrice" (columns df) /\
  (forall r, In r (rows df) -> cell_at (columns df) "CustomerID" r <> NaN ->
     numeric (cell_at (columns df) "Quantity" r) = true /\
     numeric (cell_at (columns df) "UnitPrice" r) = true) /\
  out = {| columns := columns df;
           rows := filter (complete_and_positive (columns df)) (rows df) |}.
Proof.
  split.
  - intros H.
    assert (Hc : In "CustomerID" (columns df)).
    { destruct (in_dec string_dec "CustomerID" (columns df)) as [|Hn]; [assumption|].
      unfold filter_data, dropna in H.
      rewrite (getitem_key_error df _ Hn) in H. discriminate. }
    assert (Hq : In "Quantity" (columns df)).
    { destruct (in_dec string_dec "Quantity" (columns df)) as [|Hn]; [assumption|].
      unfold filter_data, dropna in H.
      rewrite (getitem_cell_at df _ Hc) in H. cbn [bind] in H.
      rewrite getitem_key_error in H by exact Hn. discriminate. }
    assert (Hp : In "UnitPrice" (columns df)).
    { destruct (in_dec string_dec "UnitPrice" (columns df)) as [|Hn]; [assumption|].
      unfold filter_data, dropna in H.
      rewrite (getitem_cell_at df _ Hc) in H. cbn [bind] in H.
      rewrite getitem_cell_at in H by exact Hq. cbn [bind] in H.
      destruct (series_gt0 _) in H; cbn [bind] in H; [|discriminate].
      rewrite getitem_key_error in H by exact Hn. discriminate. }
    assert (Hnum : forall r, In r (with_customer df) ->
              numeric (cell_at (columns df) "Quantity" r) = true /\
              numeric (cell_at (columns df) "UnitPrice" r) = true).
    { rewrite filter_data_run in H by assumption.
      destruct (series_gt0 (map (cell_at (columns df) "Quantity") _))
        as [qpos|] eqn:Eq; cbn [bind] in H; [|discriminate].
      destruct (series_gt0 (map (cell_at (columns df) "UnitPrice") _))
        as [ppos|] eqn:Ep; cbn [bind] in H; [|discriminate].
      intros r Hr. split.
      - destruct (mapM_ok_inv _ _ _ Eq (cell_at (columns df) "Quantity" r))
          as [b Hb]; [apply in_map, Hr|]. apply (gt0_ok _ _ Hb).
      - destruct (mapM_ok_inv _ _ _ Ep (cell_at (columns df) "UnitPrice" r))
          as [b Hb]; [apply in_map, Hr|]. apply (gt0_ok _ _ Hb). }
    repeat split; try assumption.
    + apply Hnum, with_customer_In. auto.
    + apply Hnum, with_customer_In. auto.
    + rewrite filter_data_numeric_rows in H by assumption. congruence.
  - intros (Hc & Hq & Hp & Hnum & ->).
    apply filter_data_numeric_rows; try assumption.
    intros r Hr. apply with_customer_In in Hr as [Hr Hcust]. auto.
Qed.

(** A [KeyError] names a column that is absent, and the columns are looked
    up in the order CustomerID, Quantity, UnitPrice: CustomerID is reported
    whenever it is absent, Quantity when it is absent and CustomerID is
    not. *)
Theorem filter_data_key_errors (df : DataFrame) :
  (filter_data df = Raise (KeyError "CustomerID") <->
   ~ In "CustomerID" (columns df)) /\
  (filter_data df = Raise (KeyError "Quantity") <->
   In "CustomerID" (columns df) /\ ~ In "Quantity" (columns df)) /\
  (forall label, filter_data df = Raise (KeyError label) ->
     ~ In label (columns df) /\
     (label = "CustomerID" \/ label = "Quantity" \/ label = "UnitPrice")).
Proof.
  assert (Hgen : forall label, filter_data df = Raise (KeyError label) ->
     ~ In label (columns df) /\
     ((label = "CustomerID") \/
      (label = "Quantity" /\ In "CustomerID" (columns df)) \/
      (label = "UnitPrice" /\ In "CustomerID" (columns df)))).
  { intros label H. unfold filter_data, dropna in H.
    destruct (getitem df "CustomerID") as [s|e] eqn:Ec; cbn [bind] in H.
    - assert (Hc : In "CustomerID" (columns df)).
      { unfold getitem in Ec.
        destruct (get_loc "CustomerID" (columns df)) eqn:E; [|discriminate].
        eapply get_loc_Some_In, E. }
      set (df1 := boolean_index df (map notna s)) in H.
      assert (Hcols : columns df1 = columns df) by reflexivity.
      destruct (getitem df1 "Quantity") as [q|e] eqn:Eq; cbn [bind] in H.
      + destruct (series_gt0 q) as [qpos|e] eqn:Egq; cbn [bind] in H.
        * destruct (getitem df1 "UnitPrice") as [p|e] eqn:Ep; cbn [bind] in H.
          -- destruct (series_gt0 p) as [ppos|e] eqn:Egp; cbn [bind] in H;
               [discriminate|].
             injection H as ->. apply mapM_raise_inv in Egp as (c & _ & Hc').
             apply gt0_raises in Hc' as [Hc' _]. discriminate.
          -- injection H as ->. apply getitem_raises in Ep as [Ep Hn].
             injection Ep as ->. rewrite Hcols in Hn. auto 6.
        * injection H as ->. apply mapM_raise_inv in Egq as (c & _ & Hc').
          apply gt0_raises in Hc' as [Hc' _]. discriminate.
      + injection H as ->. apply getitem_raises in Eq as [Eq Hn].
        injection Eq as ->. rewrite Hcols in Hn. auto 6.
    - injection H as ->. apply getitem_raises in Ec as [Ec Hn].
      injection Ec as ->. auto. }
  split; [|split].
  - split.
    + intros H. apply Hgen in H. apply H.
    + intros Hn. unfold filter_data, dropna.
      rewrite (getitem_key_error df _ Hn). reflexivity.
  - split.
    + intros H. apply Hgen in H as [Hn [E|[[_ Hc]|[E _]]]];
        [discriminate|auto|discriminate].
    + intros [Hc Hn]. unfold filter_data, dropna.
      rewrite (getitem_cell_at df _ Hc). cbn [bind].
      rewrite getitem_key_error by exact Hn. reflexivity.
  - intros label H. apply Hgen in H as [Hn H]. split; [exact Hn|]. tauto.
Qed.

(** The only other failure is a [TypeError], and it takes a row that has a
    customer and holds something that is not a number as Quantity or as
    UnitPrice. *)
Theorem filter_data_type_error (df : DataFrame) (e : exn) :
  filter_data df = Raise e -> (forall label, e <> KeyError label) ->
  e = TypeError /\
  exists r, In r (rows df) /\ cell_at (columns df) "CustomerID" r <> NaN /\
    (numeric (cell_at (columns df) "Quantity" r) = false \/
     numeric (cell_at (columns df) "UnitPrice" r) = false).
Proof.
  intros H Hkey.
  assert (Hc : In "CustomerID" (columns df)).
  { destruct (in_dec string_dec "CustomerID" (columns df)) as [|Hn]; [assumption|].
    unfold filter_data, dropna in H.
    rewrite (getitem_key_error df _ Hn) in H. injection H as <-.
    exfalso. eapply Hkey; reflexivity. }
  assert (Hq : In "Quantity" (columns df)).
  { destruct (in_dec string_dec "Quantity" (columns df)) as [|Hn]; [assumption|].
    unfold filter_data, dropna in H.
    rewrite (getitem_cell_at df _ Hc) in H. cbn [bind] in H.
    rewrite getitem_key_error in H by exact Hn. injection H as <-.
    exfalso. eapply Hkey; reflexivity. }
  destruct (in_dec string_dec "UnitPrice" (columns df)) as [Hp|Hn].
  - rewrite filter_data_run in H by assumption.
    destruct (series_gt0 (map (cell_at (columns df) "Quantity") _))
      as [qpos|e1] eqn:Eq; cbn [bind] in H.
    + destruct (series_gt0 (map (cell_at (columns df) "UnitPrice") _))
        as [ppos|e2] eqn:Ep; cbn [bind] in H; [discriminate|].
      injection H as ->. apply mapM_raise_inv in Ep as (c & Hin & Hc').
      apply gt0_raises in Hc' as [-> Hnum]. split; [reflexivity|].
      apply in_map_iff in Hin as (r & <- & Hr).
      apply with_customer_In in Hr as [Hr Hcust]. eauto.
    + injection H as ->. apply mapM_raise_inv in Eq as (c & Hin & Hc').
      apply gt0_raises in Hc' as [-> Hnum]. split; [reflexivity|].
      apply in_map_iff in Hin as (r & <- & Hr).
      apply with_customer_In in Hr as [Hr Hcust]. eauto.
  - unfold filter_data, dropna in H.
    rewrite (getitem_cell_at df _ Hc) in H. cbn [bind] in H.
    rewrite getitem_cell_at in H by exact Hq. cbn [bind] in H.
    destruct (series_gt0 _) as [qpos|e1] eqn:Eq in H; cbn [bind] in H.
    + rewrite getitem_key_error in H by exact Hn. injection H as <-.
      exfalso. eapply Hkey; reflexivity.
    + injection H as ->. apply mapM_raise_inv in Eq as (c & Hin & Hc').
      apply gt0_raises in Hc' as [-> Hnum]. split; [reflexivity|].
      apply in_map_iff in Hin as (r & <- & Hr). cbn [columns] in *.
      unfold boolean_index in Hr. cbn [rows] in Hr.
      rewrite map_map, filter_mask in Hr.
      apply (with_customer_In df) in Hr as [Hr Hcust]. eauto.
Qed.

Lemma filter_data_type_error_witness :
  (filter_data mistyped_quantity = Raise TypeError /\
   forall label, TypeError <> KeyError label) /\
  exists r, In r (rows mistyped_quantity) /\
    cell_at (columns mistyped_quantity) "CustomerID" r <> NaN /\
    (numeric (cell_at (columns mistyped_quantity) "Quantity" r) = false \/
     numeric (cell_at (columns mistyped_quantity) "UnitPrice" r) = false).
Proof.
  split; [split; [reflexivity|discriminate]|].
  apply (filter_data_type_error mistyped_quantity TypeError);
    [reflexivity|discriminate].
Defined.

(** ** filter_data and cleaned tables *)

Lemma example_raw_is_retail : retail_table example_raw.
Proof.
  split; simpl; auto 10.
  repeat (constructor;
          [split; [reflexivity|eexists; reflexivity|eexists; reflexivity
                  |right; eexists; reflexivity|exact I]|]).
  constructor.
Qed.

Lemma retail_table_numeric (df : DataFrame) (r : list cell) :
  retail_table df -> In r (rows df) ->
  numeric (cell_at (columns df) "Quantity" r) = true /\
  numeric (cell_at (columns df) "UnitPrice" r) = true.
Proof.
  intros H Hr. pose proof (retail_rows df H) as Hrows.
  rewrite Forall_forall in Hrows. specialize (Hrows r Hr).
  destruct (retail_quantity _ _ Hrows) as [z ->].
  destruct (retail_unit_price _ _ Hrows) as [->|[q ->]]; auto.
Qed.

Lemma retail_table_filtered (df : DataFrame) :
  retail_table df ->
  filter_data df =
  Ok {| columns := columns df;
        rows := filter (complete_and_positive (columns df)) (rows df) |}.
Proof.
  intros H. apply filter_data_numeric_rows;
    [apply (retail_customer df H)|apply (retail_has_quantity df H)
    |apply (retail_has_unit_price df H)|].
  intros r Hr. apply with_customer_In in Hr as [Hr _].
  apply retail_table_numeric; assumption.
Qed.

Lemma retail_table_cleaned (df : DataFrame) :
  retail_table df ->
  cleaned_table
    {| columns := columns df;
       rows := filter (complete_and_positive (columns df)) (rows df) |}.
Proof.
  intros H. destruct H as [Hc Hd Hq Hp Hi Hrows].
  split; cbn [columns rows]; try assumption.
  apply Forall_forall. intros r Hr. apply filter_In in Hr as [Hr Hkeep].
  rewrite Forall_forall in Hrows. specialize (Hrows r Hr).
  unfold complete_and_positive in Hkeep.
  apply andb_prop in Hkeep as [Hkeep Hpos_p].
  apply andb_prop in Hkeep as [Hcust Hpos_q].
  destruct Hrows as [Hw Hdesc [z Hz] Hprice Hdate].
  split; try assumption.
  - intros E. rewrite E in Hcust. discriminate.
  - exists z. split; [exact Hz|]. rewrite Hz in Hpos_q.
    apply Z.ltb_lt, Hpos_q.
  - destruct Hprice as [E|[q E]]; rewrite E in Hpos_p; [discriminate|].
    exists q. split; [exact E|]. apply (positive_spec (Float q)), Hpos_p.
Qed.

(** The cleaner establishes what the aggregators assume: on a typed raw
    table it succeeds and its output is a cleaned table. *)
Theorem filter_data_yields_cleaned_table (df : DataFrame) :
  retail_table df ->
  exists out, filter_data df = Ok out /\ cleaned_table out.
Proof.
  intros H. eexists. split; [apply retail_table_filtered, H|].
  apply retail_table_cleaned, H.
Qed.

Lemma filter_data_yields_cleaned_table_witness :
  retail_table example_raw /\
  exists out, filter_data example_raw = Ok out /\ cleaned_table out.
Proof.
  split; [exact example_raw_is_retail|].
  exact (filter_data_yields_cleaned_table example_raw example_raw_is_retail).
Defined.

Lemma cleaned_row_kept (cols : list string) (r : list cell) :
  cleaned_row cols r -> complete_and_positive cols r = true.
Proof.
  intros [_ Hc _ [z [Hz Hpos]] [q [Hq Hqpos]] _].
  unfold complete_and_positive. rewrite Hz, Hq.
  assert (Hn : notna (cell_at cols "CustomerID" r) = true)
    by (destruct (cell_at cols "CustomerID" r); try reflexivity; contradiction).
  rewrite Hn. cbn [andb]. apply andb_true_intro. split.
  - apply Z.ltb_lt, Hpos.
  - apply (positive_spec (Float q)), Hqpos.
Qed.

(** A cleaned table is a fixed point of the cleaner: no row is removed. *)
Theorem filter_data_keeps_cleaned_table (df : DataFrame) :
  cleaned_table df -> filter_data df = Ok df.
Proof.
  intros H. pose proof (cleaned_rows df H) as Hrows.
  rewrite Forall_forall in Hrows.
  rewrite filter_data_numeric_rows;
    [|apply (has_customer df H)|apply (has_quantity df H)
     |apply (has_unit_price df H)|].
  - rewrite forallb_filter_id; [destruct df; reflexivity|].
    apply forallb_forall. intros r Hr. apply cleaned_row_kept, Hrows, Hr.
  - intros r Hr. apply with_customer_In in Hr as [Hr _].
    destruct (row_quantity _ _ (Hrows r Hr)) as [z [-> _]].
    destruct (row_unit_price _ _ (Hrows r Hr)) as [q [-> _]]. auto.
Qed.

Lemma filter_data_keeps_cleaned_table_witness :
  cleaned_table example_cleaned /\
  filter_data example_cleaned = Ok example_cleaned.
Proof.
  split; [exact example_cleaned_is_cleaned|].
  exact (filter_data_keeps_cleaned_table example_cleaned
           example_cleaned_is_cleaned).
Defined.

(** ** The key order is a strict total order *)

Lemma lex_Eq (c1 c2 : comparison) : lex c1 c2 = Eq -> c1 = Eq /\ c2 = Eq.
Proof. destruct c1; simpl; intros H; try discriminate; auto. Qed.

Lemma lex_CompOpp (c1 c2 : comparison) :
  CompOpp (lex c1 c2) = lex (CompOpp c1) (CompOpp c2).
Proof. destruct c1; reflexivity. Qed.

Lemma string_compare_antisym (x y : string) :
  String_as_OT.compare y x = CompOpp (String_as_OT.compare x y).
Proof.
  destruct (String_as_OT.compare_spec x y) as [E|Hlt|Hgt];
    destruct (String_as_OT.compare_spec y x) as [E'|Hlt'|Hgt'];
    try reflexivity; unfold String_as_OT.eq in *; subst;
    exfalso;
    try (eapply (StrictOrder_Irreflexive (R := String_as_OT.lt)); eassumption);
    eapply (StrictOrder_Irreflexive (R := String_as_OT.lt));
    eapply (StrictOrder_Transitive (R := String_as_OT.lt)); eassumption.
Qed.

Lemma cell_compare_eq (a b : cell) : cell_compare a b = Eq -> a = b.
Proof.
  destruct a, b; simpl; intros H; try discriminate; try reflexivity.
  - apply Z.compare_eq in H. congruence.
  - apply Qceq_alt in H. congruence.
  - destruct (String_as_OT.compare_spec s s0) as [E| |]; try discriminate.
    unfold String_as_OT.eq in E. congruence.
  - apply lex_Eq in H as [H1 H]. apply lex_Eq in H as [H2 H3].
    apply Z.compare_eq in H1, H2, H3. congruence.
  - apply lex_Eq in H as [H1 H2]. apply Z.compare_eq in H1, H2. congruence.
Qed.

Lemma cell_compare_antisym (a b : cell) :
  cell_compare b a = CompOpp (cell_compare a b).
Proof.
  destruct a, b; simpl; try reflexivity.
  - apply Z.compare_antisym.
  - unfold Qccompare. symmetry. apply Qcompare_antisym.
  - apply string_compare_antisym.
  - rewrite !lex_CompOpp, <- !Z.compare_antisym. reflexivity.
  - rewrite !lex_CompOpp, <- !Z.compare_antisym. reflexivity.
Qed.

Lemma lex_Lt_Z (x1 x2 : Z) (c : comparison) :
  lex (x1 ?= x2) c = Lt <-> x1 < x2 \/ (x1 = x2 /\ c = Lt).
Proof.
  destruct (Z.compare_spec x1 x2) as [E|L|G]; simpl; split; intros H.
  - right. auto.
  - destruct H as [H|[_ H]]; [lia|exact H].
  - left. exact L.
  - reflexivity.
  - discriminate.
  - destruct H as [H|[H _]]; lia.
Qed.

Lemma cell_lt_trans (a b c : cell) : cell_lt a b -> cell_lt b c -> cell_lt a c.
Proof.
  unfold cell_lt.
  destruct a, b, c; simpl; intros H1 H2; try discriminate; try reflexivity.
  - rewrite Z.compare_lt_iff in *. lia.
  - apply Qclt_alt in H1, H2. apply Qclt_alt. eapply Qclt_trans; eassumption.
  - eapply (StrictOrder_Transitive (R := String_as_OT.lt)); eassumption.
  - rewrite !lex_Lt_Z, !Z.compare_lt_iff in H1, H2.
    rewrite !lex_Lt_Z, !Z.compare_lt_iff. lia.
  - rewrite !lex_Lt_Z, !Z.compare_lt_iff in H1, H2.
    rewrite !lex_Lt_Z, !Z.compare_lt_iff. lia.
Qed.

Lemma cell_lt_irrefl (a : cell) : ~ cell_lt a a.
Proof.
  unfold cell_lt. intros H.
  pose proof (cell_compare_antisym a a) as E. rewrite H in E. discriminate.
Qed.

Lemma cell_leb_false (a b : cell) : cell_leb a b = false -> cell_lt b a.
Proof.
  unfold cell_leb, cell_lt. rewrite (cell_compare_antisym a b).
  destruct (cell_compare a b); try discriminate. reflexivity.
Qed.

Lemma cell_leb_true (a b : cell) : cell_leb a b = true -> a <> b -> cell_lt a b.
Proof.
  unfold cell_leb, cell_lt. intros H Hne.
  destruct (cell_compare a b) eqn:E; try discriminate; [|reflexivity].
  apply cell_compare_eq in E. contradiction.
Qed.

Lemma insert_key_ascending (k : cell) (l : Series) :
  ~ In k l -> StronglySorted cell_lt l ->
  StronglySorted cell_lt (insert_key k l).
Proof.
  intros Hnin Hs.
  induction Hs as [|h t Ht IH Hh]; simpl; [repeat constructor|].
  destruct (cell_leb k h) eqn:E.
  - assert (Hkh : cell_lt k h).
    { apply cell_leb_true; auto. intros ->. apply Hnin. left; reflexivity. }
    constructor; [constructor; assumption|].
    constructor; [exact Hkh|].
    rewrite Forall_forall in *. intros c Hc.
    apply (cell_lt_trans k h c); auto.
  - constructor.
    + apply IH. intros Hin. apply Hnin. right; exact Hin.
    + eapply Permutation_Forall; [symmetry; apply insert_key_perm|].
      constructor; [|exact Hh]. apply cell_leb_false; auto.
Qed.

(** The key sort puts distinct keys of any kind in strictly ascending
    order. *)
Lemma sort_keys_ascending (l : Series) :
  NoDup l -> StronglySorted cell_lt (sort_keys l).
Proof.
  induction l as [|h t IH]; simpl; intros Hnd; [constructor|].
  apply NoDup_cons_iff in Hnd as [Hnin Hnd].
  apply insert_key_ascending; auto.
  intros Hin. apply Hnin.
  eapply Permutation_in; [apply sort_keys_perm|exact Hin].
Qed.

Lemma ascending_unique (l1 l2 : Series) :
  StronglySorted cell_lt l1 -> StronglySorted cell_lt l2 ->
  Permutation l1 l2 -> l1 = l2.
Proof.
  intros H1. revert l2. induction H1 as [|a t1 Ht1 IH Ha]; intros l2 H2 Hp.
  - apply Permutation_nil in Hp. congruence.
  - destruct H2 as [|b t2 Ht2 Hb].
    + apply Permutation_sym, Permutation_nil in Hp. discriminate.
    + assert (a = b) as <-.
      { destruct (cell_eq_dec a b) as [|Hne]; [assumption|exfalso].
        assert (Hat2 : In a t2).
        { assert (Hin : In a (b :: t2))
            by (eapply Permutation_in; [exact Hp|left; reflexivity]).
          destruct Hin as [E|Hin]; [congruence|exact Hin]. }
        assert (Hbt1 : In b t1).
        { assert (Hin : In b (a :: t1))
            by (eapply Permutation_in;
                [symmetry; exact Hp|left; reflexivity]).
          destruct Hin as [E|Hin]; [congruence|exact Hin]. }
        rewrite Forall_forall in Ha, Hb.
        apply (cell_lt_irrefl a), (cell_lt_trans a b a); auto. }
      f_equal. apply IH; [exact Ht2|].
      eapply Permutation_cons_inv, Hp.
Qed.

Lemma uniques_perm (keys keys' : Series) :
  Permutation keys keys' -> Permutation (uniques keys) (uniques keys').
Proof.
  intros Hp. apply NoDup_Permutation; try apply uniques_NoDup.
  intros k. rewrite !uniques_In. split; intros [Hin Hna]; split; auto.
  - eapply Permutation_in; eauto.
  - eapply Permutation_in; [symmetry|]; eauto.
Qed.

(** The groups and their order depend on the keys present, not on where
    they stand. *)
Lemma sorted_uniques_perm (keys keys' : Series) :
  Permutation keys keys' ->
  sort_keys (uniques keys) = sort_keys (uniques keys').
Proof.
  intros Hp. apply ascending_unique;
    try (apply sort_keys_ascending, uniques_NoDup).
  rewrite !sort_keys_perm. apply uniques_perm, Hp.
Qed.

Lemma sorted_uniques_ascending (keys : Series) :
  StronglySorted cell_lt (sort_keys (uniques keys)).
Proof. apply sort_keys_ascending, uniques_NoDup. Qed.

(** ** loyalty_customers: order, thresholds, missing customers *)

Lemma StronglySorted_filter {A : Type} (R : A -> A -> Prop) (f : A -> bool)
    (l : list A) :
  StronglySorted R l -> StronglySorted R (filter f l).
Proof.
  induction 1 as [|a l Hl IH Ha]; simpl; [constructor|].
  destruct (f a); [|exact IH]. constructor; [exact IH|].
  rewrite Forall_forall in *. intros b Hb. apply filter_In in Hb. apply Ha, Hb.
Qed.

(** The rows of the result, for a frame that has the column. *)
Lemma loyalty_customers_closed (df : DataFrame) (min_purchases : Z) :
  In "CustomerID" (columns df) ->
  loyalty_customers df min_purchases =
  Ok {| columns := ["CustomerID"; "Purchase Count"];
        rows := map (fun k => [k; Int (purchase_count df k)])
                    (filter (fun k => min_purchases <=? purchase_count df k)
                            (sort_keys (uniques (customers df)))) |}.
Proof.
  intros H. rewrite (loyalty_customers_rows df min_purchases H).
  unfold reset_index. rewrite map_map. reflexivity.
Qed.

Lemma example_raw_int_ids :
  Forall (fun c => c = NaN \/ is_int c = true) (customers example_raw).
Proof.
  unfold customers. simpl.
  repeat (constructor; [first [left; reflexivity|right; reflexivity]|]).
  constructor.
Qed.

(** On a column of identifiers of one kind, [loyalty_customers] fails in
    one way only: with the [KeyError] of a frame that has no CustomerID
    column. *)
Theorem loyalty_customers_raises_iff
    (df : DataFrame) (min_purchases : Z) (e : exn) :
  one_kind (customers df) ->
  (loyalty_customers df min_purchases = Raise e <->
   e = KeyError "CustomerID" /\ ~ In "CustomerID" (columns df)).
Proof.
  intros _. split.
  - intros H.
    destruct (in_dec string_dec "CustomerID" (columns df)) as [Hin|Hnin].
    + rewrite loyalty_customers_closed in H by exact Hin. discriminate.
    + unfold loyalty_customers, groupby_size in H.
      rewrite (getitem_key_error df _ Hnin) in H. cbn [bind] in H.
      injection H as <-. auto.
  - intros [-> Hnin]. unfold loyalty_customers, groupby_size.
    rewrite (getitem_key_error df _ Hnin). reflexivity.
Qed.

Lemma no_customer_one_kind : one_kind (customers no_customer).
Proof.
  intros a b Ha _ Hna _. simpl in Ha. destruct Ha as [<-|[]].
  contradiction.
Qed.

Lemma loyalty_customers_raises_iff_witness :
  one_kind (customers no_customer) /\
  loyalty_customers no_customer 10 = Raise (KeyError "CustomerID") /\
  (loyalty_customers no_customer 10 = Raise (KeyError "CustomerID") <->
   KeyError "CustomerID" = KeyError "CustomerID" /\
   ~ In "CustomerID" (columns no_customer)).
Proof.
  split; [exact no_customer_one_kind|]. split; [reflexivity|].
  apply (loyalty_customers_raises_iff no_customer 10 (KeyError "CustomerID")).
  exact no_customer_one_kind.
Defined.

Lemma cell_lt_int (a b : Z) : cell_lt (Int a) (Int b) <-> a < b.
Proof. unfold cell_lt. simpl. apply Z.compare_lt_iff. Qed.

(** With integer customer identifiers (some possibly missing), the customers
    come out in strictly ascending order of their identifier. *)
Theorem loyalty_customers_ascending (df : DataFrame) (min_purchases : Z) :
  In "CustomerID" (columns df) ->
  Forall (fun c => c = NaN \/ is_int c = true) (customers df) ->
  exists out ids,
    loyalty_customers df min_purchases = Ok out /\
    map (fun r => nth 0 r NaN) (rows out) = map Int ids /\
    StronglySorted Z.lt ids.
Proof.
  intros H Hint. eexists.
  exists (map int_value
            (filter (fun k => min_purchases <=? purchase_count df k)
                    (sort_keys (uniques (customers df))))).
  split; [apply loyalty_customers_closed, H|].
  cbn [rows]. rewrite !map_map. cbn [nth].
  assert (Hkeys : forall k,
            In k (filter (fun k => min_purchases <=? purchase_count df k)
                         (sort_keys (uniques (customers df)))) ->
            is_int k = true).
  { intros k Hk. apply filter_In in Hk as [Hk _].
    apply sorted_uniques_In in Hk as [Hk Hna].
    rewrite Forall_forall in Hint. destruct (Hint k Hk); [contradiction|auto]. }
  split.
  - apply map_ext_in. intros k Hk. specialize (Hkeys k Hk).
    destruct k; try discriminate. reflexivity.
  - apply StronglySorted_map.
    eapply StronglySorted_weaken;
      [|apply StronglySorted_filter, sorted_uniques_ascending].
    intros a b Ha Hb Hlt. pose proof (Hkeys a Ha). pose proof (Hkeys b Hb).
    destruct a, b; try discriminate. apply cell_lt_int, Hlt.
Qed.

Lemma loyalty_customers_ascending_witness :
  (In "CustomerID" (columns example_raw) /\
   Forall (fun c => c = NaN \/ is_int c = true) (customers example_raw)) /\
  exists out ids,
    loyalty_customers example_raw 1 = Ok out /\
    map (fun r => nth 0 r NaN) (rows out) = map Int ids /\
    StronglySorted Z.lt ids.
Proof.
  assert (Hint : Forall (fun c => c = NaN \/ is_int c = true)
                        (customers example_raw)).
  { unfold customers. simpl.
    repeat (constructor; [first [left; reflexivity|right; reflexivity]|]).
    constructor. }
  split; [split; [left; reflexivity|exact Hint]|].
  apply (loyalty_customers_ascending example_raw 1);
    [left; reflexivity|exact Hint].
Defined.

Lemma uniques_notna (l : Series) : uniques (filter notna l) = uniques l.
Proof.
  induction l as [|c l IH]; simpl; [reflexivity|].
  unfold notna at 1. destruct (isna c) eqn:E; simpl; [exact IH|].
  rewrite E, IH. reflexivity.
Qed.

Lemma purchase_count_with_customer (df df' : DataFrame) (k : cell) :
  columns df' = columns df -> rows df' = with_customer df -> k <> NaN ->
  purchase_count df' k = purchase_count df k.
Proof.
  intros Hc Hr Hk. unfold purchase_count. rewrite Hc, Hr.
  unfold with_customer. rewrite filter_twice. do 2 f_equal.
  apply filter_ext. intros r.
  destruct (cell_eqb (cell_at (columns df) "CustomerID" r) k) eqn:E;
    [|apply andb_false_r].
  apply cell_eqb_eq in E. rewrite E.
  destruct k; try reflexivity. contradiction.
Qed.

Lemma dropna_customer (df df' : DataFrame) :
  dropna df "CustomerID" = Ok df' ->
  In "CustomerID" (columns df) /\
  columns df' = columns df /\ rows df' = with_customer df.
Proof.
  unfold dropna. intros H.
  assert (Hin : In "CustomerID" (columns df)).
  { destruct (in_dec string_dec "CustomerID" (columns df)) as [|Hn];
      [assumption|].
    rewrite (getitem_key_error df _ Hn) in H. discriminate. }
  rewrite (getitem_cell_at df _ Hin) in H. cbn [bind] in H.
  injection H as <-. split; [exact Hin|]. split; [reflexivity|].
  unfold boolean_index, with_customer. cbn [rows].
  rewrite map_map. apply filter_mask.
Qed.

(** Rows without a customer are never counted: the result on a frame is the
    result on that frame with those rows dropped. *)
Theorem loyalty_customers_ignores_missing_customers
    (df df' : DataFrame) (min_purchases : Z) :
  dropna df "CustomerID" = Ok df' ->
  loyalty_customers df' min_purchases = loyalty_customers df min_purchases.
Proof.
  intros H. apply dropna_customer in H as (Hin & Hc & Hr).
  rewrite !loyalty_customers_closed by (rewrite ?Hc; exact Hin).
  assert (Hcust : customers df' = filter notna (customers df)).
  { unfold customers, with_customer in *. rewrite Hc, Hr.
    symmetry. apply filter_map_swap. }
  rewrite Hcust, uniques_notna.
  do 2 f_equal.
  erewrite filter_ext_in; [apply map_ext_in|].
  - intros k Hk. apply filter_In in Hk as [Hk _].
    apply sorted_uniques_In in Hk as [_ Hk].
    rewrite (purchase_count_with_customer df df' k); auto.
  - intros k Hk. apply sorted_uniques_In in Hk as [_ Hk].
    rewrite (purchase_count_with_customer df df' k); auto.
Qed.

Lemma loyalty_customers_ignores_missing_customers_witness :
  dropna example_raw "CustomerID" =
    Ok (boolean_index example_raw (map notna (customers example_raw))) /\
  loyalty_customers
    (boolean_index example_raw (map notna (customers example_raw))) 2 =
  loyalty_customers example_raw 2.
Proof.
  split; [reflexivity|].
  apply (loyalty_customers_ignores_missing_customers example_raw).
  reflexivity.
Defined.

(** Raising the threshold only removes rows: for identifiers of one kind,
    the result for the higher threshold is the result for the lower one,
    filtered by the count. *)
Theorem loyalty_customers_threshold_monotone
    (df : DataFrame) (low high : Z) :
  In "CustomerID" (columns df) -> one_kind (customers df) -> low <= high ->
  exists lo hi,
    loyalty_customers df low = Ok lo /\
    loyalty_customers df high = Ok hi /\
    rows hi = filter (fun r => high <=? count_of r) (rows lo).
Proof.
  intros H _ Hle. do 2 eexists.
  split; [apply loyalty_customers_closed, H|].
  split; [apply loyalty_customers_closed, H|].
  cbn [rows]. rewrite filter_map_swap. unfold count_of. cbn [nth int_value].
  rewrite filter_twice. f_equal. apply filter_ext. intros k.
  destruct (Z.leb_spec high (purchase_count df k)) as [Hh|Hh].
  - rewrite andb_true_r. symmetry. apply Z.leb_le. lia.
  - rewrite andb_false_r. reflexivity.
Qed.

Lemma loyalty_customers_threshold_monotone_witness :
  (In "CustomerID" (columns example_raw) /\
   one_kind (customers example_raw) /\ 1 <= 2) /\
  exists lo hi,
    loyalty_customers example_raw 1 = Ok lo /\
    loyalty_customers example_raw 2 = Ok hi /\
    rows hi = filter (fun r => 2 <=? count_of r) (rows lo).
Proof.
  split; [split; [left; reflexivity
                 |split; [exact (int_ids_one_kind _ example_raw_int_ids)
                         |lia]]|].
  apply (loyalty_customers_threshold_monotone example_raw 1 2);
    [left; reflexivity|exact (int_ids_one_kind _ example_raw_int_ids)|lia].
Defined.

(** *** Every row with a customer is counted once *)

Lemma list_sum_indicator (x : cell) (U : list cell) :
  NoDup U -> In x U ->
  list_sum (map (fun k => if cell_eqb x k then 1 else 0)%nat U) = 1%nat.
Proof.
  induction 1 as [|k U Hk Hnd IH]; simpl; intros Hin; [contradiction|].
  destruct (cell_eqb x k) eqn:E.
  - apply cell_eqb_eq in E. subst k. f_equal.
    clear IH Hin Hnd. induction U as [|u U IHU]; simpl; [reflexivity|].
    destruct (cell_eqb x u) eqn:Eu.
    + apply cell_eqb_eq in Eu. exfalso. apply Hk. left. congruence.
    + apply IHU. intros H. apply Hk. right; exact H.
  - apply cell_eqb_neq in E. destruct Hin as [->|Hin]; [contradiction|].
    apply IH, Hin.
Qed.

Lemma list_sum_map_plus {A : Type} (g h : A -> nat) (l : list A) :
  list_sum (map (fun a => g a + h a)%nat l) =
  (list_sum (map g l) + list_sum (map h l))%nat.
Proof. induction l as [|a l IH]; simpl; [reflexivity|]. rewrite IH. lia. Qed.

Lemma list_sum_group_sizes {A : Type} (key : A -> cell) (U : list cell)
    (l : list A) :
  NoDup U -> (forall a, In a l -> In (key a) U) ->
  list_sum (map (fun k => List.length
                            (filter (fun a => cell_eqb (key a) k) l)) U) =
  List.length l.
Proof.
  intros Hnd. induction l as [|a l IH]; intros Hcover.
  - simpl. clear. induction U; simpl; auto.
  - rewrite (map_ext _
      (fun k => ((if cell_eqb (key a) k then 1 else 0) +
                 List.length (filter (fun a' => cell_eqb (key a') k) l))%nat)).
    + rewrite list_sum_map_plus, IH, list_sum_indicator.
      * reflexivity.
      * exact Hnd.
      * apply Hcover. left; reflexivity.
      * intros a' Ha'. apply Hcover. right; exact Ha'.
    + intros k. simpl. destruct (cell_eqb (key a) k); reflexivity.
Qed.

Lemma Z_sum_of_nat (l : list nat) :
  fold_right Z.add 0 (map Z.of_nat l) = Z.of_nat (list_sum l).
Proof. induction l as [|n l IH]; simpl; [reflexivity|]. rewrite IH. lia. Qed.

(** With a threshold of one or less and identifiers of one kind, the counts
    returned add up to the number of rows that have a customer: each such
    row is counted once. *)
Theorem loyalty_customers_counts_every_row_once
    (df : DataFrame) (min_purchases : Z) :
  In "CustomerID" (columns df) -> one_kind (customers df) ->
  min_purchases <= 1 ->
  exists out,
    loyalty_customers df min_purchases = Ok out /\
    fold_right Z.add 0 (map count_of (rows out)) =
    Z.of_nat (List.length (with_customer df)).
Proof.
  intros H _ Hle. eexists. split; [apply loyalty_customers_closed, H|].
  cbn [rows]. rewrite map_map. unfold count_of. cbn [nth int_value].
  rewrite forallb_filter_id.
  2:{ apply forallb_forall. intros k Hk.
      apply sorted_uniques_In in Hk as [Hk _].
      apply purchase_count_pos in Hk. apply Z.leb_le. lia. }
  unfold purchase_count.
  rewrite <- (map_map
    (fun k => List.length
       (filter (fun r => cell_eqb (cell_at (columns df) "CustomerID" r) k)
               (rows df))) Z.of_nat).
  rewrite Z_sum_of_nat. f_equal.
  rewrite <- (list_sum_group_sizes (cell_at (columns df) "CustomerID")
                (sort_keys (uniques (customers df))) (with_customer df)).
  - f_equal. apply map_ext_in. intros k Hk.
    apply sorted_uniques_In in Hk as [_ Hk].
    unfold with_customer. rewrite filter_twice. f_equal.
    apply filter_ext. intros r.
    destruct (cell_eqb (cell_at (columns df) "CustomerID" r) k) eqn:E;
      [|rewrite andb_false_r; reflexivity].
    apply cell_eqb_eq in E. rewrite E.
    destruct k; try reflexivity. contradiction.
  - apply sorted_uniques_NoDup.
  - intros r Hr. apply with_customer_In in Hr as [Hr Hc].
    apply sorted_uniques_In. split; [|exact Hc].
    unfold customers. apply in_map, Hr.
Qed.

Lemma loyalty_customers_counts_every_row_once_witness :
  (In "CustomerID" (columns example_raw) /\
   one_kind (customers example_raw) /\ 0 <= 1) /\
  exists out,
    loyalty_customers example_raw 0 = Ok out /\
    fold_right Z.add 0 (map count_of (rows out)) =
    Z.of_nat (List.length (with_customer example_raw)).
Proof.
  split; [split; [left; reflexivity
                 |split; [exact (int_ids_one_kind _ example_raw_int_ids)
                         |lia]]|].
  apply (loyalty_customers_counts_every_row_once example_raw 0);
    [left; reflexivity|exact (int_ids_one_kind _ example_raw_int_ids)|lia].
Defined.

(** *** The order of the rows does not matter *)

Lemma purchase_count_perm (df df' : DataFrame) (k : cell) :
  columns df' = columns df -> Permutation (rows df) (rows df') ->
  purchase_count df' k = purchase_count df k.
Proof.
  intros Hc Hp. unfold purchase_count. rewrite Hc. f_equal.
  apply Permutation_length. symmetry.
  clear Hc. induction Hp; simpl; auto.
  - destruct (cell_eqb _ k); auto.
  - destruct (cell_eqb _ k), (cell_eqb _ k); auto. apply perm_swap.
  - etransitivity; eassumption.
Qed.

(** [loyalty_customers] gives the same result on two frames that hold the
    same rows in a different order. *)
Theorem loyalty_customers_row_order
    (df df' : DataFrame) (min_purchases : Z) :
  one_kind (customers df) ->
  columns df' = columns df -> Permutation (rows df) (rows df') ->
  loyalty_customers df' min_purchases = loyalty_customers df min_purchases.
Proof.
  intros _ Hc Hp.
  destruct (in_dec string_dec "CustomerID" (columns df)) as [Hin|Hnin].
  - rewrite !loyalty_customers_closed by (rewrite ?Hc; exact Hin).
    assert (Hu : sort_keys (uniques (customers df')) =
                 sort_keys (uniques (customers df))).
    { apply sorted_uniques_perm. unfold customers. rewrite Hc.
      symmetry. apply Permutation_map, Hp. }
    rewrite Hu. do 2 f_equal.
    erewrite filter_ext; [apply map_ext|].
    + intros k. rewrite (purchase_count_perm df df' k Hc Hp). reflexivity.
    + intros k. rewrite (purchase_count_perm df df' k Hc Hp). reflexivity.
  - unfold loyalty_customers, groupby_size.
    rewrite !getitem_key_error by (rewrite ?Hc; exact Hnin). reflexivity.
Qed.

Lemma tied_products_customers_one_kind : one_kind (customers tied_products).
Proof.
  intros a b Ha Hb _ _. simpl in Ha, Hb.
  destruct Ha as [<-|[<-|[]]], Hb as [<-|[<-|[]]]; reflexivity.
Qed.

Lemma loyalty_customers_row_order_witness :
  (one_kind (customers tied_products) /\
   columns tied_products_swapped = columns tied_products /\
   Permutation (rows tied_products) (rows tied_products_swapped)) /\
  loyalty_customers tied_products_swapped 1 =
  loyalty_customers tied_products 1.
Proof.
  split; [split; [exact tied_products_customers_one_kind
                 |split; [reflexivity|apply perm_swap]]|].
  apply (loyalty_customers_row_order tied_products tied_products_swapped 1);
    [exact tied_products_customers_one_kind|reflexivity|apply perm_swap].
Defined.

(** ** high_demand_products: entries, prefixes, row order *)

Lemma wrap64_add_l (a b : Z) : wrap64 (wrap64 a + b) = wrap64 (a + b).
Proof.
  unfold wrap64. f_equal.
  replace ((a + 2 ^ 63) mod 2 ^ 64 - 2 ^ 63 + b + 2 ^ 63)
    with ((a + 2 ^ 63) mod 2 ^ 64 + b) by lia.
  rewrite Z.add_mod_idemp_l by lia. f_equal. lia.
Qed.

Lemma fold_wrap64 (l : list Z) (a : Z) :
  fold_left (fun acc z => wrap64 (acc + z)) l (wrap64 a) =
  wrap64 (a + fold_right Z.add 0 l).
Proof.
  revert a. induction l as [|z l IH]; intros a; simpl.
  - f_equal. lia.
  - rewrite wrap64_add_l, IH. f_equal. lia.
Qed.

(** The int64 accumulator holds the sum reduced to 64 bits. *)
Lemma int_sum_wrap (l : list Z) : int_sum l = wrap64 (fold_right Z.add 0 l).
Proof.
  unfold int_sum. change 0 with (wrap64 0) at 1. apply fold_wrap64.
Qed.

Lemma Z_sum_perm (l l' : list Z) :
  Permutation l l' -> fold_right Z.add 0 l = fold_right Z.add 0 l'.
Proof. induction 1; simpl; lia. Qed.

Lemma filter_perm {A : Type} (f : A -> bool) (l l' : list A) :
  Permutation l l' -> Permutation (filter f l) (filter f l').
Proof.
  induction 1; simpl; auto.
  - destruct (f x); auto.
  - destruct (f x), (f y); auto. apply perm_swap.
  - etransitivity; eassumption.
Qed.

Lemma quantity_sold_perm (df df' : DataFrame) (d : cell) :
  columns df' = columns df -> Permutation (rows df) (rows df') ->
  quantity_sold df' d = quantity_sold df d.
Proof.
  intros Hc Hp. unfold quantity_sold. rewrite Hc, !int_sum_wrap. f_equal.
  apply Z_sum_perm, Permutation_map, filter_perm. symmetry. exact Hp.
Qed.

Lemma product_demand_perm (df df' : DataFrame) :
  columns df' = columns df -> Permutation (rows df) (rows df') ->
  product_demand df' = product_demand df.
Proof.
  intros Hc Hp. unfold product_demand.
  assert (Hu : sort_keys (uniques (descriptions df')) =
               sort_keys (uniques (descriptions df))).
  { apply sorted_uniques_perm. unfold descriptions. rewrite Hc.
    symmetry. apply Permutation_map, Hp. }
  rewrite Hu. apply map_ext. intros d.
  rewrite (quantity_sold_perm df df' d Hc Hp). reflexivity.
Qed.

Lemma cleaned_table_perm (df df' : DataFrame) :
  columns df' = columns df -> Permutation (rows df) (rows df') ->
  cleaned_table df -> cleaned_table df'.
Proof.
  intros Hc Hp [H1 H2 H3 H4 H5 Hrows]. split; rewrite ?Hc; try assumption.
  eapply Permutation_Forall; eassumption.
Qed.

Section RankingProperties.

Variable argsort : IndexedSeries -> IndexedSeries.

(** [high_demand_products] gives the same result on two cleaned tables that
    hold the same rows in a different order, whatever the sort kernel does:
    the ties too are settled without regard to the order of the rows. *)
Theorem high_demand_products_row_order
    (df df' : DataFrame) (top_n : Z) :
  cleaned_table df ->
  columns df' = columns df -> Permutation (rows df) (rows df') ->
  high_demand_products argsort df' top_n =
  high_demand_products argsort df top_n.
Proof.
  intros H Hc Hp.
  rewrite (high_demand_products_rows argsort df' top_n
             (cleaned_table_perm df df' Hc Hp H)).
  rewrite (high_demand_products_rows argsort df top_n H).
  unfold ranking. rewrite (product_demand_perm df df' Hc Hp). reflexivity.
Qed.

(** C2, amended. On a cleaned table and for [top_n >= 0], the result is the
    first [top_n] entries of a ranking of all the products by descending
    sum.  Where products have equal sums, their order in the ranking is the
    one the sort kernel gives to the groups, which [groupby] has put in
    ascending order of description before the sort: it is the same for two
    tables that hold the same rows in a different order, so the order of
    first appearance plays no part in it, and it decides which of the tied
    products pass the cutoff.  The kernel need not be stable. *)
Theorem high_demand_products_ties_ignore_row_order
    (df df' : DataFrame) (top_n : Z) :
  sort_kernel argsort -> cleaned_table df ->
  columns df' = columns df -> Permutation (rows df) (rows df') ->
  0 <= top_n ->
  exists out ranked,
    high_demand_products argsort df top_n = Ok out /\
    high_demand_products argsort df' top_n = Ok out /\
    rows out = firstn (Z.to_nat top_n) (as_rows ranked) /\
    ranked = rev (argsort (rev (product_demand df))) /\
    product_demand df' = product_demand df /\
    StronglySorted cell_lt (map fst (product_demand df)) /\
    Permutation ranked
      (map (fun d => (d, Int (quantity_sold df d)))
           (nodup cell_eq_dec (descriptions df))) /\
    StronglySorted (fun a b => value_le b a) ranked.
Proof.
  intros Hk H Hc Hp Hn. eexists. exists (ranking argsort df).
  assert (Hhead : forall l : IndexedSeries,
            as_rows (head l top_n) = firstn (Z.to_nat top_n) (as_rows l)).
  { intros l. unfold head. rewrite (proj2 (Z.leb_le 0 top_n) Hn).
    unfold as_rows. symmetry. apply firstn_map. }
  split; [apply high_demand_products_rows, H|].
  split.
  { rewrite (high_demand_products_rows argsort df' top_n
               (cleaned_table_perm df df' Hc Hp H)).
    unfold ranking. rewrite (product_demand_perm df df' Hc Hp). reflexivity. }
  cbn [rows]. split; [apply Hhead|].
  split.
  { unfold ranking.
    apply sort_values_descending_ints, product_demand_int_valued. }
  split; [apply product_demand_perm; assumption|].
  split.
  { unfold product_demand. rewrite map_map. cbn [fst]. rewrite map_id.
    apply sorted_uniques_ascending. }
  split.
  - rewrite (ranking_perm argsort df Hk). apply product_demand_all, H.
  - apply ranking_descending, Hk.
Qed.

(** A larger [top_n] extends the result: the rows for [top_n] are the first
    [top_n] rows of the result for any larger cutoff. *)
Theorem high_demand_products_prefix
    (df : DataFrame) (top_n larger : Z) :
  cleaned_table df -> 0 <= top_n <= larger ->
  exists out out',
    high_demand_products argsort df top_n = Ok out /\
    high_demand_products argsort df larger = Ok out' /\
    rows out = firstn (Z.to_nat top_n) (rows out').
Proof.
  intros H Hn. do 2 eexists.
  split; [apply high_demand_products_rows, H|].
  split; [apply high_demand_products_rows, H|].
  cbn [rows]. unfold head.
  rewrite (proj2 (Z.leb_le 0 top_n)), (proj2 (Z.leb_le 0 larger)) by lia.
  unfold as_rows. rewrite <- !firstn_map, firstn_firstn.
  f_equal. lia.
Qed.

(** Each row returned, for any [top_n], is a product of the table with the
    int64 sum of its quantities, and no product is returned twice. *)
Theorem high_demand_products_entries (df : DataFrame) (top_n : Z) :
  sort_kernel argsort -> cleaned_table df ->
  exists out,
    high_demand_products argsort df top_n = Ok out /\
    (forall r, In r (rows out) ->
       exists d, In d (descriptions df) /\
                 r = [d; Int (quantity_sold df d)]) /\
    NoDup (map (fun r => nth 0 r NaN) (rows out)).
Proof.
  intros Hk H. eexists. split; [apply high_demand_products_rows, H|].
  cbn [rows].
  assert (Hsub : forall kv, In kv (head (ranking argsort df) top_n) ->
                            In kv (product_demand df)).
  { intros kv Hkv. unfold head in Hkv.
    destruct (0 <=? top_n); apply firstn_incl in Hkv;
      apply (Permutation_in _ (ranking_perm argsort df Hk)), Hkv. }
  split.
  - intros r Hr. unfold as_rows in Hr. apply in_map_iff in Hr as (kv & <- & Hkv).
    apply Hsub in Hkv. unfold product_demand in Hkv.
    apply in_map_iff in Hkv as (d & <- & Hd).
    apply sorted_uniques_In in Hd as [Hd _]. exists d. auto.
  - unfold as_rows. rewrite map_map. cbn [nth].
    assert (Hnd : NoDup (map fst (ranking argsort df))).
    { eapply Permutation_NoDup;
        [symmetry; apply Permutation_map, (ranking_perm argsort df Hk)|].
      unfold product_demand. rewrite map_map. cbn [fst]. rewrite map_id.
      apply sorted_uniques_NoDup. }
    unfold head. destruct (0 <=? top_n).
    + rewrite <- firstn_map.
      rewrite <- (firstn_skipn (Z.to_nat top_n) (map fst _)) in Hnd.
      apply NoDup_app_remove_r in Hnd. exact Hnd.
    + rewrite <- firstn_map.
      rewrite <- (firstn_skipn
                    (List.length (ranking argsort df) - Z.to_nat (- top_n))
                    (map fst _)) in Hnd.
      apply NoDup_app_remove_r in Hnd. exact Hnd.
Qed.

(** The first row is a product that sold most: no product of the table has
    a larger sum than the one it carries. *)
Theorem high_demand_products_first_is_maximum (df : DataFrame) (top_n : Z) :
  sort_kernel argsort -> cleaned_table df -> rows df <> [] -> 1 <= top_n ->
  exists out top sold rest,
    high_demand_products argsort df top_n = Ok out /\
    rows out = [top; Int sold] :: rest /\
    forall d, In d (descriptions df) -> quantity_sold df d <= sold.
Proof.
  intros Hk H Hne Hn.
  pose proof (ranking_perm argsort df Hk) as Hperm.
  pose proof (ranking_descending argsort df Hk) as Hsorted.
  pose proof (ranking_int_valued argsort df Hk) as Hint.
  destruct (ranking argsort df) as [|[top v] rest] eqn:Erank.
  - exfalso. apply Permutation_nil in Hperm. unfold product_demand in Hperm.
    apply map_eq_nil in Hperm.
    destruct (rows df) as [|r l] eqn:Erows; [contradiction|].
    assert (Hin : In (cell_at (columns df) "Description" r)
                     (sort_keys (uniques (descriptions df)))).
    { apply sorted_uniques_In.
      pose proof (cleaned_descriptions_notna df H) as Hna.
      rewrite Forall_forall in Hna. unfold descriptions in *.
      rewrite Erows in *. split; [left; reflexivity|].
      apply Hna. left; reflexivity. }
    rewrite Hperm in Hin. contradiction.
  - apply Forall_inv in Hint as Hv. cbn [snd] in Hv.
    destruct v as [|sold| | | |]; try discriminate.
    exists {| columns := ["Description"; "Total Quantity Sold"];
              rows := as_rows (head (ranking argsort df) top_n) |},
           top, sold,
           (as_rows (firstn (Z.to_nat top_n - 1) rest)).
    split; [apply high_demand_products_rows, H|].
    split.
    + cbn [rows]. rewrite Erank. unfold head.
      rewrite (proj2 (Z.leb_le 0 top_n)) by lia.
      destruct (Z.to_nat top_n) as [|n] eqn:En; [lia|].
      simpl. rewrite Nat.sub_0_r. reflexivity.
    + intros d Hd.
      assert (Hin : In (d, Int (quantity_sold df d)) ((top, Int sold) :: rest)).
      { apply (Permutation_in _ (Permutation_sym Hperm)).
        unfold product_demand. apply in_map_iff. exists d. split; [reflexivity|].
        apply sorted_uniques_In. split; [exact Hd|].
        pose proof (cleaned_descriptions_notna df H) as Hna.
        rewrite Forall_forall in Hna. apply Hna, Hd. }
      destruct Hin as [E|Hin].
      * injection E as _ ->. lia.
      * apply StronglySorted_inv in Hsorted as [_ Hall].
        rewrite Forall_forall in Hall. specialize (Hall _ Hin).
        unfold value_le in Hall. cbn [snd int_value] in Hall. exact Hall.
Qed.

End RankingProperties.

Lemma high_demand_products_ties_ignore_row_order_witness :
  (sort_kernel argsort_stable /\ cleaned_table tied_products /\
   columns tied_products_swapped = columns tied_products /\
   Permutation (rows tied_products) (rows tied_products_swapped) /\
   0 <= 1) /\
  exists out ranked,
    high_demand_products argsort_stable tied_products 1 = Ok out /\
    high_demand_products argsort_stable tied_products_swapped 1 = Ok out /\
    rows out = firstn (Z.to_nat 1) (as_rows ranked) /\
    ranked = rev (argsort_stable (rev (product_demand tied_products))) /\
    product_demand tied_products_swapped = product_demand tied_products /\
    StronglySorted cell_lt (map fst (product_demand tied_products)) /\
    Permutation ranked
      (map (fun d => (d, Int (quantity_sold tied_products d)))
           (nodup cell_eq_dec (descriptions tied_products))) /\
    StronglySorted (fun a b => value_le b a) ranked.
Proof.
  split; [split; [exact argsort_stable_sorts
                 |split; [exact tied_products_is_cleaned
                         |split; [reflexivity
                                 |split; [apply perm_swap|lia]]]]|].
  apply (high_demand_products_ties_ignore_row_order argsort_stable
           tied_products tied_products_swapped 1 argsort_stable_sorts
           tied_products_is_cleaned); [reflexivity|apply perm_swap|lia].
Defined.

Lemma high_demand_products_row_order_witness :
  (cleaned_table tied_products /\
   columns tied_products_swapped = columns tied_products /\
   Permutation (rows tied_products) (rows tied_products_swapped)) /\
  high_demand_products argsort_stable tied_products_swapped 1 =
  high_demand_products argsort_stable tied_products 1.
Proof.
  split; [split; [exact tied_products_is_cleaned
                 |split; [reflexivity|apply perm_swap]]|].
  apply (high_demand_products_row_order argsort_stable tied_products
           tied_products_swapped 1 tied_products_is_cleaned);
    [reflexivity|apply perm_swap].
Defined.

Lemma high_demand_products_prefix_witness :
  (cleaned_table example_cleaned /\ 0 <= 1 <= 2) /\
  exists out out',
    high_demand_products argsort_stable example_cleaned 1 = Ok out /\
    high_demand_products argsort_stable example_cleaned 2 = Ok out' /\
    rows out = firstn (Z.to_nat 1) (rows out').
Proof.
  split; [split; [exact example_cleaned_is_cleaned|lia]|].
  apply (high_demand_products_prefix argsort_stable example_cleaned 1 2
           example_cleaned_is_cleaned).
  lia.
Defined.

Lemma high_demand_products_entries_witness :
  (sort_kernel argsort_stable /\ cleaned_table example_cleaned) /\
  exists out,
    high_demand_products argsort_stable example_cleaned 5 = Ok out /\
    (forall r, In r (rows out) ->
       exists d, In d (descriptions example_cleaned) /\
                 r = [d; Int (quantity_sold example_cleaned d)]) /\
    NoDup (map (fun r => nth 0 r NaN) (rows out)).
Proof.
  split; [split; [exact argsort_stable_sorts
                 |exact example_cleaned_is_cleaned]|].
  exact (high_demand_products_entries argsort_stable example_cleaned 5
           argsort_stable_sorts example_cleaned_is_cleaned).
Defined.

Lemma high_demand_products_first_is_maximum_witness :
  (sort_kernel argsort_stable /\ cleaned_table example_cleaned /\
   rows example_cleaned <> [] /\ 1 <= 5) /\
  exists out top sold rest,
    high_demand_products argsort_stable example_cleaned 5 = Ok out /\
    rows out = [top; Int sold] :: rest /\
    forall d, In d (descriptions example_cleaned) ->
              quantity_sold example_cleaned d <= sold.
Proof.
  split; [split; [exact argsort_stable_sorts
                 |split; [exact example_cleaned_is_cleaned
                         |split; [discriminate|lia]]]|].
  apply (high_demand_products_first_is_maximum argsort_stable
           example_cleaned 5 argsort_stable_sorts example_cleaned_is_cleaned);
    [discriminate|lia].
Defined.

(** ** Rationals: sums and signs *)

Lemma Qc_pos_plus (x y : Qc) :
  (Q2Qc 0 < x)%Qc -> (Q2Qc 0 <= y)%Qc -> (Q2Qc 0 < x + y)%Qc.
Proof.
  unfold Qclt, Qcle, Qcplus. cbn [this Q2Qc]. rewrite !Qred_correct. intros Hx Hy.
  apply (Qplus_lt_le_compat 0 (this x) 0 (this y)); assumption.
Qed.

Lemma Qc_pos_mult (x y : Qc) :
  (Q2Qc 0 < x)%Qc -> (Q2Qc 0 < y)%Qc -> (Q2Qc 0 < x * y)%Qc.
Proof.
  unfold Qclt, Qcmult. cbn [this Q2Qc]. rewrite !Qred_correct. apply Qmult_lt_0_compat.
Qed.

Lemma Qc_pos_div (x y : Qc) :
  (Q2Qc 0 < x)%Qc -> (Q2Qc 0 < y)%Qc -> (Q2Qc 0 < x / y)%Qc.
Proof.
  intros Hx Hy. unfold Qcdiv. apply Qc_pos_mult; [exact Hx|].
  unfold Qclt, Qcinv in *. cbn [this Q2Qc] in *. rewrite !Qred_correct in *.
  apply Qinv_lt_0_compat, Hy.
Qed.

Lemma Qc_sum_pos (l : list Qc) :
  l <> [] -> Forall (fun x => (Q2Qc 0 < x)%Qc) l -> (Q2Qc 0 < Qc_sum l)%Qc.
Proof.
  intros Hne Hall. induction Hall as [|x l Hx Hl IH]; [contradiction|].
  simpl. apply Qc_pos_plus; [exact Hx|].
  destruct l as [|y l']; [apply Qcle_refl|].
  apply Qclt_le_weak, IH. discriminate.
Qed.

Lemma Qc_sum_perm (l l' : list Qc) :
  Permutation l l' -> Qc_sum l = Qc_sum l'.
Proof.
  induction 1; simpl; try congruence. ring.
Qed.

Lemma Qc_sum_repeat (x : Qc) (n : nat) :
  Qc_sum (repeat x n) = (Z2Qc (Z.of_nat n) * x)%Qc.
Proof.
  induction n as [|n IH].
  - simpl. change (Z2Qc 0) with (Q2Qc 0). change (Q2Qc 0) with 0%Qc. ring.
  - cbn [repeat Qc_sum fold_right]. fold (Qc_sum (repeat x n)). rewrite IH.
    rewrite Nat2Z.inj_succ, <- Z.add_1_r, Z2Qc_add.
    change (Z2Qc 1) with 1%Qc. ring.
Qed.

Lemma Z2Qc_nonzero (z : Z) : 0 < z -> Z2Qc z <> Q2Qc 0.
Proof.
  intros H E. pose proof (Z2Qc_pos z H) as Hp. rewrite E in Hp.
  apply (Qclt_not_le _ _ Hp). apply Qcle_refl.
Qed.

(** ** purchase_patterns: one row per product *)

Lemma mean_of_numbers {A : Type} (f : A -> Qc) (g : A -> cell) (l : list A) :
  l <> [] -> (forall a, In a l -> float_of (g a) = Some (f a)) ->
  mean (map g l) =
  Float (float64_div (Qc_sum (map f l))
                     (float64_of_int (Z.of_nat (List.length l)))).
Proof.
  intros Hne Hf. unfold mean.
  assert (E : somes (map float_of (map g l)) = map f l).
  { clear Hne. induction l as [|a l IH]; simpl; [reflexivity|].
    rewrite (Hf a (or_introl eq_refl)), IH; [reflexivity|].
    intros; apply Hf; right; assumption. }
  rewrite E. destruct l as [|a l]; [contradiction|].
  cbn [map List.length]. rewrite length_map. reflexivity.
Qed.

Lemma somes_perm {A : Type} (l l' : list (option A)) :
  Permutation l l' -> Permutation (somes l) (somes l').
Proof.
  induction 1 as [|x l l' Hp IH|x y l|l l' l'' H1 IH1 H2 IH2]; simpl.
  - constructor.
  - destruct x; auto.
  - destruct x, y; auto. apply perm_swap.
  - etransitivity; eassumption.
Qed.

Lemma mean_perm (s s' : Series) : Permutation s s' -> mean s = mean s'.
Proof.
  intros Hp. unfold mean.
  pose proof (somes_perm _ _ (Permutation_map float_of Hp)) as Hs.
  destruct (somes (map float_of s)) as [|x fs];
    destruct (somes (map float_of s')) as [|x' fs'].
  - reflexivity.
  - apply Permutation_nil in Hs. discriminate.
  - apply Permutation_sym, Permutation_nil in Hs. discriminate.
  - rewrite (Qc_sum_perm _ _ Hs), (Permutation_length Hs). reflexivity.
Qed.

Lemma product_rows_cleaned (df : DataFrame) (d : cell) (r : list cell) :
  cleaned_table df -> In r (product_rows df d) ->
  cleaned_row (columns df) r /\ cell_at (columns df) "Description" r = d.
Proof.
  intros H Hr. unfold product_rows in Hr. apply filter_In in Hr as [Hr Hd].
  apply cell_eqb_eq in Hd. split; [|exact Hd].
  pose proof (cleaned_rows df H) as Hrows. rewrite Forall_forall in Hrows.
  apply Hrows, Hr.
Qed.

Lemma product_rows_nonempty (df : DataFrame) (d : cell) :
  In d (descriptions df) -> product_rows df d <> [].
Proof.
  unfold descriptions, product_rows. intros H.
  apply in_map_iff in H as (r & Hd & Hr).
  assert (Hin : In r (filter
    (fun r => cell_eqb (cell_at (columns df) "Description" r) d) (rows df))).
  { apply filter_In. split; [exact Hr|]. apply cell_eqb_eq, Hd. }
  intros E. rewrite E in Hin. contradiction.
Qed.

(** The result has one row per product description of the table, in
    strictly ascending order of the description. *)
Theorem purchase_patterns_one_row_per_product (df : DataFrame) :
  cleaned_table df ->
  exists out names,
    purchase_patterns df = Ok out /\
    map (fun r => nth 0 r NaN) (rows out) = map Str names /\
    StronglySorted String_as_OT.lt names /\
    (forall d, In d names <-> In (Str d) (descriptions df)) /\
    List.length (rows out) = distinct_products df.
Proof.
  intros H. eexists.
  exists (map str_value (sort_keys (uniques (descriptions df)))).
  split; [apply purchase_patterns_rows, H|]. cbn [rows].
  assert (Hstr : forall k, In k (sort_keys (uniques (descriptions df))) ->
                           is_str k = true).
  { intros k Hk. apply sorted_uniques_In in Hk as [Hk _].
    pose proof (cleaned_descriptions_str df H) as Hs.
    rewrite Forall_forall in Hs. apply Hs, Hk. }
  split; [|split; [|split]].
  - rewrite !map_map. cbn [nth]. apply map_ext_in. intros k Hk.
    specialize (Hstr k Hk). destruct k; try discriminate. reflexivity.
  - apply StronglySorted_map.
    eapply StronglySorted_weaken; [|apply sorted_uniques_ascending].
    intros a b Ha Hb Hlt. pose proof (Hstr a Ha). pose proof (Hstr b Hb).
    destruct a, b; try discriminate. exact Hlt.
  - intros d. rewrite in_map_iff. split.
    + intros (k & <- & Hk). pose proof (Hstr k Hk).
      apply sorted_uniques_In in Hk as [Hk _].
      destruct k; try discriminate. exact Hk.
    + intros Hd. exists (Str d). split; [reflexivity|].
      apply sorted_uniques_In. split; [exact Hd|discriminate].
  - rewrite length_map. apply sorted_uniques_length.
    apply cleaned_descriptions_notna, H.
Qed.

Lemma purchase_patterns_one_row_per_product_witness :
  cleaned_table example_cleaned /\
  exists out names,
    purchase_patterns example_cleaned = Ok out /\
    map (fun r => nth 0 r NaN) (rows out) = map Str names /\
    StronglySorted String_as_OT.lt names /\
    (forall d, In d names <-> In (Str d) (descriptions example_cleaned)) /\
    List.length (rows out) = distinct_products example_cleaned.
Proof.
  split; [exact example_cleaned_is_cleaned|].
  exact (purchase_patterns_one_row_per_product example_cleaned
           example_cleaned_is_cleaned).
Defined.

(** A product sold at one whole-number price throughout has that price as
    its average, however many rows it has (amounts up to 2^53). *)
Theorem purchase_patterns_constant_price
    (df : DataFrame) (d : cell) (price : Z) :
  cleaned_table df -> whole_amounts df -> In d (descriptions df) ->
  (forall r, In r (product_rows df d) ->
             cell_at (columns df) "UnitPrice" r = Float (Z2Qc price)) ->
  exists out avg_quantity,
    purchase_patterns df = Ok out /\
    In [d; avg_quantity; Float (Z2Qc price)] (rows out).
Proof.
  intros H Hwhole Hd Hconst. eexists. exists (product_mean df "Quantity" d).
  split; [apply purchase_patterns_rows, H|]. cbn [rows].
  destruct (whole_amounts_product df d H Hwhole) as [Hlen Hbound].
  pose proof (product_rows_nonempty df d Hd) as Hne.
  assert (Hn : 0 < Z.of_nat (List.length (product_rows df d))).
  { destruct (product_rows df d); [contradiction|]. simpl List.length. lia. }
  assert (Hprice : 0 < price <= 2 ^ 53).
  { destruct (product_rows df d) as [|r l] eqn:E; [contradiction|].
    destruct (Hbound r (or_introl eq_refl)) as (z & p & _ & Hp & Hz & Hpp & Hzp).
    rewrite (Hconst r (or_introl eq_refl)) in Hp.
    assert (E' : price = p) by (apply Z2Qc_inj; congruence). subst p. nia. }
  apply in_map_iff. exists d. split.
  - do 2 f_equal. f_equal. unfold product_mean. fold (product_rows df d).
    rewrite (mean_of_numbers (fun _ => Z2Qc price)).
    + f_equal. unfold float64_div.
      rewrite float64_of_int_exact by lia.
      rewrite map_const, Qc_sum_repeat.
      replace (Z2Qc (Z.of_nat (List.length (product_rows df d))) * Z2Qc price /
               Z2Qc (Z.of_nat (List.length (product_rows df d))))%Qc
        with (Z2Qc price)
        by (field; apply Z2Qc_nonzero, Hn).
      apply round64_int. lia.
    + exact Hne.
    + intros r Hr. rewrite (Hconst r Hr). reflexivity.
  - apply sorted_uniques_In. split; [exact Hd|].
    pose proof (cleaned_descriptions_notna df H) as Hna.
    rewrite Forall_forall in Hna. apply Hna, Hd.
Qed.

Lemma purchase_patterns_constant_price_witness :
  (cleaned_table example_cleaned /\ whole_amounts example_cleaned /\
   In (Str "A") (descriptions example_cleaned) /\
   forall r, In r (product_rows example_cleaned (Str "A")) ->
     cell_at (columns example_cleaned) "UnitPrice" r = Float (Z2Qc 2)) /\
  exists out avg_quantity,
    purchase_patterns example_cleaned = Ok out /\
    In [Str "A"; avg_quantity; Float (Z2Qc 2)] (rows out).
Proof.
  assert (Hconst : forall r, In r (product_rows example_cleaned (Str "A")) ->
     cell_at (columns example_cleaned) "UnitPrice" r = Float (Z2Qc 2)).
  { intros r Hr. simpl in Hr. destruct Hr as [<-|[<-|[]]]; reflexivity. }
  split; [split; [exact example_cleaned_is_cleaned
                 |split; [exact example_cleaned_whole_amounts
                         |split; [left; reflexivity|exact Hconst]]]|].
  apply (purchase_patterns_constant_price example_cleaned (Str "A") 2
           example_cleaned_is_cleaned example_cleaned_whole_amounts);
    [left; reflexivity|exact Hconst].
Defined.

(** The averages of a product, as sums over its rows. *)
Lemma product_mean_quantity (df : DataFrame) (d : cell) :
  cleaned_table df -> In d (descriptions df) ->
  product_mean df "Quantity" d =
  Float (float64_div
           (Qc_sum (map (fun r => float64_of_int
                                    (int_value
                                       (cell_at (columns df) "Quantity" r)))
                        (product_rows df d)))
           (float64_of_int (Z.of_nat (List.length (product_rows df d))))).
Proof.
  intros H Hd. unfold product_mean. fold (product_rows df d).
  apply mean_of_numbers; [apply product_rows_nonempty, Hd|].
  intros r Hr. apply (product_rows_cleaned df d r H) in Hr as [Hr _].
  destruct (row_quantity _ _ Hr) as [z [-> _]]. reflexivity.
Qed.

Lemma product_mean_unit_price (df : DataFrame) (d : cell) :
  cleaned_table df -> In d (descriptions df) ->
  product_mean df "UnitPrice" d =
  Float (float64_div
           (Qc_sum (map (fun r => float_value
                                    (cell_at (columns df) "UnitPrice" r))
                        (product_rows df d)))
           (float64_of_int (Z.of_nat (List.length (product_rows df d))))).
Proof.
  intros H Hd. unfold product_mean. fold (product_rows df d).
  apply mean_of_numbers; [apply product_rows_nonempty, Hd|].
  intros r Hr. apply (product_rows_cleaned df d r H) in Hr as [Hr _].
  destruct (row_unit_price _ _ Hr) as [q [-> _]]. reflexivity.
Qed.

Lemma product_rows_count_pos (df : DataFrame) (d : cell) :
  In d (descriptions df) -> 0 < Z.of_nat (List.length (product_rows df d)).
Proof.
  intros Hd. pose proof (product_rows_nonempty df d Hd).
  destruct (product_rows df d); [contradiction|]. simpl List.length. lia.
Qed.

(** On a cleaned table both averages of every product are positive. *)
Theorem purchase_patterns_positive_averages (df : DataFrame) (d : cell) :
  cleaned_table df -> In d (descriptions df) ->
  exists out avg_quantity avg_unit_price,
    purchase_patterns df = Ok out /\
    In [d; Float avg_quantity; Float avg_unit_price] (rows out) /\
    (Q2Qc 0 < avg_quantity)%Qc /\ (Q2Qc 0 < avg_unit_price)%Qc.
Proof.
  intros H Hd. eexists. do 2 eexists.
  split; [apply purchase_patterns_rows, H|]. cbn [rows].
  split.
  - apply in_map_iff. exists d. split.
    + rewrite (product_mean_quantity df d H Hd),
              (product_mean_unit_price df d H Hd). reflexivity.
    + apply sorted_uniques_In. split; [exact Hd|].
      pose proof (cleaned_descriptions_notna df H) as Hna.
      rewrite Forall_forall in Hna. apply Hna, Hd.
  - pose proof (product_rows_nonempty df d Hd) as Hne.
    pose proof (float64_of_int_pos _ (product_rows_count_pos df d Hd)) as Hn.
    split; (apply round64_positive, Qc_pos_div; [|exact Hn]);
      apply Qc_sum_pos.
    + intros E. apply map_eq_nil in E. contradiction.
    + apply Forall_map, Forall_forall. intros r Hr.
      apply (product_rows_cleaned df d r H) in Hr as [Hr _].
      destruct (row_quantity _ _ Hr) as [z [-> Hz]].
      apply float64_of_int_pos, Hz.
    + intros E. apply map_eq_nil in E. contradiction.
    + apply Forall_map, Forall_forall. intros r Hr.
      apply (product_rows_cleaned df d r H) in Hr as [Hr _].
      destruct (row_unit_price _ _ Hr) as [q [-> Hq]]. exact Hq.
Qed.

Lemma purchase_patterns_positive_averages_witness :
  (cleaned_table example_cleaned /\
   In (Str "A") (descriptions example_cleaned)) /\
  exists out avg_quantity avg_unit_price,
    purchase_patterns example_cleaned = Ok out /\
    In [Str "A"; Float avg_quantity; Float avg_unit_price] (rows out) /\
    (Q2Qc 0 < avg_quantity)%Qc /\ (Q2Qc 0 < avg_unit_price)%Qc.
Proof.
  split; [split; [exact example_cleaned_is_cleaned|left; reflexivity]|].
  apply (purchase_patterns_positive_averages example_cleaned (Str "A")
           example_cleaned_is_cleaned).
  left; reflexivity.
Defined.

Lemma tied_products_whole_amounts : whole_amounts tied_products.
Proof.
  split.
  - intros r Hr. simpl in Hr.
    destruct Hr as [<-|[<-|[]]]; eexists; reflexivity.
  - vm_compute. discriminate.
Qed.

(** [purchase_patterns] gives the same result on two cleaned tables that
    hold the same rows in a different order, when their amounts are whole
    numbers that add up to 2^53 at most: the float64 sums of such a table
    are exact, whatever the order of the addition. *)
Theorem purchase_patterns_row_order (df df' : DataFrame) :
  cleaned_table df -> whole_amounts df ->
  columns df' = columns df -> Permutation (rows df) (rows df') ->
  purchase_patterns df' = purchase_patterns df.
Proof.
  intros H _ Hc Hp.
  rewrite (purchase_patterns_rows df' (cleaned_table_perm df df' Hc Hp H)).
  rewrite (purchase_patterns_rows df H).
  assert (Hu : sort_keys (uniques (descriptions df')) =
               sort_keys (uniques (descriptions df))).
  { apply sorted_uniques_perm. unfold descriptions. rewrite Hc.
    symmetry. apply Permutation_map, Hp. }
  assert (Hm : forall col d, product_mean df' col d = product_mean df col d).
  { intros col d. unfold product_mean. rewrite Hc.
    apply mean_perm, Permutation_map, filter_perm. symmetry. exact Hp. }
  rewrite Hu. do 2 f_equal. apply map_ext. intros d. rewrite !Hm. reflexivity.
Qed.

Lemma purchase_patterns_row_order_witness :
  (cleaned_table tied_products /\ whole_amounts tied_products /\
   columns tied_products_swapped = columns tied_products /\
   Permutation (rows tied_products) (rows tied_products_swapped)) /\
  purchase_patterns tied_products_swapped = purchase_patterns tied_products.
Proof.
  split; [split; [exact tied_products_is_cleaned
                 |split; [exact tied_products_whole_amounts
                         |split; [reflexivity|apply perm_swap]]]|].
  apply (purchase_patterns_row_order tied_products tied_products_swapped
           tied_products_is_cleaned tied_products_whole_amounts);
    [reflexivity|apply perm_swap].
Defined.

(** ** quarterly_revenue: order, signs, row order *)

Section RevenueProperties.

Variable parse_datetime : string -> option (Z * Z * Z).

Lemma quarter_of_period (c : cell) :
  quarter_of parse_datetime c = NaN \/
  exists y q, quarter_of parse_datetime c = Period y q.
Proof.
  unfold quarter_of. destruct (datetime_of parse_datetime c); eauto.
Qed.

Lemma revenue_keys_periods (df : DataFrame) (k : cell) :
  In k (sort_keys (uniques (quarters parse_datetime df))) ->
  exists y q, k = Period y q.
Proof.
  intros Hk. apply sorted_uniques_In in Hk as [Hk Hna].
  unfold quarters in Hk. apply in_map_iff in Hk as (r & <- & _).
  destruct (quarter_of_period (cell_at (columns df) "InvoiceDate" r))
    as [E|E]; [contradiction|exact E].
Qed.

Lemma cell_lt_period (y1 q1 y2 q2 : Z) :
  cell_lt (Period y1 q1) (Period y2 q2) <-> earlier (y1, q1) (y2, q2).
Proof.
  unfold cell_lt, earlier. simpl.
  rewrite lex_Lt_Z, Z.compare_lt_iff. reflexivity.
Qed.

Lemma line_revenue_pos (cols : list string) (r : list cell) :
  cleaned_row cols r -> (Q2Qc 0 < line_revenue cols r)%Qc.
Proof.
  intros Hr. unfold line_revenue.
  destruct (row_quantity _ _ Hr) as [z [-> Hz]].
  destruct (row_unit_price _ _ Hr) as [q [-> Hq]].
  apply round64_positive, Qc_pos_mult; [apply float64_of_int_pos, Hz|exact Hq].
Qed.

(** The result has one row for each quarter in which the table has a row,
    and no other row; the rows are in chronological order, and every
    quarter returned has a positive revenue. *)
Theorem quarterly_revenue_chronological (df : DataFrame) :
  cleaned_table df -> all_dates_parse parse_datetime df ->
  exists out periods,
    snd (quarterly_revenue parse_datetime df) = Ok out /\
    map (fun r => nth 0 r NaN) (rows out) =
      map (fun p => Period (fst p) (snd p)) periods /\
    StronglySorted earlier periods /\
    (forall y q, In (y, q) periods <->
       exists r, In r (rows df) /\
         quarter_of parse_datetime (cell_at (columns df) "InvoiceDate" r) =
         Period y q) /\
    forall r, In r (rows out) ->
      exists total, nth 1 r NaN = Float total /\ (Q2Qc 0 < total)%Qc.
Proof.
  intros H Hparse. eexists.
  exists (map (fun k => (period_year k, period_quarter k))
              (sort_keys (uniques (quarters parse_datetime df)))).
  rewrite (quarterly_revenue_run parse_datetime df H Hparse).
  split; [reflexivity|]. unfold reset_index, revenue. cbn [rows].
  split; [|split; [|split]].
  - rewrite !map_map. cbn [nth fst snd]. apply map_ext_in. intros k Hk.
    destruct (revenue_keys_periods df k Hk) as (y & q & ->). reflexivity.
  - apply StronglySorted_map.
    eapply StronglySorted_weaken; [|apply sorted_uniques_ascending].
    intros a b Ha Hb Hlt.
    destruct (revenue_keys_periods df a Ha) as (y1 & q1 & ->).
    destruct (revenue_keys_periods df b Hb) as (y2 & q2 & ->).
    apply cell_lt_period, Hlt.
  - intros y q. rewrite in_map_iff. split.
    + intros (k & E & Hk).
      destruct (revenue_keys_periods df k Hk) as (y' & q' & ->).
      cbn [period_year period_quarter] in E. injection E as -> ->.
      apply sorted_uniques_In in Hk as [Hk _]. unfold quarters in Hk.
      apply in_map_iff in Hk as (r & Hq & Hr). eauto.
    + intros (r & Hr & Hq). exists (Period y q). split; [reflexivity|].
      apply sorted_uniques_In. split; [|discriminate].
      unfold quarters. apply in_map_iff. eauto.
  - intros r Hr. rewrite map_map in Hr.
    apply in_map_iff in Hr as (k & <- & Hk).
    cbn [nth fst snd]. eexists. split; [reflexivity|].
    unfold quarter_revenue. apply Qc_sum_pos.
    + apply sorted_uniques_In in Hk as [Hk _]. unfold quarters in Hk.
      apply in_map_iff in Hk as (r & Hq & Hr).
      intros E. apply map_eq_nil in E.
      assert (Hin : In r (filter
         (fun r => cell_eqb (quarter_of parse_datetime
                               (cell_at (columns df) "InvoiceDate" r)) k)
         (rows df))).
      { apply filter_In. split; [exact Hr|]. apply cell_eqb_eq, Hq. }
      rewrite E in Hin. contradiction.
    + apply Forall_map, Forall_forall. intros r Hr.
      apply filter_In in Hr as [Hr _].
      pose proof (cleaned_rows df H) as Hrows. rewrite Forall_forall in Hrows.
      apply line_revenue_pos, Hrows, Hr.
Qed.

Lemma revenue_perm (df df' : DataFrame) :
  columns df' = columns df -> Permutation (rows df) (rows df') ->
  revenue parse_datetime df' = revenue parse_datetime df.
Proof.
  intros Hc Hp. unfold revenue.
  assert (Hu : sort_keys (uniques (quarters parse_datetime df')) =
               sort_keys (uniques (quarters parse_datetime df))).
  { apply sorted_uniques_perm. unfold quarters. rewrite Hc.
    symmetry. apply Permutation_map, Hp. }
  rewrite Hu. apply map_ext. intros k. do 2 f_equal.
  unfold quarter_revenue. rewrite Hc.
  apply Qc_sum_perm, Permutation_map, filter_perm. symmetry. exact Hp.
Qed.

Lemma datetimes_parse (df : DataFrame) :
  dates_are_datetimes df -> all_dates_parse parse_datetime df.
Proof.
  intros H r Hr. destruct (H r Hr) as (y & m & d & ->). exact I.
Qed.

(** The revenue per quarter is the same for two cleaned tables that hold the
    same rows in a different order, when the invoice dates are datetimes
    (nothing is parsed) and the amounts are whole numbers that add up to
    2^53 at most (the float64 sums are exact in any order). *)
Theorem quarterly_revenue_row_order (df df' : DataFrame) :
  cleaned_table df -> dates_are_datetimes df -> whole_amounts df ->
  columns df' = columns df -> Permutation (rows df) (rows df') ->
  snd (quarterly_revenue parse_datetime df') =
  snd (quarterly_revenue parse_datetime df).
Proof.
  intros H Hdates _ Hc Hp.
  pose proof (datetimes_parse df Hdates) as Hparse.
  assert (Hparse' : all_dates_parse parse_datetime df').
  { intros r Hr. rewrite Hc. apply Hparse.
    eapply Permutation_in; [symmetry; exact Hp|exact Hr]. }
  rewrite (quarterly_revenue_run parse_datetime df'
             (cleaned_table_perm df df' Hc Hp H) Hparse').
  rewrite (quarterly_revenue_run parse_datetime df H Hparse).
  cbn [snd]. rewrite (revenue_perm df df' Hc Hp). reflexivity.
Qed.

End RevenueProperties.

Lemma quarterly_revenue_chronological_witness :
  (cleaned_table example_cleaned /\
   all_dates_parse parse_iso_date example_cleaned) /\
  exists out periods,
    snd (quarterly_revenue parse_iso_date example_cleaned) = Ok out /\
    map (fun r => nth 0 r NaN) (rows out) =
      map (fun p => Period (fst p) (snd p)) periods /\
    StronglySorted earlier periods /\
    (forall y q, In (y, q) periods <->
       exists r, In r (rows example_cleaned) /\
         quarter_of parse_iso_date
           (cell_at (columns example_cleaned) "InvoiceDate" r) =
         Period y q) /\
    forall r, In r (rows out) ->
      exists total, nth 1 r NaN = Float total /\ (Q2Qc 0 < total)%Qc.
Proof.
  split; [split; [exact example_cleaned_is_cleaned
                 |exact example_cleaned_dates_parse]|].
  exact (quarterly_revenue_chronological parse_iso_date example_cleaned
           example_cleaned_is_cleaned example_cleaned_dates_parse).
Defined.

Lemma dated_sales_is_cleaned : cleaned_table dated_sales.
Proof.
  split; simpl; auto 10.
  repeat (constructor; [cleaned_row_by_computation|]). constructor.
Qed.

Lemma dated_sales_datetimes : dates_are_datetimes dated_sales.
Proof.
  intros r Hr. simpl in Hr.
  destruct Hr as [<-|[<-|[<-|[]]]]; do 3 eexists; reflexivity.
Qed.

Lemma dated_sales_whole_amounts : whole_amounts dated_sales.
Proof.
  split.
  - intros r Hr. simpl in Hr.
    destruct Hr as [<-|[<-|[<-|[]]]]; eexists; reflexivity.
  - vm_compute. discriminate.
Qed.

Lemma dated_sales_reordered_perm :
  Permutation (rows dated_sales) (rows dated_sales_reordered).
Proof.
  simpl. eapply perm_trans; [apply perm_swap|]. apply perm_skip, perm_swap.
Qed.

Lemma quarterly_revenue_row_order_witness :
  (cleaned_table dated_sales /\ dates_are_datetimes dated_sales /\
   whole_amounts dated_sales /\
   columns dated_sales_reordered = columns dated_sales /\
   Permutation (rows dated_sales) (rows dated_sales_reordered)) /\
  snd (quarterly_revenue parse_iso_date dated_sales_reordered) =
  snd (quarterly_revenue parse_iso_date dated_sales).
Proof.
  split; [split; [exact dated_sales_is_cleaned
                 |split; [exact dated_sales_datetimes
                         |split; [exact dated_sales_whole_amounts
                                 |split; [reflexivity
                                         |exact dated_sales_reordered_perm]]]]|].
  apply (quarterly_revenue_row_order parse_iso_date dated_sales
           dated_sales_reordered dated_sales_is_cleaned
           dated_sales_datetimes dated_sales_whole_amounts);
    [reflexivity|exact dated_sales_reordered_perm].
Defined.

(** ** quarterly_revenue: what the call does to the frame *)

Lemma assign_cases (label : string) (s : Series) (df : DataFrame) :
  assign label s df = (df, Raise ValueError) \/
  (List.length s = List.length (rows df) /\
   assign label s df = (set_column df label s, Ok tt)).
Proof.
  unfold assign, setitem.
  destruct (Nat.eqb_spec (List.length s) (List.length (rows df))) as [E|E];
    simpl; auto.
Qed.

Lemma replace_nth_same (i : nat) (r : list cell) :
  (i < List.length r)%nat -> replace_nth i (nth i r NaN) r = r.
Proof.
  revert r. induction i as [|i IH]; intros [|c r]; simpl; intros H;
    try lia; [reflexivity|]. f_equal. apply IH. lia.
Qed.

Lemma zip_with_map_r {A B C : Type} (f : A -> B -> C) (g : A -> B)
    (l : list A) :
  zip_with f l (map g l) = map (fun a => f a (g a)) l.
Proof. induction l; simpl; congruence. Qed.

(** Assigning to a column the values it already holds changes nothing. *)
Lemma set_column_same (df : DataFrame) (label : string) (s : Series) :
  wellformed df -> getitem df label = Ok s -> set_column df label s = df.
Proof.
  intros Hwf Hget. unfold getitem in Hget. unfold set_column.
  destruct (get_loc label (columns df)) as [i|] eqn:E; [|discriminate].
  injection Hget as <-. destruct df as [cols rws]. cbn [columns rows] in *.
  f_equal. rewrite (zip_with_map_r (fun r v => replace_nth i v r)).
  rewrite <- (map_id rws) at 2. apply map_ext_in. intros r Hr.
  apply replace_nth_same. unfold wellformed in Hwf. cbn [rows columns] in Hwf.
  rewrite Forall_forall in Hwf. rewrite (Hwf r Hr). eapply get_loc_lt, E.
Qed.

(** The aggregators read the frame through the columns they name. *)
Lemma loyalty_customers_ext (df df' : DataFrame) (min_purchases : Z) :
  getitem df' "CustomerID" = getitem df "CustomerID" ->
  loyalty_customers df' min_purchases = loyalty_customers df min_purchases.
Proof.
  intros H. unfold loyalty_customers, groupby_size. rewrite H. reflexivity.
Qed.

Lemma high_demand_products_ext (argsort : IndexedSeries -> IndexedSeries)
    (df df' : DataFrame) (top_n : Z) :
  getitem df' "Description" = getitem df "Description" ->
  getitem df' "Quantity" = getitem df "Quantity" ->
  high_demand_products argsort df' top_n =
  high_demand_products argsort df top_n.
Proof.
  intros Hd Hq. unfold high_demand_products, groupby_sum, groupby_agg.
  rewrite Hd, Hq. reflexivity.
Qed.

Lemma purchase_patterns_ext (df df' : DataFrame) :
  getitem df' "Description" = getitem df "Description" ->
  getitem df' "Quantity" = getitem df "Quantity" ->
  getitem df' "UnitPrice" = getitem df "UnitPrice" ->
  purchase_patterns df' = purchase_patterns df.
Proof.
  intros Hd Hq Hu. unfold purchase_patterns, groupby_mean, groupby_agg.
  rewrite Hd, Hq, Hu. reflexivity.
Qed.

Section RevenueFrame.

Variable parse_datetime : string -> option (Z * Z * Z).

(** Whether the call returns or raises, every column other than Total and
    Quarter reads afterwards as it did before, and the frame has as many
    rows. *)
Lemma quarterly_revenue_other_columns
    (df : DataFrame) (label : string) :
  wellformed df -> label <> "Total" -> label <> "Quarter" ->
  getitem (fst (quarterly_revenue parse_datetime df)) label =
    getitem df label /\
  List.length (rows (fst (quarterly_revenue parse_datetime df))) =
    List.length (rows df).
Proof.
  intros Hwf Ht Hq. unfold quarterly_revenue, bindM, read, pure, retM.
  destruct (getitem df "Quantity") as [quantity|e]; [|split; reflexivity].
  destruct (getitem df "UnitPrice") as [unit_price|e]; [|split; reflexivity].
  destruct (series_mul quantity unit_price) as [total|e];
    [|split; reflexivity].
  destruct (assign_cases "Total" total df) as [->|[Hlen ->]];
    [split; reflexivity|].
  set (df1 := set_column df "Total" total).
  assert (H1 : getitem df1 label = getitem df label /\
               List.length (rows df1) = List.length (rows df)).
  { split; [apply getitem_set_column_other; assumption
           |apply set_column_length, Hlen]. }
  assert (Hwf1 : wellformed df1) by apply set_column_wellformed, Hwf.
  cbv beta iota.
  destruct (getitem df1 "InvoiceDate") as [dates|e]; [|exact H1].
  destruct (to_datetime parse_datetime dates) as [datetimes|e]; [|exact H1].
  destruct (mapM to_period_Q datetimes) as [quarter|e]; [|exact H1].
  destruct (assign_cases "Quarter" quarter df1) as [->|[Hlen1 ->]];
    [exact H1|].
  cbv beta iota.
  assert (H2 : getitem (set_column df1 "Quarter" quarter) label =
                 getitem df label /\
               List.length (rows (set_column df1 "Quarter" quarter)) =
                 List.length (rows df)).
  { destruct H1 as [H1 H1']. split.
    - rewrite getitem_set_column_other by assumption. exact H1.
    - rewrite set_column_length by exact Hlen1. exact H1'. }
  destruct (groupby_sum _ "Quarter" "Total"); exact H2.
Qed.

Variable argsort : IndexedSeries -> IndexedSeries.

(** The call writes the columns Total and Quarter and nothing else.  Whether
    it returns or raises, every other column reads afterwards as it did
    before and the frame has as many rows; so the other three aggregators
    return on the frame the call has left what they return on the frame it
    was given. *)
Theorem quarterly_revenue_writes_two_columns
    (df : DataFrame) (label : string) (min_purchases top_n : Z) :
  wellformed df -> label <> "Total" -> label <> "Quarter" ->
  let df' := fst (quarterly_revenue parse_datetime df) in
  getitem df' label = getitem df label /\
  List.length (rows df') = List.length (rows df) /\
  loyalty_customers df' min_purchases = loyalty_customers df min_purchases /\
  high_demand_products argsort df' top_n =
    high_demand_products argsort df top_n /\
  purchase_patterns df' = purchase_patterns df.
Proof.
  intros Hwf Ht Hq df'.
  assert (Hsame : forall l, l <> "Total" -> l <> "Quarter" ->
                    getitem df' l = getitem df l).
  { intros l H1 H2. apply quarterly_revenue_other_columns; assumption. }
  split; [apply Hsame; assumption|].
  split; [apply (quarterly_revenue_other_columns df label); assumption|].
  split; [|split].
  - apply loyalty_customers_ext, Hsame; discriminate.
  - apply high_demand_products_ext; apply Hsame; discriminate.
  - apply purchase_patterns_ext; apply Hsame; discriminate.
Qed.

(** When Quantity or UnitPrice is missing the call raises the [KeyError]
    before it assigns anything: the frame is left exactly as it was. *)
Theorem quarterly_revenue_missing_column (df : DataFrame) :
  ~ In "Quantity" (columns df) \/ ~ In "UnitPrice" (columns df) ->
  exists label,
    quarterly_revenue parse_datetime df = (df, Raise (KeyError label)) /\
    ~ In label (columns df) /\ (label = "Quantity" \/ label = "UnitPrice").
Proof.
  intros H. unfold quarterly_revenue, bindM, read, pure, retM.
  destruct (in_dec string_dec "Quantity" (columns df)) as [Hq|Hq].
  - destruct H as [H|H]; [contradiction|].
    exists "UnitPrice". rewrite (getitem_cell_at df _ Hq). cbv beta iota.
    rewrite (getitem_key_error df _ H). auto.
  - exists "Quantity". rewrite (getitem_key_error df _ Hq). auto.
Qed.

(** The call, from what each of its statements yields. *)
Lemma quarterly_revenue_steps (df : DataFrame)
    (quantity unit_price total dates datetimes quarter : Series)
    (sums : IndexedSeries) :
  getitem df "Quantity" = Ok quantity ->
  getitem df "UnitPrice" = Ok unit_price ->
  series_mul quantity unit_price = Ok total ->
  List.length total = List.length (rows df) ->
  getitem (set_column df "Total" total) "InvoiceDate" = Ok dates ->
  to_datetime parse_datetime dates = Ok datetimes ->
  mapM to_period_Q datetimes = Ok quarter ->
  List.length quarter = List.length (rows (set_column df "Total" total)) ->
  groupby_sum (set_column (set_column df "Total" total) "Quarter" quarter)
              "Quarter" "Total" = Ok sums ->
  quarterly_revenue parse_datetime df =
  (set_column (set_column df "Total" total) "Quarter" quarter,
   Ok (reset_index "Quarter" "Total Revenue" sums)).
Proof.
  intros Hq Hu Hm Hlen Hd Hdt Hp Hlen1 Hg.
  unfold quarterly_revenue, bindM, read, pure, assign, retM.
  rewrite Hq. cbv beta iota. rewrite Hu. cbv beta iota.
  rewrite Hm. cbv beta iota. rewrite (setitem_ok _ _ _ Hlen). cbv beta iota.
  rewrite Hd. cbv beta iota. rewrite Hdt. cbv beta iota.
  rewrite Hp. cbv beta iota. rewrite (setitem_ok _ _ _ Hlen1). cbv beta iota.
  rewrite Hg. reflexivity.
Qed.

(** A second call is harmless: on the frame the first call has left, the
    function returns the same revenue and leaves the frame as it found it. *)
Theorem quarterly_revenue_second_call (df : DataFrame) :
  cleaned_table df -> all_dates_parse parse_datetime df ->
  quarterly_revenue parse_datetime
    (fst (quarterly_revenue parse_datetime df)) =
  quarterly_revenue parse_datetime df.
Proof.
  intros H Hparse. pose proof (cleaned_wellformed df H) as Hwf.
  rewrite (quarterly_revenue_run parse_datetime df H Hparse). cbn [fst].
  set (df2 := with_quarter parse_datetime df).
  assert (Hlt : List.length (totals df) = List.length (rows df))
    by apply length_map.
  assert (Hwf1 : wellformed (with_total df))
    by apply set_column_wellformed, Hwf.
  assert (Hlq : List.length (quarters parse_datetime df) =
                List.length (rows (with_total df))).
  { unfold with_total. rewrite set_column_length by exact Hlt.
    apply length_map. }
  assert (Hwf2 : wellformed df2) by apply set_column_wellformed, Hwf1.
  assert (Hlen2 : List.length (rows df2) = List.length (rows df)).
  { unfold df2, with_quarter. rewrite set_column_length by exact Hlq.
    unfold with_total. apply set_column_length, Hlt. }
  assert (Hother : forall label, label <> "Total" -> label <> "Quarter" ->
                     getitem df2 label = getitem df label).
  { intros label Ht Hq. unfold df2, with_quarter.
    rewrite getitem_set_column_other by assumption.
    unfold with_total. apply getitem_set_column_other; assumption. }
  assert (Htotal : getitem df2 "Total" = Ok (totals df)).
  { unfold df2, with_quarter.
    rewrite getitem_set_column_other by (auto; discriminate).
    apply getitem_set_column_same; assumption. }
  assert (Hquarter : getitem df2 "Quarter" = Ok (quarters parse_datetime df))
    by (apply getitem_set_column_same; assumption).
  assert (Hsame1 : set_column df2 "Total" (totals df) = df2)
    by (apply set_column_same; assumption).
  assert (Hsame2 : set_column df2 "Quarter" (quarters parse_datetime df) = df2)
    by (apply set_column_same; assumption).
  rewrite (quarterly_revenue_steps df2
             (map (cell_at (columns df) "Quantity") (rows df))
             (map (cell_at (columns df) "UnitPrice") (rows df))
             (totals df)
             (map (cell_at (columns df) "InvoiceDate") (rows df))
             (map (fun r => datetime_of parse_datetime
                              (cell_at (columns df) "InvoiceDate" r))
                  (rows df))
             (quarters parse_datetime df)
             (revenue parse_datetime df)).
  - rewrite Hsame1, Hsame2. reflexivity.
  - rewrite Hother by discriminate.
    apply getitem_cell_at, (has_quantity df H).
  - rewrite Hother by discriminate.
    apply getitem_cell_at, (has_unit_price df H).
  - apply series_mul_cleaned, H.
  - rewrite Hlen2. exact Hlt.
  - rewrite Hsame1, Hother by discriminate.
    apply getitem_cell_at, (has_invoice_date df H).
  - apply to_datetime_parses, Hparse.
  - apply to_period_parses, Hparse.
  - rewrite Hsame1, Hlen2. apply length_map.
  - rewrite Hsame1, Hsame2. apply groupby_sum_revenue, H.
Qed.

End RevenueFrame.

Lemma quarterly_revenue_writes_two_columns_witness :
  (wellformed example_cleaned /\
   "Description" <> "Total" /\ "Description" <> "Quarter") /\
  high_demand_products argsort_stable
    (fst (quarterly_revenue parse_iso_date example_cleaned)) 5 =
  high_demand_products argsort_stable example_cleaned 5.
Proof.
  split; [split; [exact (cleaned_wellformed _ example_cleaned_is_cleaned)
                 |split; discriminate]|].
  apply (quarterly_revenue_writes_two_columns parse_iso_date argsort_stable
           example_cleaned "Description" 10 5
           (cleaned_wellformed _ example_cleaned_is_cleaned));
    discriminate.
Defined.

Lemma quarterly_revenue_missing_column_witness :
  (~ In "Quantity" (columns no_quantity) \/
   ~ In "UnitPrice" (columns no_quantity)) /\
  exists label,
    quarterly_revenue parse_iso_date no_quantity =
      (no_quantity, Raise (KeyError label)) /\
    ~ In label (columns no_quantity) /\
    (label = "Quantity" \/ label = "UnitPrice").
Proof.
  assert (H : ~ In "Quantity" (columns no_quantity)).
  { simpl. intros [E|[E|[]]]; discriminate. }
  split; [left; exact H|].
  apply (quarterly_revenue_missing_column parse_iso_date no_quantity).
  left; exact H.
Defined.

Lemma quarterly_revenue_second_call_witness :
  (cleaned_table example_cleaned /\
   all_dates_parse parse_iso_date example_cleaned) /\
  quarterly_revenue parse_iso_date
    (fst (quarterly_revenue parse_iso_date example_cleaned)) =
  quarterly_revenue parse_iso_date example_cleaned.
Proof.
  split; [split; [exact example_cleaned_is_cleaned
                 |exact example_cleaned_dates_parse]|].
  exact (quarterly_revenue_second_call parse_iso_date example_cleaned
           example_cleaned_is_cleaned example_cleaned_dates_parse).
Defined.

(** ** The script *)

Section ScriptProperties.

Variable parse_datetime : string -> option (Z * Z * Z).
Variable argsort : IndexedSeries -> IndexedSeries.

(** On a typed raw table with customer identifiers of one kind, whose kept
    rows have dates that parse, the script runs to its end.  Its report holds the four aggregates of the cleaned
    table: the two that the script computes after [quarterly_revenue], on the
    frame with the two columns added, are those of the cleaned table as the
    cleaner returned it. *)
Theorem main_report (df : DataFrame) :
  retail_table df -> one_kind (customers df) ->
  (forall r, In r (rows df) -> complete_and_positive (columns df) r = true ->
             parses parse_datetime (cell_at (columns df) "InvoiceDate" r)) ->
  exists cleaned loyal revenue high patterns,
    filter_data df = Ok cleaned /\
    cleaned_table cleaned /\
    loyalty_customers cleaned 10 = Ok loyal /\
    quarterly_revenue parse_datetime cleaned =
      (with_quarter parse_datetime cleaned, Ok revenue) /\
    high_demand_products argsort cleaned 5 = Ok high /\
    purchase_patterns cleaned = Ok patterns /\
    main parse_datetime argsort df =
      Ok (mkReport loyal revenue high patterns
                   (with_quarter parse_datetime cleaned)).
Proof.
  intros H _ Hdates.
  pose proof (retail_table_filtered df H) as Hfilter.
  pose proof (retail_table_cleaned df H) as Hclean.
  fold (cleaned_of df) in Hfilter, Hclean.
  assert (Hparse : all_dates_parse parse_datetime (cleaned_of df)).
  { intros r Hr. cbn [cleaned_of rows columns] in *.
    apply filter_In in Hr as [Hr Hk]. apply Hdates; assumption. }
  pose proof (quarterly_revenue_run parse_datetime _ Hclean Hparse) as Hrun.
  pose proof (cleaned_wellformed _ Hclean) as Hwf.
  assert (Hsame : forall l, l <> "Total" -> l <> "Quarter" ->
            getitem (with_quarter parse_datetime (cleaned_of df)) l =
            getitem (cleaned_of df) l).
  { intros l H1 H2.
    pose proof (quarterly_revenue_other_columns parse_datetime
                  (cleaned_of df) l Hwf H1 H2) as [E _].
    rewrite Hrun in E. exact E. }
  exists (cleaned_of df).
  exists {| columns := ["CustomerID"; "Purchase Count"];
            rows := map (fun k => [k; Int (purchase_count (cleaned_of df) k)])
                        (filter (fun k => 10 <=? purchase_count (cleaned_of df) k)
                           (sort_keys (uniques (customers (cleaned_of df))))) |}.
  exists (reset_index "Quarter" "Total Revenue"
            (revenue parse_datetime (cleaned_of df))).
  exists {| columns := ["Description"; "Total Quantity Sold"];
            rows := as_rows (head (ranking argsort (cleaned_of df)) 5) |}.
  exists {| columns := ["Description"; "avg_quantity"; "avg_unit_price"];
            rows := map (fun d => [d; product_mean (cleaned_of df) "Quantity" d;
                                   product_mean (cleaned_of df) "UnitPrice" d])
                        (sort_keys (uniques (descriptions (cleaned_of df)))) |}.
  assert (Hl := loyalty_customers_closed (cleaned_of df) 10
                  (has_customer _ Hclean)).
  assert (Hh := high_demand_products_rows argsort (cleaned_of df) 5 Hclean).
  assert (Hp := purchase_patterns_rows (cleaned_of df) Hclean).
  repeat (split; [assumption|]).
  unfold main. rewrite Hfilter. cbn [bind]. rewrite Hl. cbn [bind].
  rewrite Hrun. cbn [bind].
  rewrite (high_demand_products_ext argsort (cleaned_of df))
    by (apply Hsame; discriminate).
  rewrite Hh. cbn [bind].
  rewrite (purchase_patterns_ext (cleaned_of df))
    by (apply Hsame; discriminate).
  rewrite Hp. reflexivity.
Qed.

(** A date that does not parse, in a row the cleaner keeps, ends the script
    with a [ValueError] (of that class or of its subclass [DateParseError]);
    in a row the cleaner drops it is never looked at. *)
Theorem main_date_parse_error (df : DataFrame) (r : list cell) (s : string) :
  retail_table df -> one_kind (customers df) -> In r (rows df) ->
  complete_and_positive (columns df) r = true ->
  cell_at (columns df) "InvoiceDate" r = Str s -> parse_datetime s = None ->
  exists e, main parse_datetime argsort df = Raise e /\ is_value_error e.
Proof.
  intros H _ Hr Hkeep Hs Hnone. exists DateParseError.
  split; [|right; reflexivity].
  pose proof (retail_table_filtered df H) as Hfilter.
  pose proof (retail_table_cleaned df H) as Hclean.
  fold (cleaned_of df) in Hfilter, Hclean.
  unfold main. rewrite Hfilter. cbn [bind].
  rewrite (loyalty_customers_closed (cleaned_of df) 10 (has_customer _ Hclean)).
  cbn [bind].
  rewrite (quarterly_revenue_unparsable parse_datetime (cleaned_of df) r s
             Hclean); [reflexivity| |exact Hs|exact Hnone].
  cbn [cleaned_of rows]. apply filter_In. auto.
Qed.

End ScriptProperties.

Lemma example_raw_dates_parse :
  forall r, In r (rows example_raw) ->
    complete_and_positive (columns example_raw) r = true ->
    parses parse_iso_date (cell_at (columns example_raw) "InvoiceDate" r).
Proof.
  intros r Hr _. simpl in Hr.
  repeat (destruct Hr as [<-|Hr]; [vm_compute; discriminate|]).
  contradiction.
Qed.

Lemma main_report_witness :
  (retail_table example_raw /\ one_kind (customers example_raw) /\
   forall r, In r (rows example_raw) ->
     complete_and_positive (columns example_raw) r = true ->
     parses parse_iso_date (cell_at (columns example_raw) "InvoiceDate" r)) /\
  exists cleaned loyal revenue high patterns,
    filter_data example_raw = Ok cleaned /\
    cleaned_table cleaned /\
    loyalty_customers cleaned 10 = Ok loyal /\
    quarterly_revenue parse_iso_date cleaned =
      (with_quarter parse_iso_date cleaned, Ok revenue) /\
    high_demand_products argsort_stable cleaned 5 = Ok high /\
    purchase_patterns cleaned = Ok patterns /\
    main parse_iso_date argsort_stable example_raw =
      Ok (mkReport loyal revenue high patterns
                   (with_quarter parse_iso_date cleaned)).
Proof.
  split; [split; [exact example_raw_is_retail
                 |split; [exact (int_ids_one_kind _ example_raw_int_ids)
                         |exact example_raw_dates_parse]]|].
  exact (main_report parse_iso_date argsort_stable example_raw
           example_raw_is_retail (int_ids_one_kind _ example_raw_int_ids)
           example_raw_dates_parse).
Defined.

Lemma raw_with_bad_date_is_retail : retail_table raw_with_bad_date.
Proof.
  split; simpl; auto 10.
  repeat (constructor;
          [split; [reflexivity|eexists; reflexivity|eexists; reflexivity
                  |right; eexists; reflexivity|exact I]|]).
  constructor.
Qed.

Lemma raw_with_bad_date_one_kind : one_kind (customers raw_with_bad_date).
Proof.
  apply int_ids_one_kind. unfold customers. simpl.
  repeat (constructor; [first [left; reflexivity|right; reflexivity]|]).
  constructor.
Qed.

Lemma main_date_parse_error_witness :
  (retail_table raw_with_bad_date /\
   one_kind (customers raw_with_bad_date) /\
   In (transaction 2 1 10 "B" "next week") (rows raw_with_bad_date) /\
   complete_and_positive (columns raw_with_bad_date)
     (transaction 2 1 10 "B" "next week") = true /\
   cell_at (columns raw_with_bad_date) "InvoiceDate"
     (transaction 2 1 10 "B" "next week") = Str "next week" /\
   parse_iso_date "next week" = None) /\
  exists e, main parse_iso_date argsort_stable raw_with_bad_date = Raise e /\
            is_value_error e.
Proof.
  split; [split; [exact raw_with_bad_date_is_retail
                 |split; [exact raw_with_bad_date_one_kind
                         |split; [right; left; reflexivity
                                 |split; [reflexivity|split; reflexivity]]]]|].
  apply (main_date_parse_error parse_iso_date argsort_stable raw_with_bad_date
           (transaction 2 1 10 "B" "next week") "next week"
           raw_with_bad_date_is_retail raw_with_bad_date_one_kind);
    [right; left; reflexivity|reflexivity|reflexivity|reflexivity].
Defined.

(** ** quarterly_revenue: rows without an invoice date *)

Section MissingDatesProperties.

Variable parse_datetime : string -> option (Z * Z * Z).

Lemma revenue_ready_run (df : DataFrame) :
  revenue_ready parse_datetime df ->
  quarterly_revenue parse_datetime df =
  (with_quarter parse_datetime df,
   Ok (reset_index "Quarter" "Total Revenue" (revenue parse_datetime df))).
Proof.
  intros [Hq Hu Hd Hwf Hrows].
  assert (Hlt : List.length (totals df) = List.length (rows df))
    by apply length_map.
  assert (Hwf1 : wellformed (with_total df))
    by apply set_column_wellformed, Hwf.
  assert (Hlq : List.length (quarters parse_datetime df) =
                List.length (rows (with_total df))).
  { unfold with_total. rewrite set_column_length by exact Hlt.
    apply length_map. }
  apply (quarterly_revenue_steps parse_datetime df
           (map (cell_at (columns df) "Quantity") (rows df))
           (map (cell_at (columns df) "UnitPrice") (rows df))
           (totals df)
           (map (cell_at (columns df) "InvoiceDate") (rows df))
           (map (fun r => datetime_of parse_datetime
                            (cell_at (columns df) "InvoiceDate" r))
                (rows df))
           (quarters parse_datetime df)).
  - apply getitem_cell_at, Hq.
  - apply getitem_cell_at, Hu.
  - unfold series_mul, totals. rewrite combine_maps.
    apply mapM_map_total. intros r Hr. cbn [fst snd]. unfold line_revenue.
    destruct (Hrows r Hr) as ([z ->] & [q ->] & _). reflexivity.
  - exact Hlt.
  - fold (with_total df). unfold with_total.
    rewrite getitem_set_column_other by (auto; discriminate).
    apply getitem_cell_at, Hd.
  - unfold to_datetime. apply mapM_map_total. intros r Hr.
    destruct (Hrows r Hr) as (_ & _ & [E|Hp]).
    + rewrite E. reflexivity.
    + unfold parses in Hp. unfold to_datetime_cell, datetime_of.
      destruct (cell_at (columns df) "InvoiceDate" r); try contradiction;
        [|reflexivity].
      destruct (parse_datetime s) as [[[y m] d]|]; [reflexivity|congruence].
  - unfold quarters. apply mapM_map_total. intros r Hr.
    destruct (Hrows r Hr) as (_ & _ & [E|Hp]).
    + rewrite E. reflexivity.
    + unfold parses in Hp. unfold quarter_of, datetime_of.
      destruct (cell_at (columns df) "InvoiceDate" r); try contradiction;
        [|reflexivity].
      destruct (parse_datetime s) as [[[y m] d]|]; [reflexivity|congruence].
  - exact Hlq.
  - fold (with_total df). fold (with_quarter parse_datetime df).
    assert (Htotal : getitem (with_quarter parse_datetime df) "Total" =
                     Ok (totals df)).
    { unfold with_quarter.
      rewrite getitem_set_column_other by (auto; discriminate).
      apply getitem_set_column_same; assumption. }
    assert (Hquarter : getitem (with_quarter parse_datetime df) "Quarter" =
                       Ok (quarters parse_datetime df))
      by (apply getitem_set_column_same; assumption).
    unfold groupby_sum, groupby_agg. rewrite Htotal. cbn [bind].
    rewrite Hquarter. cbn [bind].
    unfold quarters at 1, totals at 2. rewrite groupby_rows. unfold revenue.
    destruct (forallb is_int (totals df)) eqn:Eint.
    + destruct (rows df) as [|r l] eqn:Erows.
      * unfold quarters. rewrite Erows. reflexivity.
      * unfold totals in Eint. rewrite Erows in Eint. discriminate.
    + apply mapM_map_total. intros k _. unfold aggregate, sum_float64.
      cbn [fst snd]. rewrite float_values_numeric.
      * cbn [bind]. rewrite somes_floats. reflexivity.
      * apply forallb_forall. intros c Hc.
        apply in_map_iff in Hc as [r [<- _]]. reflexivity.
Qed.

Lemma quarter_of_missing (c : cell) :
  quarter_of parse_datetime c <> NaN -> c <> NaN.
Proof. intros H ->. apply H. reflexivity. Qed.

(** A missing invoice date raises nothing, and its row is left out without
    a word: the call succeeds, and the quarters it returns are those of the
    rows that have a date, no more and no fewer; no row of the result stands
    for the rows without a date. *)
Theorem quarterly_revenue_skips_missing_dates (df : DataFrame) :
  revenue_ready parse_datetime df ->
  exists out,
    quarterly_revenue parse_datetime df =
      (with_quarter parse_datetime df, Ok out) /\
    (forall k, In k (map (fun r => nth 0 r NaN) (rows out)) <->
       exists r, In r (dated_rows df) /\
         quarter_of parse_datetime (cell_at (columns df) "InvoiceDate" r) = k) /\
    ~ In NaN (map (fun r => nth 0 r NaN) (rows out)) /\
    (dated_rows df = [] -> rows out = []).
Proof.
  intros H.
  exists (reset_index "Quarter" "Total Revenue" (revenue parse_datetime df)).
  split; [apply revenue_ready_run, H|].
  assert (Hkeys : map (fun r => nth 0 r NaN)
                    (rows (reset_index "Quarter" "Total Revenue"
                             (revenue parse_datetime df))) =
                  sort_keys (uniques (quarters parse_datetime df))).
  { unfold reset_index, revenue. cbn [rows]. rewrite !map_map.
    cbn [nth fst]. apply map_id. }
  assert (Hiff : forall k,
            In k (sort_keys (uniques (quarters parse_datetime df))) <->
            exists r, In r (dated_rows df) /\
              quarter_of parse_datetime
                (cell_at (columns df) "InvoiceDate" r) = k).
  { intros k. rewrite sorted_uniques_In. unfold quarters, dated_rows. split.
    - intros [Hk Hna]. apply in_map_iff in Hk as (r & <- & Hr).
      exists r. split; [|reflexivity]. apply filter_In. split; [exact Hr|].
      apply quarter_of_missing in Hna.
      destruct (cell_at (columns df) "InvoiceDate" r);
        [contradiction|reflexivity..].
    - intros (r & Hr & <-). apply filter_In in Hr as [Hr Hna]. split.
      + apply in_map_iff. eauto.
      + destruct (ready_rows _ _ H r Hr) as (_ & _ & [E|Hp]).
        * rewrite E in Hna. discriminate.
        * apply quarter_of_parses, Hp. }
  rewrite Hkeys. split; [exact Hiff|]. split.
  - intros Hin. apply sorted_uniques_In in Hin as [_ Hna]. contradiction.
  - intros Hnone.
    destruct (sort_keys (uniques (quarters parse_datetime df)))
      as [|k ks] eqn:E.
    + unfold reset_index, revenue. rewrite E. reflexivity.
    + destruct (proj1 (Hiff k) (or_introl eq_refl)) as (r & Hr & _).
      rewrite Hnone in Hr. contradiction.
Qed.

End MissingDatesProperties.

Lemma example_missing_date_ready :
  revenue_ready parse_iso_date example_missing_date.
Proof.
  split; simpl; auto 10.
  - repeat constructor.
  - intros r Hr.
    destruct Hr as [<-|[<-|[<-|[]]]];
      (split; [eexists; reflexivity|split; [eexists; reflexivity|]]).
    + right. vm_compute. discriminate.
    + left. reflexivity.
    + right. vm_compute. discriminate.
Qed.

Lemma quarterly_revenue_skips_missing_dates_witness :
  revenue_ready parse_iso_date example_missing_date /\
  exists out,
    quarterly_revenue parse_iso_date example_missing_date =
      (with_quarter parse_iso_date example_missing_date, Ok out) /\
    (forall k, In k (map (fun r => nth 0 r NaN) (rows out)) <->
       exists r, In r (dated_rows example_missing_date) /\
         quarter_of parse_iso_date
           (cell_at (columns example_missing_date) "InvoiceDate" r) = k) /\
    ~ In NaN (map (fun r => nth 0 r NaN) (rows out)) /\
    (dated_rows example_missing_date = [] -> rows out = []).
Proof.
  split; [exact example_missing_date_ready|].
  exact (quarterly_revenue_skips_missing_dates parse_iso_date
           example_missing_date example_missing_date_ready).
Defined.
